(** * construct-editor: the entry tree, path addressing and the editor model

    A shallow embedding of
      - [construct_editor/helper/wrapper.py]  (the [Entry*] classes and
        [create_entry_from_construct]), and
      - [construct_editor/core/model.py]      ([ConstructEditorModel]).

    Python values are a small inductive type, exceptions are an explicit
    [outcome], attribute state that the code mutates ([root_obj], the
    array's [_subentries], the command history) is passed explicitly. *)

From Stdlib Require Import ZArith Lia Bool Ascii String.
From stdpp Require Import base tactics option list strings pretty.

Set Warnings "-register-all".
Local Open Scope string_scope.
Local Open Scope list_scope.

(** ** Exceptions and results *)

Inductive exn :=
| KeyError
| IndexError
| ValueError
| TypeError
| AttributeError
| RecursionError
| CallError (msg : string).   (* whatever a user supplied callable raises *)

Inductive outcome (A : Type) :=
| Returns (a : A)
| Raises (e : exn).
Arguments Returns {A} a.
Arguments Raises {A} e.

Global Instance outcome_ret : MRet outcome := fun A a => Returns a.
Global Instance outcome_bind : MBind outcome := fun A B f m =>
  match m with
  | Returns a => f a
  | Raises e => Raises e
  end.

Definition raises {A} (m : outcome A) : Prop := exists e, m = Raises e.

Global Instance exn_eq_dec : EqDecision exn.
Proof. solve_decision. Defined.

(** ** Python values

    [bool] is a subclass of [int] in Python, so [True]/[False] are
    [PyInt 1]/[PyInt 0].  [PyOpaque] stands for any other object (a float,
    an [arrow.Arrow], an enum member): it is neither a [dict] nor a [list]
    and has no [__len__]; its truth value, whether it can be hashed and what
    it equals are given by the runtime below.  A [dict] keeps its insertion order; its keys are
    the field names of a [construct.Container]. *)

Inductive pyobj :=
| PyNone
| PyInt (z : Z)
| PyStr (s : string)
| PyBytes (b : list Byte.byte)
| PyDict (items : list (string * pyobj))
| PyList (items : list pyobj)
| PyOpaque (repr : string).

Definition pyobj_eq_dec : forall x y : pyobj, {x = y} + {x <> y}.
Proof.
  fix IH 1.
  intros [|z|s|b|d|l|r] [|z'|s'|b'|d'|l'|r']; try (right; discriminate); try (left; reflexivity).
  - destruct (Z.eq_dec z z'); [left; congruence | right; congruence].
  - destruct (String.string_dec s s'); [left; congruence | right; congruence].
  - destruct (List.list_eq_dec Byte.byte_eq_dec b b'); [left; congruence | right; congruence].
  - assert (Hp : forall a b : string * pyobj, {a = b} + {a <> b}).
    { intros [k v] [k' v'].
      destruct (String.string_dec k k'); [|right; congruence].
      destruct (IH v v'); [left; congruence | right; congruence]. }
    destruct (List.list_eq_dec Hp d d'); [left; congruence | right; congruence].
  - destruct (List.list_eq_dec IH l l'); [left; congruence | right; congruence].
  - destruct (String.string_dec r r'); [left; congruence | right; congruence].
Defined.
Global Instance pyobj_eqdec : EqDecision pyobj := pyobj_eq_dec.

Definition isinstance_dict (o : pyobj) : bool :=
  match o with PyDict _ => true | _ => false end.
Definition isinstance_list (o : pyobj) : bool :=
  match o with PyList _ => true | _ => false end.
Definition is_container (o : pyobj) : bool :=
  isinstance_dict o || isinstance_list o.

(** Truth value of an object, as [if cond:] tests it.  For an object that
    the model does not look into it is [bool(o)] as [opaque_bool] gives it
    (a float is false when it is zero), and taking it may raise. *)
Definition py_truthy (opaque_bool : string -> outcome bool) (o : pyobj) : outcome bool :=
  match o with
  | PyNone => Returns false
  | PyInt z => Returns (negb (Z.eqb z 0))
  | PyStr s => Returns (negb (String.eqb s ""))
  | PyBytes b => Returns (negb (Nat.eqb (length b) 0))
  | PyDict d => Returns (negb (Nat.eqb (length d) 0))
  | PyList l => Returns (negb (Nat.eqb (length l) 0))
  | PyOpaque r => opaque_bool r
  end.

(** [len(o)]: a [TypeError] for objects without [__len__]. *)
Definition py_len (o : pyobj) : outcome Z :=
  match o with
  | PyStr s => Returns (Z.of_nat (String.length s))
  | PyBytes b => Returns (Z.of_nat (length b))
  | PyDict d => Returns (Z.of_nat (length d))
  | PyList l => Returns (Z.of_nat (length l))
  | PyNone | PyInt _ | PyOpaque _ => Raises TypeError
  end.

(** *** [int(s)] on a string

    A character of a string stands for its code point, which is below 256;
    strings with other characters are outside this model.  Surrounding
    whitespace is stripped, one sign is allowed, and digits may be grouped by
    single underscores.  The whitespace that [int] strips is tab to carriage
    return, the space, and the two blanks above 127 (next line and no-break
    space); the separators 28 to 31 are not stripped.  This is [int] as the
    language defines it; the bound that CPython 3.11 and later put on the
    number of digits ([sys.int_max_str_digits], 4300 unless it is changed) is
    no part of it. *)

Definition is_space (a : ascii) : bool :=
  let n := nat_of_ascii a in
  ((9 <=? n)%nat && (n <=? 13)%nat) || (n =? 32)%nat || (n =? 133)%nat || (n =? 160)%nat.

Definition digit_of (a : ascii) : option Z :=
  let n := nat_of_ascii a in
  if (48 <=? n)%nat && (n <=? 57)%nat then Some (Z.of_nat (n - 48)) else None.

Fixpoint parse_digits (acc : Z) (after_digit : bool) (s : list ascii) : option Z :=
  match s with
  | [] => if after_digit then Some acc else None
  | c :: s' =>
      match digit_of c with
      | Some d => parse_digits (10 * acc + d) true s'
      | None =>
          if Ascii.eqb c "_" && after_digit then parse_digits acc false s' else None
      end
  end.

Fixpoint lstrip (s : list ascii) : list ascii :=
  match s with
  | c :: s' => if is_space c then lstrip s' else s
  | [] => []
  end.

Definition strip (s : list ascii) : list ascii :=
  rev (lstrip (rev (lstrip s))).

Definition py_int (s : string) : option Z :=
  match strip (list_ascii_of_string s) with
  | c :: s' =>
      if Ascii.eqb c "-" then Z.opp <$> parse_digits 0 false s'
      else if Ascii.eqb c "+" then parse_digits 0 false s'
      else parse_digits 0 false (c :: s')
  | [] => None
  end.

(** *** Subscription

    [l[i]] accepts [-len <= i < len]; a negative index counts from the end. *)
Definition py_index (len : nat) (i : Z) : option nat :=
  if (0 <=? i)%Z && (i <? Z.of_nat len)%Z then Some (Z.to_nat i)
  else if (- Z.of_nat len <=? i)%Z && (i <? 0)%Z then Some (Z.to_nat (Z.of_nat len + i))
  else None.

Fixpoint dict_get (k : string) (d : list (string * pyobj)) : option pyobj :=
  match d with
  | [] => None
  | (k', v) :: d' => if String.eqb k k' then Some v else dict_get k d'
  end.

(** [d[k] = v]: replaces the value of an existing key in place, or appends
    the new key. *)
Fixpoint dict_set (k : string) (v : pyobj) (d : list (string * pyobj)) : list (string * pyobj) :=
  match d with
  | [] => [(k, v)]
  | (k', v') :: d' => if String.eqb k k' then (k', v) :: d' else (k', v') :: dict_set k v d'
  end.


(** ** Path addressing into the root object

    The body of the loops in the [obj] getter and setter of
    [EntryConstruct]:
<<
      if isinstance(obj, dict):   obj = obj[p]
      elif isinstance(obj, list): obj = obj[int(p)]
>>
    There is no [else]: on any other object the segment is passed over. *)
Definition getitem (obj : pyobj) (p : string) : outcome pyobj :=
  match obj with
  | PyDict d =>
      match dict_get p d with
      | Some v => Returns v
      | None => Raises KeyError
      end
  | PyList l =>
      match py_int p with
      | None => Raises ValueError
      | Some i =>
          match py_index (length l) i with
          | None => Raises IndexError
          | Some n =>
              match l !! n with
              | Some v => Returns v
              | None => Raises IndexError
              end
          end
      end
  | _ => Returns obj
  end.

(** [for p in path: ...] starting from [obj]. *)
Fixpoint traverse (obj : pyobj) (path : list string) : outcome pyobj :=
  match path with
  | [] => Returns obj
  | p :: rest => obj' ← getitem obj p; traverse obj' rest
  end.

(** The final assignment of the setter,
<<
      if isinstance(obj, dict):   obj[path[-1]] = val
      elif isinstance(obj, list): obj[int(path[-1])] = val
>>
    with [last = None] when [path] is empty, so that [path[-1]] raises
    [IndexError].  The result is the container after the assignment. *)
Definition setitem (obj : pyobj) (last : option string) (val : pyobj) : outcome pyobj :=
  match obj with
  | PyDict d =>
      match last with
      | None => Raises IndexError
      | Some p => Returns (PyDict (dict_set p val d))
      end
  | PyList l =>
      match last with
      | None => Raises IndexError
      | Some p =>
          match py_int p with
          | None => Raises ValueError
          | Some i =>
              match py_index (length l) i with
              | None => Raises IndexError
              | Some n => Returns (PyList (<[n := val]> l))
              end
          end
      end
  | _ => Returns obj
  end.

(** The setter mutates, in place, the container that the traversal of
    [path[:-1]] arrives at.  A [pyobj] is a tree: it stands for a root
    object in which no container is reached along two paths, and on it the
    mutation is the root object rebuilt along the traversed segments; a
    segment passed over leaves the object where it is.  A root object that
    holds the same container in two places (a [Computed] field that returns
    another field) is not a [pyobj]; for it the setter is [obj_set_heap]
    below, on a heap of containers. *)
Fixpoint assign (obj : pyobj) (path : list string) (val : pyobj) : outcome pyobj :=
  match path with
  | [] => setitem obj None val
  | [p] => setitem obj (Some p) val
  | p :: rest =>
      match obj with
      | PyDict d =>
          match dict_get p d with
          | None => Raises KeyError
          | Some child => child' ← assign child rest val; Returns (PyDict (dict_set p child' d))
          end
      | PyList l =>
          match py_int p with
          | None => Raises ValueError
          | Some i =>
              match py_index (length l) i with
              | None => Raises IndexError
              | Some n =>
                  match l !! n with
                  | None => Raises IndexError
                  | Some child => child' ← assign child rest val; Returns (PyList (<[n := child']> l))
                  end
              end
          end
      | _ => assign obj rest val
      end
  end.

(** ** The grammar: [construct.Construct] objects

    A grammar node is known to the editor by its runtime class, its [name]
    attribute and the attributes of its category.  Classes are class objects
    with their bases; [isinstance(x, k)] holds when [k] is [type(x)] or one of
    its ancestors. *)

Inductive pytype := PyClass (qualname : string) (bases : list pytype).

Definition pytype_eq_dec : forall x y : pytype, {x = y} + {x <> y}.
Proof.
  fix IH 1.
  intros [n bs] [n' bs'].
  destruct (String.string_dec n n'); [|right; congruence].
  destruct (List.list_eq_dec IH bs bs'); [left; congruence | right; congruence].
Defined.
Global Instance pytype_eqdec : EqDecision pytype := pytype_eq_dec.

Fixpoint issubclass (c k : pytype) : bool :=
  bool_decide (c = k) ||
  match c with
  | PyClass _ bases => existsb (fun b => issubclass b k) bases
  end.

(** A parameter of a grammar node ([count], [condfunc], [keyfunc]) is a
    constant or a callable taking the parse context.  A callable is known by
    its qualified name; what it computes is given by the interpretation
    [call] of the runtime below. *)
Inductive param :=
| PConst (v : pyobj)
| PCallable (qualname : string).

Global Instance param_eqdec : EqDecision param.
Proof. solve_decision. Defined.

Inductive construct :=
| CLeaf (ty : pytype) (name : option string)
| CSubcon (ty : pytype) (name : option string) (subcon : construct)
| CArray (ty : pytype) (name : option string) (count : param) (subcon : construct)
| CStruct (ty : pytype) (name : option string) (subcons : list construct)
| CTStruct (ty : pytype) (name : option string) (reverse : bool) (subcon : construct)
| CIfThenElse (ty : pytype) (name : option string) (condfunc : param)
    (thensubcon elsesubcon : construct)
| CSwitch (ty : pytype) (name : option string) (keyfunc : param)
    (cases : list (pyobj * construct)) (default : option construct).

Definition construct_eq_dec : forall x y : construct, {x = y} + {x <> y}.
Proof.
  fix IH 1.
  assert (Ho : forall a b : option construct, {a = b} + {a <> b}).
  { intros [a|] [b|]; try (right; discriminate); [|left; reflexivity].
    destruct (IH a b); [left; congruence | right; congruence]. }
  assert (Hp : forall a b : pyobj * construct, {a = b} + {a <> b}).
  { intros [k v] [k' v'].
    destruct (pyobj_eq_dec k k'); [|right; congruence].
    destruct (IH v v'); [left; congruence | right; congruence]. }
  intros [t n|t n s|t n c s|t n ss|t n r s|t n c a b|t n k cs d]
         [t' n'|t' n' s'|t' n' c' s'|t' n' ss'|t' n' r' s'|t' n' c' a' b'|t' n' k' cs' d'];
    try (right; discriminate);
    (destruct (pytype_eq_dec t t'); [|right; congruence]);
    (destruct (decide (n = n')); [|right; congruence]).
  - left; congruence.
  - destruct (IH s s'); [left; congruence | right; congruence].
  - destruct (decide (c = c')); [|right; congruence].
    destruct (IH s s'); [left; congruence | right; congruence].
  - destruct (List.list_eq_dec IH ss ss'); [left; congruence | right; congruence].
  - destruct (decide (r = r')); [|right; congruence].
    destruct (IH s s'); [left; congruence | right; congruence].
  - destruct (decide (c = c')); [|right; congruence].
    destruct (IH a a'); [|right; congruence].
    destruct (IH b b'); [left; congruence | right; congruence].
  - destruct (decide (k = k')); [|right; congruence].
    destruct (List.list_eq_dec Hp cs cs'); [|right; congruence].
    destruct (Ho d d'); [left; congruence | right; congruence].
Defined.
Global Instance construct_eqdec : EqDecision construct := construct_eq_dec.

(** [type(c)], [c.name], [c.subcon] *)
Definition con_type (c : construct) : pytype :=
  match c with
  | CLeaf ty _ | CSubcon ty _ _ | CArray ty _ _ _ | CStruct ty _ _
  | CTStruct ty _ _ _ | CIfThenElse ty _ _ _ _ | CSwitch ty _ _ _ _ => ty
  end.

Definition con_name (c : construct) : option string :=
  match c with
  | CLeaf _ n | CSubcon _ n _ | CArray _ n _ _ | CStruct _ n _
  | CTStruct _ n _ _ | CIfThenElse _ n _ _ _ | CSwitch _ n _ _ _ => n
  end.

(** An attribute that the object does not have raises [AttributeError]. *)
Definition con_subcon (c : construct) : outcome construct :=
  match c with
  | CSubcon _ _ sc | CArray _ _ _ sc | CTStruct _ _ _ sc => Returns sc
  | _ => Raises AttributeError
  end.

(** The measure that the entry tree decreases along. *)
Fixpoint csize (c : construct) : nat :=
  match c with
  | CLeaf _ _ => 1
  | CSubcon _ _ sc => 1 + csize sc
  | CArray _ _ _ sc => 2 + csize sc
  | CStruct _ _ scs => 1 + list_sum (map csize scs)
  | CTStruct _ _ _ sc => 1 + csize sc
  | CIfThenElse _ _ _ t e => 2 + csize t + csize e
  | CSwitch _ _ _ cases d =>
      2 + list_sum (map (fun kc => csize (snd kc)) cases)
        + match d with Some dc => csize dc | None => 0 end
  end.

(** *** The classes of the grammar library

    The class objects of [construct] and [construct_typing] that the editor
    registers, with their bases as the libraries declare them. *)
Definition py_object : pytype := PyClass "object" [].
Definition cs_Construct : pytype := PyClass "construct.Construct" [py_object].
Definition cs_Subconstruct : pytype := PyClass "construct.Subconstruct" [cs_Construct].
Definition cs_Adapter : pytype := PyClass "construct.Adapter" [cs_Subconstruct].
Definition cs_Bytes : pytype := PyClass "construct.Bytes" [cs_Construct].
Definition cs_FormatField : pytype := PyClass "construct.FormatField" [cs_Construct].
Definition cs_BytesInteger : pytype := PyClass "construct.BytesInteger" [cs_Construct].
Definition cs_BitsInteger : pytype := PyClass "construct.BitsInteger" [cs_Construct].
Definition cs_Enum : pytype := PyClass "construct.Enum" [cs_Adapter].
Definition cs_FlagsEnum : pytype := PyClass "construct.FlagsEnum" [cs_Adapter].
Definition cs_Struct : pytype := PyClass "construct.Struct" [cs_Construct].
Definition cs_Array : pytype := PyClass "construct.Array" [cs_Subconstruct].
Definition cs_GreedyRange : pytype := PyClass "construct.GreedyRange" [cs_Subconstruct].
Definition cs_Renamed_t : pytype := PyClass "construct.Renamed" [cs_Subconstruct].
Definition cs_Const : pytype := PyClass "construct.Const" [cs_Subconstruct].
Definition cs_Computed : pytype := PyClass "construct.Computed" [cs_Construct].
Definition cs_Default : pytype := PyClass "construct.Default" [cs_Subconstruct].
Definition cs_TimestampAdapter : pytype := PyClass "construct.TimestampAdapter" [cs_Adapter].
Definition cs_IfThenElse : pytype := PyClass "construct.IfThenElse" [cs_Construct].
Definition cs_Switch : pytype := PyClass "construct.Switch" [cs_Construct].
Definition cs_Pointer : pytype := PyClass "construct.Pointer" [cs_Subconstruct].
Definition cs_Peek : pytype := PyClass "construct.Peek" [cs_Subconstruct].
Definition cs_Seek : pytype := PyClass "construct.Seek" [cs_Construct].
Definition type_cs_Tell : pytype := PyClass "construct.Tell" [cs_Construct].
Definition type_cs_Pass : pytype := PyClass "construct.Pass" [cs_Construct].
Definition cs_RawCopy : pytype := PyClass "construct.RawCopy" [cs_Subconstruct].
Definition cs_Transformed : pytype := PyClass "construct.Transformed" [cs_Subconstruct].
Definition cs_Restreamed : pytype := PyClass "construct.Restreamed" [cs_Subconstruct].
Definition cst_TStruct : pytype := PyClass "construct_typed.TStruct" [cs_Adapter].
Definition cst_TBitStruct : pytype := PyClass "construct_typed.TBitStruct" [cs_Adapter].
Definition cst_TEnum : pytype := PyClass "construct_typed.TEnum" [cs_Adapter].
Definition IncludeGuiMetaData : pytype :=
  PyClass "construct_editor.helper.preprocessor.IncludeGuiMetaData" [cs_Subconstruct].

(** [cs.Renamed(subcon, newname=newname)]: the library sets
    [name = newname if newname else subcon.name]. *)
Definition cs_Renamed (subcon : construct) (newname : string) : construct :=
  CSubcon cs_Renamed_t
    (if String.eqb newname "" then con_name subcon else Some newname) subcon.

(** ** Entries *)

Inductive entry_class :=
| EntryConstruct | EntrySubconstruct | EntryStruct | EntryArray | EntryGreedyRange
| EntryIfThenElse | EntrySwitch | EntryFormatField | EntryBytesInteger
| EntryBitsInteger | EntryBytes | EntryRenamed | EntryTell | EntrySeek | EntryPass
| EntryComputed | EntryTimestamp | EntryTransparentSubcon | EntryPeek | EntryRawCopy
| EntryTStruct | EntryTBitStruct | EntryEnum | EntryFlagsEnum | EntryTEnum.

Global Instance entry_class_eqdec : EqDecision entry_class.
Proof. solve_decision. Defined.

(** An entry object: its class, [_construct], [_exclude_from_path] (an
    attribute of [EntryRenamed] only, [false] elsewhere) and [_parent].  The
    parent exists before the entry is built and is never reassigned, so an
    entry carries its chain of ancestors.  Two entries are the same object
    when they agree on these; where the code compares entries ([in] on
    [list_viewed_entries]) this equality stands for the identity of the
    objects. *)
Inductive entry :=
| Entry (cls : entry_class) (con : construct) (exclude_from_path : bool)
    (parent : option entry).

Definition entry_eq_dec : forall x y : entry, {x = y} + {x <> y}.
Proof.
  fix IH 1.
  intros [c k x p] [c' k' x' p'].
  destruct (decide (c = c')); [|right; congruence].
  destruct (construct_eq_dec k k'); [|right; congruence].
  destruct (decide (x = x')); [|right; congruence].
  destruct p as [p|], p' as [p'|]; try (right; discriminate).
  - destruct (IH p p'); [left; congruence | right; congruence].
  - left; congruence.
Defined.
Global Instance entry_eqdec : EqDecision entry := entry_eq_dec.

Definition entry_cls (e : entry) : entry_class := match e with Entry c _ _ _ => c end.
Definition construct_of (e : entry) : construct := match e with Entry _ k _ _ => k end.
Definition exclude_from_path (e : entry) : bool := match e with Entry _ _ x _ => x end.
Definition parent (e : entry) : option entry := match e with Entry _ _ _ p => p end.

(** [EntryConstruct.name] (no class overrides it) *)
Definition name (e : entry) : string :=
  match con_name (construct_of e) with
  | Some n => n
  | None => ""
  end.

(** [EntryConstruct.path], given the path of the parent when there is one:
<<
      if parent is not None:
          path = parent.path
          if name != "": path.append(name)
      else:
          path = []
>> *)
Definition EntryConstruct_path (parent_path : option (list string)) (name : string)
  : list string :=
  match parent_path with
  | Some path => if String.eqb name "" then path else path ++ [name]
  | None => []
  end.

(** [EntryRenamed.path] *)
Definition EntryRenamed_path (exclude : bool) (parent_path : option (list string))
    (name : string) : list string :=
  if exclude then
    match parent_path with
    | Some path => path
    | None => []
    end
  else EntryConstruct_path parent_path name.

(** The [path] property, dispatched on the class of the entry. *)
Fixpoint path (e : entry) : list string :=
  match e with
  | Entry cls con excl parent =>
      let parent_path := match parent with Some p => Some (path p) | None => None end in
      match cls with
      | EntryRenamed => EntryRenamed_path excl parent_path (name e)
      | _ => EntryConstruct_path parent_path (name e)
      end
  end.

(** The [obj] getter and setter; [root] is [self.model.root_obj].  The setter
    returns the root object after the assignment. *)
Definition obj (e : entry) (root : pyobj) : outcome pyobj :=
  traverse root (path e).

Definition obj_set (e : entry) (val : pyobj) (root : pyobj) : outcome pyobj :=
  assign root (path e) val.

(** ** The entry mapping and the factory *)

Definition entry_mapping_construct : list (pytype * entry_class) :=
  [ (cs_Bytes, EntryBytes);
    (cs_FormatField, EntryFormatField);
    (cs_BytesInteger, EntryBytesInteger);
    (cs_BitsInteger, EntryBitsInteger);
    (cs_Enum, EntryEnum);
    (cs_FlagsEnum, EntryFlagsEnum);
    (cs_Struct, EntryStruct);
    (cs_Array, EntryArray);
    (cs_GreedyRange, EntryGreedyRange);
    (cs_Renamed_t, EntryRenamed);
    (cs_Const, EntryTransparentSubcon);
    (cs_Computed, EntryComputed);
    (cs_Default, EntryTransparentSubcon);
    (cs_TimestampAdapter, EntryTimestamp);
    (cs_IfThenElse, EntryIfThenElse);
    (cs_Switch, EntrySwitch);
    (cs_Pointer, EntryTransparentSubcon);
    (cs_Peek, EntryPeek);
    (cs_Seek, EntrySeek);
    (type_cs_Tell, EntryTell);
    (type_cs_Pass, EntryPass);
    (cs_RawCopy, EntryRawCopy);
    (cs_Transformed, EntryTransparentSubcon);
    (cs_Restreamed, EntryTransparentSubcon);
    (cst_TStruct, EntryTStruct);
    (cst_TBitStruct, EntryTBitStruct);
    (cst_TEnum, EntryTEnum);
    (IncludeGuiMetaData, EntryTransparentSubcon) ].

(** [mapping[ty]] when [ty in mapping] *)
Fixpoint mapping_get (ty : pytype) (mapping : list (pytype * entry_class))
  : option entry_class :=
  match mapping with
  | [] => None
  | (key, value) :: rest => if bool_decide (ty = key) then Some value else mapping_get ty rest
  end.

(** [for key, value in mapping.items(): if isinstance(subcon, key): return ...] *)
Fixpoint mapping_first_instance (ty : pytype) (mapping : list (pytype * entry_class))
  : option entry_class :=
  match mapping with
  | [] => None
  | (key, value) :: rest =>
      if issubclass ty key then Some value else mapping_first_instance ty rest
  end.

(** The class that [create_entry_from_construct] instantiates for a node of
    runtime type [ty]; [None] when none of its [return] statements is reached
    and the function comes to its last statement, the [raise]. *)
Definition entry_class_for (mapping : list (pytype * entry_class)) (ty : pytype)
  : option entry_class :=
  match mapping_get ty mapping with
  | Some cls => Some cls
  | None =>
      match mapping_first_instance ty mapping with
      | Some cls => Some cls
      | None => if issubclass ty cs_Construct then Some EntryConstruct else None
      end
  end.

(** [EntryRenamed.__init__] *)
Definition EntryRenamed_init (parent : option entry) (con : construct)
    (exclude_from_path : bool) : outcome entry :=
  sc ← con_subcon con;
  Returns (Entry EntryRenamed con
             (exclude_from_path || bool_decide (con_name con = con_name sc)) parent).

(** The constructor of class [cls].  The constructors build the entries below
    them at once; here those are built when they are asked for ([subentry],
    [subentries]), from the same immutable grammar, so an exception of a
    constructor below shows when that entry is asked for. *)
Definition new_entry (cls : entry_class) (parent : option entry) (con : construct)
  : outcome entry :=
  match cls with
  | EntryRenamed => EntryRenamed_init parent con false
  | _ => Returns (Entry cls con false parent)
  end.

(** The factory over a mapping.  Its last statement is
<<
      raise ValueError("subcon type {} is not implemented".format(repr(subcon)))
>>
    An entry that is returned is wrapped in [Some], as the lists of children
    hold it. *)
Definition create_entry_with (mapping : list (pytype * entry_class))
    (parent : option entry) (subcon : construct) : outcome (option entry) :=
  match entry_class_for mapping (con_type subcon) with
  | Some cls => e ← new_entry cls parent subcon; Returns (Some e)
  | None => Raises ValueError
  end.

Definition create_entry_from_construct : option entry -> construct -> outcome (option entry) :=
  create_entry_with entry_mapping_construct.

(** ** What the entries use from outside this code

    The Python built-ins and [construct_editor.helper.preprocessor] are not
    part of the two modules embedded here; they are the fields of a runtime. *)

(** Modelled from the spec: the metadata side-channel of
    [construct_editor.helper.preprocessor], "attachContext(value, context) ->
    value'" and "lookupContext(value) -> context | absent", an opaque
    association from a value to the parse context attached to it
    ([add_gui_metadata], [get_gui_metadata] and the [context] attribute of the
    metadata).  The other fields are Python's: the call of a callable, [str]
    and string formatting. *)
Record runtime := {
  GuiMetaData : Type;
  get_gui_metadata : pyobj -> option GuiMetaData;
  add_gui_metadata : pyobj -> GuiMetaData -> pyobj;
  md_context : GuiMetaData -> pyobj;
  (* calling the callable of that name on a context *)
  call : string -> pyobj -> outcome pyobj;
  (* [str(o)] and [f"{p}"] for the synthetic branch labels *)
  py_str : pyobj -> string;
  py_str_param : param -> string;
  (* for an object that the model does not look into: [bool(o)], whether
     [hash(o)] returns, and [a == b] with equal hashes when [a] or [b] is
     such an object (so [1.0] and [1] are the same key) *)
  opaque_bool : string -> outcome bool;
  opaque_hashable : string -> bool;
  opaque_key_eq : pyobj -> pyobj -> bool;
}.

Definition deref {A} (o : option A) : outcome A :=
  match o with
  | Some a => Returns a
  | None => Raises AttributeError
  end.

Definition con_count (c : construct) : outcome param :=
  match c with
  | CArray _ _ n _ => Returns n
  | _ => Raises AttributeError
  end.

(** A key that cannot be hashed makes [key in d] raise [TypeError]. *)
Definition py_hashable (rt : runtime) (o : pyobj) : bool :=
  match o with
  | PyOpaque r => opaque_hashable rt r
  | _ => negb (is_container o)
  end.

(** Two keys are the same key of a dict: equal, with equal hashes. *)
Definition py_key_eq (rt : runtime) (a b : pyobj) : bool :=
  match a, b with
  | PyOpaque _, _ | _, PyOpaque _ => opaque_key_eq rt a b
  | _, _ => bool_decide (a = b)
  end.

(** [self.subentry] of an [EntrySubconstruct], built by its [__init__] *)
Definition subentry (self : entry) : outcome (option entry) :=
  sc ← con_subcon (construct_of self);
  create_entry_from_construct (Some self) sc.

(** [holder.subentry], then [k] on it when it is an entry and [dflt] when it
    is [None]; [sc] is [holder.construct.subcon]. *)
Definition with_subentry {R} (holder : entry) (sc : construct) (dflt : outcome R)
    (k : entry_class -> bool -> option entry -> outcome R) : outcome R :=
  oe ← create_entry_from_construct (Some holder) sc;
  match oe with
  | None => dflt
  | Some child => k (entry_cls child) (exclude_from_path child) (parent child)
  end.

(** The synthetic, excluded-from-path wrappers of [EntryIfThenElse] and
    [EntrySwitch]: [EntryRenamed(model, self, cs.Renamed(sc, newname=label),
    exclude_from_path=True)]. *)
Definition branch_entry (self : entry) (sc : construct) (label : string) : entry :=
  Entry EntryRenamed (cs_Renamed sc label) true (Some self).

Section Entries.
Context (rt : runtime).

(** [evaluate(param, context)] *)
Definition evaluate (p : param) (context : pyobj) : outcome pyobj :=
  match p with
  | PCallable f => call rt f context
  | PConst v => Returns v
  end.

(** *** [EntryArray] and [EntryGreedyRange] *)

(** [try: array_len = len(self.obj) except Exception: ...] *)
Definition EntryArray_array_len (self : entry) (root : pyobj) : outcome Z :=
  match (o ← obj self root; py_len o) with
  | Returns n => Returns n
  | Raises _ =>
      count ← con_count (construct_of self);
      Returns (match count with
               | PConst (PyInt n) => n
               | _ => 1%Z
               end)
  end.

Definition EntryGreedyRange_array_len (self : entry) (root : pyobj) : outcome Z :=
  match (o ← obj self root; py_len o) with
  | Returns n => Returns n
  | Raises _ => Returns 1%Z
  end.

(** [insert_entry]: appends to [self._subentries] *)
Definition insert_entry (self : entry) (index : nat) (_subentries : list (option entry))
  : outcome (list (option entry)) :=
  sc ← con_subcon (construct_of self);
  subentry ← create_entry_from_construct (Some self) (cs_Renamed sc (pretty index));
  Returns (_subentries ++ [subentry]).

(** [for index in range(0, array_len): self.insert_entry(index)] *)
Fixpoint insert_entries (self : entry) (indices : list nat)
    (_subentries : list (option entry)) : outcome (list (option entry)) :=
  match indices with
  | [] => Returns _subentries
  | index :: rest =>
      l ← insert_entry self index _subentries;
      insert_entries self rest l
  end.

(** The body of [subentries] below the computation of [array_len]; the
    result is the list [self._subentries] after the access, which is also
    what the property returns. *)
Definition sync_subentries (self : entry) (array_len : Z)
    (_subentries : list (option entry)) : outcome (list (option entry)) :=
  if bool_decide (Z.of_nat (length _subentries) <> array_len)
  then insert_entries self (seq 0 (Z.to_nat array_len)) []
  else Returns _subentries.

Definition EntryArray_subentries (self : entry) (root : pyobj)
    (_subentries : list (option entry)) : outcome (list (option entry)) :=
  array_len ← EntryArray_array_len self root;
  sync_subentries self array_len _subentries.

Definition EntryGreedyRange_subentries (self : entry) (root : pyobj)
    (_subentries : list (option entry)) : outcome (list (option entry)) :=
  array_len ← EntryGreedyRange_array_len self root;
  sync_subentries self array_len _subentries.

(** *** [EntryIfThenElse] and [EntrySwitch] *)

Definition then_entry (self : entry) (condfunc : param) (thensubcon : construct) : entry :=
  branch_entry self thensubcon ("If " +:+ py_str_param rt condfunc +:+ " then").
Definition else_entry (self : entry) (elsesubcon : construct) : entry :=
  branch_entry self elsesubcon "Else".
Definition case_entry (self : entry) (keyfunc : param) (key : pyobj) (value : construct)
  : entry :=
  branch_entry self value
    ("Case " +:+ py_str_param rt keyfunc +:+ " == " +:+ py_str rt key).
Definition default_entry (self : entry) (default : construct) : entry :=
  branch_entry self default "Default".

(** The first lines of both [_get_subentry]: the live value, the test for
    [None], the metadata of the value and the evaluation of the function on
    [metadata.context].  [None] is the [return None] of an absent value. *)
Definition evaluate_on_obj (self : entry) (root : pyobj) (func : param)
  : outcome (option pyobj) :=
  o ← obj self root;
  if bool_decide (o = PyNone) then Returns None
  else
    match get_gui_metadata rt o with
    | None => Raises AttributeError   (* [metadata.context] on [None] *)
    | Some metadata => v ← evaluate func (md_context rt metadata); Returns (Some v)
    end.

Definition EntryIfThenElse_get_subentry (self : entry) (root : pyobj)
  : outcome (option entry) :=
  match construct_of self with
  | CIfThenElse _ _ condfunc thensubcon elsesubcon =>
      r ← evaluate_on_obj self root condfunc;
      match r with
      | None => Returns None
      | Some cond =>
          b ← py_truthy (opaque_bool rt) cond;
          if b : bool then subentry (then_entry self condfunc thensubcon)
          else subentry (else_entry self elsesubcon)
      end
  | _ => Raises AttributeError
  end.

(** [self._subentries] of an [EntryIfThenElse] *)
Definition EntryIfThenElse_static (self : entry) : outcome (list (option entry)) :=
  match construct_of self with
  | CIfThenElse _ _ condfunc thensubcon elsesubcon =>
      Returns [Some (then_entry self condfunc thensubcon);
               Some (else_entry self elsesubcon)]
  | _ => Raises AttributeError
  end.

(** [self._subentry_cases[key]] for the first case equal to [key] *)
Fixpoint find_case (key : pyobj) (cases : list (pyobj * construct))
  : option (pyobj * construct) :=
  match cases with
  | [] => None
  | (k, value) :: rest => if py_key_eq rt key k then Some (k, value) else find_case key rest
  end.

Definition EntrySwitch_get_subentry (self : entry) (root : pyobj)
  : outcome (option entry) :=
  match construct_of self with
  | CSwitch _ _ keyfunc cases default =>
      r ← evaluate_on_obj self root keyfunc;
      match r with
      | None => Returns None
      | Some key =>
          if negb (py_hashable rt key) then Raises TypeError
          else
            match find_case key cases with
            | Some (k, value) => Returns (Some (case_entry self keyfunc k value))
            | None => Returns (default_entry self <$> default)
            end
      end
  | _ => Raises AttributeError
  end.

(** [self._subentries] of an [EntrySwitch] *)
Definition EntrySwitch_static (self : entry) : outcome (list (option entry)) :=
  match construct_of self with
  | CSwitch _ _ keyfunc cases default =>
      Returns (map (fun kv => Some (case_entry self keyfunc (fst kv) (snd kv))) cases
               ++ match default with
                  | Some d => [Some (default_entry self d)]
                  | None => []
                  end)
  | _ => Raises AttributeError
  end.
End Entries.

(** [for subentry in l: f(subentry, acc)] over a list of entries, where a
    [None] in the list has no attribute to call. *)
Fixpoint for_each_subentry (f : entry -> list entry -> outcome (list entry))
    (l : list (option entry)) (acc : list entry) : outcome (list entry) :=
  match l with
  | [] => Returns acc
  | subentry :: rest =>
      s ← deref subentry;
      acc' ← f s acc;
      for_each_subentry f rest acc'
  end.

(** A bound on the depth of the entry tree below an entry: the children of
    an entry are entries of smaller grammar nodes, except that the children
    of an array are renamed copies of its element node. *)
Definition is_array_class (cls : entry_class) : bool :=
  match cls with
  | EntryArray | EntryGreedyRange => true
  | _ => false
  end.

Definition entry_measure (e : entry) : nat :=
  2 * csize (construct_of e) + (if is_array_class (entry_cls e) then 1 else 0).

Definition depth_bound (e : entry) : nat := 2 * csize (construct_of e) + 1.

Section Subentries.
Context (rt : runtime).

(** The [subentries] property, dispatched on the class of the entry
    [self = Entry cls con excl parent]; [None] is a leaf.  The recursion
    follows the delegation to [self.subentry] and to the branch entries,
    which are entries of sub-constructs of [con].

    [EntryArray] keeps its children in [self._subentries]; whatever that
    list holds after [__init__] or after an earlier access, the access
    returns the list computed here from the list of [__init__]
    (see [EntryArray_subentries_cached]). *)
Fixpoint subentries_of (con : construct) (cls : entry_class) (excl : bool)
    (parent : option entry) (root : pyobj) {struct con}
  : outcome (option (list (option entry))) :=
  let self := Entry cls con excl parent in
  match cls with
  | EntryConstruct | EntryFormatField | EntryBytesInteger | EntryBitsInteger
  | EntryBytes | EntryTell | EntrySeek | EntryPass | EntryComputed =>
      Returns None
  | EntrySubconstruct | EntryRenamed | EntryTimestamp | EntryTransparentSubcon
  | EntryPeek | EntryRawCopy | EntryEnum | EntryFlagsEnum | EntryTEnum =>
      (* [return self.subentry.subentries] *)
      match con with
      | CSubcon _ _ sc | CArray _ _ _ sc | CTStruct _ _ _ sc =>
          with_subentry self sc (Raises AttributeError)
            (fun c x p => subentries_of sc c x p root)
      | _ => Raises AttributeError
      end
  | EntryStruct =>
      match con with
      | CStruct _ _ subcons =>
          l ← mapM (create_entry_from_construct (Some self)) subcons;
          Returns (Some l)
      | _ => Raises AttributeError
      end
  | EntryArray =>
      l ← EntryArray_subentries self root [];
      Returns (Some l)
  | EntryGreedyRange =>
      l ← EntryGreedyRange_subentries self root [];
      Returns (Some l)
  | EntryTStruct | EntryTBitStruct =>
      (* [subentries = super().subentries], reversed when
         [self.construct.reverse] *)
      match con with
      | CTStruct _ _ reverse sc =>
          r ← with_subentry self sc (Raises AttributeError)
                (fun c x p => subentries_of sc c x p root);
          Returns (match r with
                   | Some l => if reverse then Some (rev l) else Some l
                   | None => None
                   end)
      | CSubcon _ _ sc | CArray _ _ _ sc =>
          r ← with_subentry self sc (Raises AttributeError)
                (fun c x p => subentries_of sc c x p root);
          match r with
          | Some l => Raises AttributeError
          | None => Returns None
          end
      | _ => Raises AttributeError
      end
  | EntryIfThenElse =>
      match con with
      | CIfThenElse _ _ condfunc thensubcon elsesubcon =>
          let static :=
            Returns (Some [Some (then_entry rt self condfunc thensubcon);
                           Some (else_entry self elsesubcon)]) in
          r ← evaluate_on_obj rt self root condfunc;
          match r with
          | None => static
          | Some cond =>
              b ← py_truthy (opaque_bool rt) cond;
              if b : bool then
                with_subentry (then_entry rt self condfunc thensubcon) thensubcon static
                  (fun c x p => subentries_of thensubcon c x p root)
              else
                with_subentry (else_entry self elsesubcon) elsesubcon static
                  (fun c x p => subentries_of elsesubcon c x p root)
          end
      | _ => Raises AttributeError
      end
  | EntrySwitch =>
      match con with
      | CSwitch _ _ keyfunc cases default =>
          let static := EntrySwitch_static rt self in
          r ← evaluate_on_obj rt self root keyfunc;
          match r with
          | None => l ← static; Returns (Some l)
          | Some key =>
              if negb (py_hashable rt key) then Raises TypeError
              else
                (fix in_cases (l : list (pyobj * construct)) :=
                   match l with
                   | (k, value) :: rest =>
                       if py_key_eq rt key k then
                         (* the case entry is an [EntryRenamed]: its
                            [subentries] are those of its [subentry] *)
                         with_subentry (case_entry rt self keyfunc k value) value
                           (Raises AttributeError)
                           (fun c x p => subentries_of value c x p root)
                       else in_cases rest
                   | [] =>
                       match default with
                       | Some d =>
                           with_subentry (default_entry self d) d (Raises AttributeError)
                             (fun c x p => subentries_of d c x p root)
                       | None => l ← static; Returns (Some l)
                       end
                   end) cases
          end
      | _ => Raises AttributeError
      end
  end.

Definition subentries (self : entry) (root : pyobj)
  : outcome (option (list (option entry))) :=
  subentries_of (construct_of self) (entry_cls self) (exclude_from_path self)
    (parent self) root.

(** [EntryConstruct.create_flat_subentry_list], which appends to the list
    it is given:
<<
      if self.subentries is not None:
          for subentry in self.subentries:
              subentry.create_flat_subentry_list(flat_subentry_list)
      else:
          flat_subentry_list.append(self)
>>
    The recursion is bounded by the depth of the entry tree, which is bounded
    by the size of the grammar below the entry ([depth_bound]);
    [create_flat_subentry_list] starts it with that bound. *)
Fixpoint create_flat_subentry_list_fuel (fuel : nat) (self : entry) (root : pyobj)
    (flat_subentry_list : list entry) : outcome (list entry) :=
  match fuel with
  | O => Raises RecursionError
  | S fuel' =>
      subs ← subentries self root;
      match subs with
      | Some l =>
          for_each_subentry
            (fun subentry acc => create_flat_subentry_list_fuel fuel' subentry root acc)
            l flat_subentry_list
      | None => Returns (flat_subentry_list ++ [self])
      end
  end.

Definition create_flat_subentry_list (self : entry) (root : pyobj)
    (flat_subentry_list : list entry) : outcome (list entry) :=
  create_flat_subentry_list_fuel (depth_bound self) self root flat_subentry_list.
End Subentries.

(** ** The editor model ([ConstructEditorModel]) *)

Inductive IntegerFormat := Dec | Hex.

(** [ConstructEditorColumn], an [IntEnum] of three members *)
Definition Column_Name : Z := 0.
Definition Column_Type : Z := 1.
Definition Column_Value : Z := 2.
Definition len_ConstructEditorColumn : Z := 3.

(** The command object of [set_value]: the variables its methods close over
    ([entry], [new_value], [current_value]), the name given to
    [Command.__init__] and the attribute [_obj_backup] that [do] creates. *)
Record Cmd := {
  cmd_entry : entry;
  cmd_new_value : pyobj;
  cmd_current_value : pyobj;
  cmd_name : string;
  _obj_backup : option pyobj;
}.

(** Modelled from the spec: the command-processor service, "submit(command)
    where command exposes do()/undo(); the service maintains a bounded
    undo/redo history [...] and the core assumes submit synchronously invokes
    do() once".  The history holds the newest command first. *)
Record CommandProcessor := {
  max_commands : nat;
  commands : list Cmd;
}.

Record ConstructEditorModel := {
  root_entry : option entry;
  root_obj : pyobj;
  hide_protected : bool;
  integer_format : IntegerFormat;
  list_viewed_entries : list entry;
  command_processor : CommandProcessor;
  (* the entries [on_value_changed] was called with so far, oldest first *)
  value_changed : list entry;
}.

(** [ConstructEditorModel.__init__] *)
Definition ConstructEditorModel_init : ConstructEditorModel :=
  {| root_entry := None;
     root_obj := PyNone;
     hide_protected := true;
     integer_format := Dec;
     list_viewed_entries := [];
     command_processor := {| max_commands := 20; commands := [] |};
     value_changed := [] |}.

(** A method of the model: it returns or raises, and leaves a model. *)
Definition method (A : Type) : Type :=
  ConstructEditorModel -> outcome A * ConstructEditorModel.

Definition mreturn {A} (a : A) : method A := fun self => (Returns a, self).
Definition mraise {A} (e : exn) : method A := fun self => (Raises e, self).
Definition mbind_method {A B} (m : method A) (k : A -> method B) : method B :=
  fun self =>
    match m self with
    | (Returns a, self') => k a self'
    | (Raises e, self') => (Raises e, self')
    end.
Definition mlift {A} (o : outcome A) : method A := fun self => (o, self).
Definition mget {A} (f : ConstructEditorModel -> A) : method A :=
  fun self => (Returns (f self), self).

Global Instance method_ret : MRet method := @mreturn.
Global Instance method_bind : MBind method := fun A B k m => mbind_method m k.

(** The model after an assignment to one of its attributes. *)
Definition with_root_obj (self : ConstructEditorModel) (v : pyobj) : ConstructEditorModel :=
  {| root_entry := root_entry self; root_obj := v;
     hide_protected := hide_protected self; integer_format := integer_format self;
     list_viewed_entries := list_viewed_entries self;
     command_processor := command_processor self;
     value_changed := value_changed self |}.

Definition with_value_changed (self : ConstructEditorModel) (calls : list entry)
  : ConstructEditorModel :=
  {| root_entry := root_entry self; root_obj := root_obj self;
     hide_protected := hide_protected self; integer_format := integer_format self;
     list_viewed_entries := list_viewed_entries self;
     command_processor := command_processor self;
     value_changed := calls |}.

Definition with_commands (self : ConstructEditorModel) (cmds : list Cmd)
  : ConstructEditorModel :=
  {| root_entry := root_entry self; root_obj := root_obj self;
     hide_protected := hide_protected self; integer_format := integer_format self;
     list_viewed_entries := list_viewed_entries self;
     command_processor :=
       {| max_commands := max_commands (command_processor self); commands := cmds |};
     value_changed := value_changed self |}.

Definition set_root_obj (v : pyobj) : method unit := fun self =>
  (Returns tt, with_root_obj self v).

(** Modelled from the spec: [on_value_changed] is "an abstract hook the
    embedding application must implement", its body is in no file of the
    repository; here a call is recorded and does nothing else. *)
Definition on_value_changed (entry : entry) : method unit := fun self =>
  (Returns tt, with_value_changed self (value_changed self ++ [entry])).

Definition store_command (c : Cmd) : method unit := fun self =>
  let cp := command_processor self in
  (Returns tt, with_commands self (take (max_commands cp) (c :: commands cp))).

(** [entry.obj = val] inside a method of the model *)
Definition assign_obj (entry : entry) (val : pyobj) : method unit :=
  root ← mget root_obj;
  root' ← mlift (obj_set entry val root);
  set_root_obj root'.

(** [path[-1]] *)
Definition py_last (path : list string) : outcome string :=
  match last path with
  | Some p => Returns p
  | None => Raises IndexError
  end.

(** [Cmd.__init__]: [super().__init__(True, f"Value '{entry.path[-1]}' changed")] *)
Definition Cmd_init (entry : entry) (new_value current_value : pyobj) : outcome Cmd :=
  p ← py_last (path entry);
  Returns {| cmd_entry := entry; cmd_new_value := new_value;
             cmd_current_value := current_value;
             cmd_name := "Value '" +:+ p +:+ "' changed";
             _obj_backup := None |}.

(** [Cmd.do]; the command it returns is the command with [_obj_backup] set. *)
Definition Cmd_do (c : Cmd) : method Cmd :=
  let c' := {| cmd_entry := cmd_entry c; cmd_new_value := cmd_new_value c;
               cmd_current_value := cmd_current_value c; cmd_name := cmd_name c;
               _obj_backup := Some (cmd_current_value c) |} in
  assign_obj (cmd_entry c) (cmd_new_value c);;
  on_value_changed (cmd_entry c);;
  mreturn c'.

(** [Cmd.undo] *)
Definition Cmd_undo (c : Cmd) : method unit :=
  backup ← mlift (deref (_obj_backup c));
  assign_obj (cmd_entry c) backup;;
  on_value_changed (cmd_entry c).

(** Modelled from the spec: [CommandProcessor.submit], which invokes [do]
    once and keeps the command in its bounded history. *)
Definition submit (c : Cmd) : method unit :=
  c' ← Cmd_do c;
  store_command c'.

(** What a cell of the view holds: a string, or the entry itself. *)
Inductive cell :=
| CellStr (s : string)
| CellEntry (e : entry).

(** [l[i]] on a list of entries *)
Definition py_list_get {A} (l : list A) (i : Z) : outcome A :=
  match py_index (length l) i with
  | Some n => match l !! n with Some a => Returns a | None => Raises IndexError end
  | None => Raises IndexError
  end.

Section Model.
Context (rt : runtime).
(** The [typ_str] and [obj_str] properties of an entry, as its class
    defines them; the model only passes their results on. *)
Context (typ_str obj_str : entry -> pyobj -> outcome string).

(** [ConstructEditorModel.get_value] *)
Definition get_value (self : ConstructEditorModel) (entry : entry) (column : Z)
  : outcome cell :=
  if bool_decide (column = Column_Name) then Returns (CellStr (name entry))
  else if bool_decide (column = Column_Type) then
    s ← typ_str entry (root_obj self); Returns (CellStr s)
  else if bool_decide (column = Column_Value) then Returns (CellEntry entry)
  else
    match parent entry with
    | None => Returns (CellStr "")
    | Some p =>
        if negb (bool_decide (p ∈ list_viewed_entries self)) then Returns (CellStr "")
        else
          let column := (column - len_ConstructEditorColumn)%Z in
          flat_subentry_list ← create_flat_subentry_list rt entry (root_obj self) [];
          if bool_decide (Z.of_nat (length flat_subentry_list) > column)%Z then
            e ← py_list_get flat_subentry_list column;
            s ← obj_str e (root_obj self);
            Returns (CellStr s)
          else Returns (CellStr "")
    end.

(** [ConstructEditorModel.set_value] *)
Definition set_value (new_value : pyobj) (entry : entry) (column : Z) : method unit :=
  if bool_decide (column <> Column_Value) then mraise ValueError
  else
    root ← mget root_obj;
    current_value ← mlift (obj entry root);
    let metadata := get_gui_metadata rt current_value in
    let new_value :=
      match metadata with
      | Some md => add_gui_metadata rt new_value md
      | None => new_value
      end in
    cmd ← mlift (Cmd_init entry new_value current_value);
    submit cmd.

(** *** [typ_str], [obj_str] and [subentries] of the two conditional
    entries, which pass to the active branch *)
Definition EntryIfThenElse_obj_str (self : entry) (root : pyobj) : outcome string :=
  subentry ← EntryIfThenElse_get_subentry rt self root;
  match subentry with
  | None => Returns ""
  | Some s => obj_str s root
  end.

Definition EntryIfThenElse_typ_str (self : entry) (root : pyobj) : outcome string :=
  subentry ← EntryIfThenElse_get_subentry rt self root;
  match subentry with
  | None => Returns "IfThenElse"
  | Some s => typ_str s root
  end.

Definition EntryIfThenElse_subentries (self : entry) (root : pyobj)
  : outcome (option (list (option entry))) :=
  subentry ← EntryIfThenElse_get_subentry rt self root;
  match subentry with
  | None => l ← EntryIfThenElse_static rt self; Returns (Some l)
  | Some s => subentries rt s root
  end.

Definition EntrySwitch_obj_str (self : entry) (root : pyobj) : outcome string :=
  subentry ← EntrySwitch_get_subentry rt self root;
  match subentry with
  | None => Returns ""
  | Some s => obj_str s root
  end.

Definition EntrySwitch_typ_str (self : entry) (root : pyobj) : outcome string :=
  subentry ← EntrySwitch_get_subentry rt self root;
  match subentry with
  | None => Returns "Switch"
  | Some s => typ_str s root
  end.

Definition EntrySwitch_subentries (self : entry) (root : pyobj)
  : outcome (option (list (option entry))) :=
  subentry ← EntrySwitch_get_subentry rt self root;
  match subentry with
  | None => l ← EntrySwitch_static rt self; Returns (Some l)
  | Some s => subentries rt s root
  end.
End Model.

(** ** Sample grammar and objects *)

Definition Int8ub : construct := CLeaf cs_FormatField None.

(** [Struct("a" / Int8ub, "b" / Array(2, Int8ub))] *)
Definition sample_struct : construct :=
  CStruct cs_Struct None
    [cs_Renamed Int8ub "a";
     cs_Renamed (CArray cs_Array None (PConst (PyInt 2)) Int8ub) "b"].

(** [{"a": 5, "b": [1, 2]}] *)
Definition sample_obj : pyobj :=
  PyDict [("a", PyInt 5); ("b", PyList [PyInt 1; PyInt 2])].

Definition sample_root : entry := Entry EntryStruct sample_struct false None.
(** the [EntryRenamed] of field ["a"], and the [EntryFormatField] below it *)
Definition sample_a : entry :=
  Entry EntryRenamed (cs_Renamed Int8ub "a") false (Some sample_root).
Definition sample_a_leaf : entry := Entry EntryFormatField Int8ub false (Some sample_a).
(** the [EntryRenamed] of field ["b"], and the [EntryArray] below it *)
Definition sample_b : entry :=
  Entry EntryRenamed
    (cs_Renamed (CArray cs_Array None (PConst (PyInt 2)) Int8ub) "b") false
    (Some sample_root).
Definition sample_b_array : entry :=
  Entry EntryArray (CArray cs_Array None (PConst (PyInt 2)) Int8ub) false (Some sample_b).

(** A runtime in which no value carries metadata. *)
Definition bare_runtime : runtime :=
  {| GuiMetaData := unit;
     get_gui_metadata := fun _ => None;
     add_gui_metadata := fun v _ => v;
     md_context := fun _ => PyNone;
     call := fun _ _ => Raises (CallError "undefined");
     py_str := fun _ => "?";
     py_str_param := fun _ => "?";
     opaque_bool := fun _ => Returns true;
     opaque_hashable := fun _ => true;
     opaque_key_eq := fun a b => bool_decide (a = b) |}.

(** ** Notions used to state the properties *)

(** Every segment of [path] is applied to a container of [obj] and is found
    there: no step raises and none is passed over. *)
Fixpoint resolves (obj : pyobj) (path : list string) : bool :=
  match path with
  | [] => true
  | p :: rest =>
      is_container obj &&
      match getitem obj p with
      | Returns v => resolves v rest
      | Raises _ => false
      end
  end.

(** The entry is marked exclude-from-path: it is an [EntryRenamed] whose
    [_exclude_from_path] is set (no other class has the attribute). *)
Definition excluded (e : entry) : bool :=
  bool_decide (entry_cls e = EntryRenamed) && exclude_from_path e.

(** The path of the parent, [[]] for an entry without parent. *)
Definition parent_path (e : entry) : list string :=
  match parent e with
  | Some p => path p
  | None => []
  end.

(** The child that [insert_entry] builds at [index] of an array entry whose
    element grammar is [sc], and the list of the first [n] of them. *)
Definition array_child (self : entry) (sc : construct) (index : nat) : entry :=
  Entry EntryRenamed (cs_Renamed sc (pretty index))
    (bool_decide (con_name (cs_Renamed sc (pretty index)) = con_name sc)) (Some self).

Definition array_children (self : entry) (sc : construct) (n : nat) : list (option entry) :=
  map (fun index => Some (array_child self sc index)) (seq 0 n).

(** [Struct("flag" / Int8ub, "v" / IfThenElse(this.flag, Int8ub, Int16ub),
    "w" / Switch(this.flag, {1: Int8ub}))] and its entries for ["v"] and
    ["w"]; a callable is named by the context key it reads. *)
Definition Int16ub : construct := CLeaf cs_FormatField None.
Definition sample_ite_con : construct :=
  CIfThenElse cs_IfThenElse None (PCallable "flag") Int8ub Int16ub.
Definition sample_switch_con : construct :=
  CSwitch cs_Switch None (PCallable "flag") [(PyInt 1, Int8ub)] None.
Definition sample_cond_struct : construct :=
  CStruct cs_Struct None
    [cs_Renamed Int8ub "flag"; cs_Renamed sample_ite_con "v";
     cs_Renamed sample_switch_con "w"].
Definition sample_cond_root : entry := Entry EntryStruct sample_cond_struct false None.
Definition sample_ite : entry :=
  Entry EntryIfThenElse sample_ite_con false
    (Some (Entry EntryRenamed (cs_Renamed sample_ite_con "v") false (Some sample_cond_root))).
Definition sample_switch : entry :=
  Entry EntrySwitch sample_switch_con false
    (Some (Entry EntryRenamed (cs_Renamed sample_switch_con "w") false
             (Some sample_cond_root))).

(** [{"flag": 1, "v": 5, "w": 6}] *)
Definition sample_cond_obj : pyobj :=
  PyDict [("flag", PyInt 1); ("v", PyInt 5); ("w", PyInt 6)].

(** A runtime in which every value other than [None] carries [context] as
    its metadata, and the callable named [f] is [lambda ctx: ctx[f]]. *)
Definition ctx_runtime (context : pyobj) : runtime :=
  {| GuiMetaData := pyobj;
     get_gui_metadata := fun o => if bool_decide (o = PyNone) then None else Some context;
     add_gui_metadata := fun v _ => v;
     md_context := fun md => md;
     call := fun f ctx =>
       match ctx with
       | PyDict d =>
           match dict_get f d with
           | Some v => Returns v
           | None => Raises KeyError
           end
       | _ => Raises TypeError
       end;
     py_str := fun _ => "?";
     py_str_param := fun _ => "?";
     opaque_bool := fun _ => Returns true;
     opaque_hashable := fun _ => true;
     opaque_key_eq := fun a b => bool_decide (a = b) |}.

(** Label properties that never raise, for the entries below a conditional. *)
Definition plain_str : entry -> pyobj -> outcome string := fun _ _ => Returns "?".

(** The entries of a list of children all have a measure below [b]. *)
Definition children_below (b : nat) (l : list (option entry)) : Prop :=
  Forall (fun oc : option entry => forall c, oc = Some c -> (entry_measure c < b)%nat) l.

(** The model of a session in which the grammar [sample_struct] is loaded,
    holding [root] as its object. *)
Definition sample_model (root : pyobj) : ConstructEditorModel :=
  {| root_entry := Some sample_root; root_obj := root;
     hide_protected := true; integer_format := Dec;
     list_viewed_entries := [];
     command_processor := {| max_commands := 20; commands := [] |};
     value_changed := [] |}.

(** ** More of the entries and of the model *)

Section Labels.
Context (rt : runtime).

(** [EntryArray.typ_str]:
<<
      try:    return f"Array[{len(self.obj)}]"
      except Exception: return f"Array[{str(self.construct.count)}]"
>> *)
Definition EntryArray_typ_str (self : entry) (root : pyobj) : outcome string :=
  match (o ← obj self root; py_len o) with
  | Returns n => Returns ("Array[" +:+ pretty n +:+ "]")
  | Raises _ =>
      count ← con_count (construct_of self);
      Returns ("Array[" +:+ py_str_param rt count +:+ "]")
  end.

(** [EntryGreedyRange.typ_str] *)
Definition EntryGreedyRange_typ_str (self : entry) (root : pyobj) : outcome string :=
  match (o ← obj self root; py_len o) with
  | Returns n => Returns ("GreedyRange[" +:+ pretty n +:+ "]")
  | Raises _ => Returns "GreedyRange"
  end.

(** [name.startswith("_")] *)
Definition startswith_underscore (s : string) : bool :=
  match s with
  | String c _ => Ascii.eqb c "_"
  | EmptyString => false
  end.

(** The test of [get_children] that hides a child:
    [(self.hide_protected == True) and (name.startswith("_") or name == "")] *)
Definition hidden (self : ConstructEditorModel) (subentry : entry) : bool :=
  hide_protected self &&
  (startswith_underscore (name subentry) || String.eqb (name subentry) "").

(** The loop of [get_children] over [entry.subentries].  [children] is the
    list being built; [marks] are the assignments to [visible_row] made so
    far, oldest first, which stay made when the loop raises. *)
Fixpoint get_children_loop (self : ConstructEditorModel) (subentries : list (option entry))
    (children : list entry) (marks : list (entry * bool))
  : outcome (list entry) * list (entry * bool) :=
  match subentries with
  | [] => (Returns children, marks)
  | None :: _ => (Raises AttributeError, marks)    (* [subentry.name] on [None] *)
  | Some subentry :: rest =>
      if hidden self subentry
      then get_children_loop self rest children (marks ++ [(subentry, false)])
      else get_children_loop self rest (children ++ [subentry]) (marks ++ [(subentry, true)])
  end.

(** [ConstructEditorModel.get_children]: the children, and the assignments
    to the [visible_row] attribute of entries that the call makes. *)
Definition get_children (self : ConstructEditorModel) (e : option entry)
  : outcome (list entry) * list (entry * bool) :=
  match root_entry self with
  | None => (Returns [], [])
  | Some root_entry =>
      match e with
      | None => (Returns [root_entry], [(root_entry, true)])
      | Some e =>
          match subentries rt e (root_obj self) with
          | Raises e => (Raises e, [])
          | Returns None => (Returns [], [])
          | Returns (Some l) => get_children_loop self l [] []
          end
      end
  end.

(** [ConstructEditorModel.is_container] *)
Definition is_container_entry (self : ConstructEditorModel) (e : entry) : outcome bool :=
  subs ← subentries rt e (root_obj self);
  Returns (match subs with Some _ => true | None => false end).
End Labels.

(** [ConstructEditorModel.get_column_count] *)
Definition get_column_count (self : ConstructEditorModel) : Z := 3.

(** The entries from the root of the tree down to [e], [e] included. *)
Fixpoint chain (e : entry) : list entry :=
  match e with
  | Entry _ _ _ par =>
      match par with
      | Some p => chain p
      | None => []
      end ++ [e]
  end.

(** The entry adds a segment to the path of its parent. *)
Definition adds_segment (e : entry) : bool :=
  match parent e with
  | Some _ => negb (String.eqb (name e) "") && negb (excluded e)
  | None => false
  end.

(** The model after an assignment to [list_viewed_entries]. *)
Definition with_list_viewed_entries (self : ConstructEditorModel) (l : list entry)
  : ConstructEditorModel :=
  {| root_entry := root_entry self; root_obj := root_obj self;
     hide_protected := hide_protected self; integer_format := integer_format self;
     list_viewed_entries := l;
     command_processor := command_processor self;
     value_changed := value_changed self |}.

(** The mark that [get_children] leaves on a child. *)
Definition visible_mark (self : ConstructEditorModel) (subentry : entry) : entry * bool :=
  (subentry, negb (hidden self subentry)).

(** The entry that the factory builds below [self] for a field
    [name / sc] of a struct. *)
Definition field_entry (self : entry) (name : string) (sc : construct) : entry :=
  Entry EntryRenamed (cs_Renamed sc name)
    (bool_decide (con_name (cs_Renamed sc name) = con_name sc)) (Some self).

(** The entries of a list of children all have [anc] on their chain of
    parents. *)
Definition children_under (anc : entry) (l : list (option entry)) : Prop :=
  Forall (fun oc : option entry => forall c, oc = Some c -> anc ∈ chain c) l.

(** ** [EntryFormatField] *)

(** The tuples of [type_mapping]: [(name, int, bits, signed)] and
    [(name, float)]. *)
Inductive type_info :=
| TypeInt (name : string) (bits : nat) (signed : bool)
| TypeFloat (name : string).

(** [type_infos[0]] *)
Definition type_info_name (ti : type_info) : string :=
  match ti with
  | TypeInt name _ _ => name
  | TypeFloat name => name
  end.

(** The dict [type_mapping] of [EntryFormatField.__init__], in the order it
    is written. *)
Definition type_mapping : list (string * type_info) :=
  [ (">B", TypeInt "Int8ub" 8 false);
    (">H", TypeInt "Int16ub" 16 false);
    (">L", TypeInt "Int32ub" 32 false);
    (">Q", TypeInt "Int64ub" 64 false);
    (">b", TypeInt "Int8sb" 8 true);
    (">h", TypeInt "Int16sb" 16 true);
    (">l", TypeInt "Int32sb" 32 true);
    (">q", TypeInt "Int64sb" 64 true);
    ("<B", TypeInt "Int8ul" 8 false);
    ("<H", TypeInt "Int16ul" 16 false);
    ("<L", TypeInt "Int32ul" 32 false);
    ("<Q", TypeInt "Int64ul" 64 false);
    ("<b", TypeInt "Int8sl" 8 true);
    ("<h", TypeInt "Int16sl" 16 true);
    ("<l", TypeInt "Int32sl" 32 true);
    ("<q", TypeInt "Int64sl" 64 true);
    ("=B", TypeInt "Int8un" 8 false);
    ("=H", TypeInt "Int16un" 16 false);
    ("=L", TypeInt "Int32un" 32 false);
    ("=Q", TypeInt "Int64un" 64 false);
    ("=b", TypeInt "Int8sn" 8 true);
    ("=h", TypeInt "Int16sn" 16 true);
    ("=l", TypeInt "Int32sn" 32 true);
    ("=q", TypeInt "Int64sn" 64 true);
    (">e", TypeFloat "Float16b");
    ("<e", TypeFloat "Float16l");
    ("=e", TypeFloat "Float16n");
    (">f", TypeFloat "Float32b");
    ("<f", TypeFloat "Float32l");
    ("=f", TypeFloat "Float32n");
    (">d", TypeFloat "Float64b");
    ("<d", TypeFloat "Float64l");
    ("=d", TypeFloat "Float64n") ].

(** [type_mapping[fmtstr]] when [fmtstr in type_mapping] *)
Fixpoint type_mapping_get (fmtstr : string) (mapping : list (string * type_info))
  : option type_info :=
  match mapping with
  | [] => None
  | (key, value) :: rest =>
      if String.eqb fmtstr key then Some value else type_mapping_get fmtstr rest
  end.

(** [self.type_infos] after [__init__], for [construct.fmtstr = fmtstr] *)
Definition EntryFormatField_type_infos (fmtstr : string) : option type_info :=
  type_mapping_get fmtstr type_mapping.

(** [EntryFormatField.typ_str]; [py_repr] is [repr] on a string. *)
Definition EntryFormatField_typ_str (py_repr : string -> string) (fmtstr : string)
  : string :=
  match EntryFormatField_type_infos fmtstr with
  | Some type_infos => type_info_name type_infos
  | None => "FormatField[" +:+ py_repr fmtstr +:+ "]"
  end.

(** [self.type_infos[1] is int]: subscripting [None] is a [TypeError]. *)
Definition type_infos_is_int (type_infos : option type_info) : outcome bool :=
  match type_infos with
  | None => Raises TypeError
  | Some (TypeInt _ _ _) => Returns true
  | Some (TypeFloat _) => Returns false
  end.

(** The class of the panel that a [create_obj_panel] instantiates. *)
Inductive obj_panel := ObjPanel_Default | ObjPanel_Integer.

(** [EntryFormatField.create_obj_panel] *)
Definition EntryFormatField_create_obj_panel (fmtstr : string) : outcome obj_panel :=
  is_int ← type_infos_is_int (EntryFormatField_type_infos fmtstr);
  Returns (if is_int : bool then ObjPanel_Integer else ObjPanel_Default).

(** The naming scheme of the table: the byte order that the first character
    of a format string stands for, and the width in bits, the kind and the
    signedness that the second stands for. *)
Definition byte_orders : list (ascii * string) :=
  [(">"%char, "b"); ("<"%char, "l"); ("="%char, "n")].

Definition format_codes : list (ascii * (nat * bool * bool)) :=
  (* code, (bits, float, signed) *)
  [("B"%char, (8%nat, false, false)); ("H"%char, (16%nat, false, false));
   ("L"%char, (32%nat, false, false)); ("Q"%char, (64%nat, false, false));
   ("b"%char, (8%nat, false, true)); ("h"%char, (16%nat, false, true));
   ("l"%char, (32%nat, false, true)); ("q"%char, (64%nat, false, true));
   ("e"%char, (16%nat, true, false)); ("f"%char, (32%nat, true, false));
   ("d"%char, (64%nat, true, false))].

Definition scheme_info (suffix : string) (code : nat * bool * bool) : type_info :=
  match code with
  | (bits, true, _) => TypeFloat ("Float" +:+ pretty bits +:+ suffix)
  | (bits, false, signed) =>
      TypeInt ("Int" +:+ pretty bits +:+ (if signed then "s" else "u") +:+ suffix)
        bits signed
  end.

Definition scheme_table : list (string * type_info) :=
  flat_map
    (fun order : ascii * string =>
       map (fun code : ascii * (nat * bool * bool) =>
              (String order.1 (String code.1 ""), scheme_info order.2 code.2))
         format_codes)
    byte_orders.

Global Instance type_info_eq_dec : EqDecision type_info.
Proof. solve_decision. Defined.

(** [Array(1, Struct("x" / Int8ub))] as the root of a tree, with the list
    view enabled, over the object [[{"x": 4}]]. *)
Definition sample_rows : entry :=
  Entry EntryArray
    (CArray cs_Array None (PConst (PyInt 1))
       (CStruct cs_Struct None [cs_Renamed Int8ub "x"])) false None.

Definition sample_rows_model : ConstructEditorModel :=
  {| root_entry := Some sample_rows;
     root_obj := PyList [PyDict [("x", PyInt 4)]];
     hide_protected := true; integer_format := Dec;
     list_viewed_entries := [sample_rows];
     command_processor := {| max_commands := 20; commands := [] |};
     value_changed := [] |}.

(** ** The factory as its callers use it

    [create_entry_from_construct] returns an entry or raises; this is the
    function with its result unwrapped. *)
Definition create_entry_from_construct_raising (parent : option entry)
    (subcon : construct) : outcome entry :=
  oe ← create_entry_from_construct parent subcon;
  match oe with
  | Some e => Returns e
  | None => Raises ValueError
  end.

(** [Renamed(Renamed(... Renamed(con) ...))], [k] times, each without a new
    name (as [Renamed(con, newdocs=...)] is): the name stays that of [con]. *)
Fixpoint rewrap (k : nat) (con : construct) : construct :=
  match k with
  | O => con
  | S k' => cs_Renamed (rewrap k' con) ""
  end.

(** [e.subentry.subentry. ... .subentry], [k] times. *)
Fixpoint descend (k : nat) (e : entry) : outcome entry :=
  match k with
  | O => Returns e
  | S k' =>
      oe ← subentry e;
      s ← deref oe;
      descend k' s
  end.

(** ** The getter and the setter on shared containers

    A root object in which a container may be stored in several places: a
    container is an object of a heap and is stored by its address.  The
    setter changes the container at one address, and the change shows
    wherever that address is stored. *)

Inductive hval :=
| HNone
| HInt (z : Z)
| HStr (s : string)
| HBytes (b : list Byte.byte)
| HOpaque (repr : string)
| HRef (address : nat).

Inductive hcontainer :=
| HDict (items : list (string * hval))
| HList (items : list hval).

Definition heap : Type := nat -> hcontainer.

Definition heap_set (h : heap) (address : nat) (c : hcontainer) : heap :=
  fun a => if Nat.eqb a address then c else h a.

Fixpoint hdict_get (k : string) (d : list (string * hval)) : option hval :=
  match d with
  | [] => None
  | (k', v) :: d' => if String.eqb k k' then Some v else hdict_get k d'
  end.

Fixpoint hdict_set (k : string) (v : hval) (d : list (string * hval))
  : list (string * hval) :=
  match d with
  | [] => [(k, v)]
  | (k', v') :: d' => if String.eqb k k' then (k', v) :: d' else (k', v') :: hdict_set k v d'
  end.

(** [c[p]] on a dict, [c[int(p)]] on a list *)
Definition hcontainer_getitem (c : hcontainer) (p : string) : outcome hval :=
  match c with
  | HDict d =>
      match hdict_get p d with
      | Some v => Returns v
      | None => Raises KeyError
      end
  | HList l =>
      match py_int p with
      | None => Raises ValueError
      | Some i =>
          match py_index (length l) i with
          | None => Raises IndexError
          | Some n =>
              match l !! n with
              | Some v => Returns v
              | None => Raises IndexError
              end
          end
      end
  end.

(** [c[p] = val] on a dict, [c[int(p)] = val] on a list: the container after
    the assignment *)
Definition hcontainer_setitem (c : hcontainer) (p : string) (val : hval)
  : outcome hcontainer :=
  match c with
  | HDict d => Returns (HDict (hdict_set p val d))
  | HList l =>
      match py_int p with
      | None => Raises ValueError
      | Some i =>
          match py_index (length l) i with
          | None => Raises IndexError
          | Some n => Returns (HList (<[n := val]> l))
          end
      end
  end.

(** The body of the loops of the getter and of the setter *)
Definition hgetitem (h : heap) (obj : hval) (p : string) : outcome hval :=
  match obj with
  | HRef a => hcontainer_getitem (h a) p
  | _ => Returns obj
  end.

Fixpoint htraverse (h : heap) (obj : hval) (path : list string) : outcome hval :=
  match path with
  | [] => Returns obj
  | p :: rest => obj' ← hgetitem h obj p; htraverse h obj' rest
  end.

(** The [obj] getter *)
Definition obj_heap (e : entry) (h : heap) (root : hval) : outcome hval :=
  htraverse h root (path e).

(** The [obj] setter: the loop over [path[:-1]], then the assignment at
    [path[-1]] in the container arrived at; the result is the heap after
    it. *)
Definition obj_set_heap (e : entry) (val : hval) (h : heap) (root : hval) : outcome heap :=
  obj ← htraverse h root (removelast (path e));
  match obj with
  | HRef a =>
      p ← py_last (path e);
      c ← hcontainer_setitem (h a) p val;
      Returns (heap_set h a c)
  | _ => Returns h
  end.

(** The containers and segments that the getter subscripts on its way
    along [path]. *)
Fixpoint hreads (h : heap) (obj : hval) (path : list string) : list (nat * string) :=
  match path with
  | [] => []
  | p :: rest =>
      match obj with
      | HRef a =>
          (a, p) :: match hgetitem h obj p with
                    | Returns v => hreads h v rest
                    | Raises _ => []
                    end
      | _ => []
      end
  end.

(** Two segments address the same item of a container: the same key of a
    dict, the same position of a list. *)
Definition same_item (c : hcontainer) (k1 k2 : string) : bool :=
  match c with
  | HDict _ => String.eqb k1 k2
  | HList l =>
      match py_int k1, py_int k2 with
      | Some i1, Some i2 =>
          bool_decide (py_index (length l) i1 = py_index (length l) i2)
      | _, _ => false
      end
  end.

(** [{"x": l, "y": l}] for one list [l = [1, 2]], stored at address 1, and
    the entries of [x[0]], [y[0]] and [y[1]]. *)
Definition shared_heap : heap :=
  fun a =>
    match a with
    | O => HDict [("x", HRef 1); ("y", HRef 1)]
    | _ => HList [HInt 1; HInt 2]
    end.

Definition shared_item (field : string) (index : nat) : entry :=
  array_child
    (Entry EntryArray (CArray cs_Array None (PConst (PyInt 2)) Int8ub) false
       (Some (field_entry sample_root field
                (CArray cs_Array None (PConst (PyInt 2)) Int8ub))))
    Int8ub index.

(** * Properties *)

Example sample_entries_are_created :
  create_entry_from_construct None sample_struct = Returns (Some sample_root) /\
  subentries bare_runtime sample_root sample_obj = Returns (Some [Some sample_a; Some sample_b]) /\
  subentry sample_a = Returns (Some sample_a_leaf) /\
  subentry sample_b = Returns (Some sample_b_array) /\
  path sample_a_leaf = ["a"] /\ path sample_b_array = ["b"] /\
  obj sample_a_leaf sample_obj = Returns (PyInt 5).
Proof. repeat split; reflexivity. Qed.

Example py_int_examples :
  py_int "12" = Some 12%Z /\ py_int " -3 " = Some (-3)%Z /\ py_int "1_000" = Some 1000%Z /\
  py_int "+7" = Some 7%Z /\ py_int "007" = Some 7%Z /\
  py_int "" = None /\ py_int "a" = None /\ py_int "1__0" = None /\ py_int "_1" = None /\
  py_int "1_" = None /\ py_int "-" = None /\ py_int "1 2" = None.
Proof. repeat split; reflexivity. Qed.

Example py_index_examples :
  py_index 3 0 = Some 0%nat /\ py_index 3 2 = Some 2%nat /\ py_index 3 3 = None /\
  py_index 3 (-1) = Some 2%nat /\ py_index 3 (-3) = Some 0%nat /\ py_index 3 (-4) = None.
Proof. repeat split; reflexivity. Qed.

Example obj_set_examples :
  obj_set sample_a_leaf (PyInt 7) sample_obj
    = Returns (PyDict [("a", PyInt 7); ("b", PyList [PyInt 1; PyInt 2])]) /\
  obj_set (array_child sample_b_array Int8ub 1) (PyInt 9) sample_obj
    = Returns (PyDict [("a", PyInt 5); ("b", PyList [PyInt 1; PyInt 9])]) /\
  obj (array_child sample_b_array Int8ub 1) sample_obj = Returns (PyInt 2) /\
  obj_set sample_root (PyInt 7) sample_obj = Raises IndexError.
Proof. repeat split; reflexivity. Qed.

(** ** Outcomes *)

Lemma bind_Returns {A B} (m : outcome A) (k : A -> outcome B) a :
  m = Returns a -> (m ≫= k) = k a.
Proof. intros ->. reflexivity. Qed.

Lemma bind_Raises {A B} (m : outcome A) (k : A -> outcome B) e :
  m = Raises e -> (m ≫= k) = Raises e.
Proof. intros ->. reflexivity. Qed.

Lemma Returns_not_raises {A} (a : A) : ~ raises (Returns a).
Proof. intros [e He]. discriminate. Qed.

(** ** Dictionaries and lists *)

Lemma dict_get_set_eq k v d : dict_get k (dict_set k v d) = Some v.
Proof.
  induction d as [|[k' v'] d IH]; simpl.
  - rewrite String.eqb_refl. reflexivity.
  - destruct (String.eqb k k') eqn:E; simpl; rewrite E; auto.
Qed.

Lemma dict_set_same k v d : dict_get k d = Some v -> dict_set k v d = d.
Proof.
  induction d as [|[k' v'] d IH]; simpl; [discriminate|].
  destruct (String.eqb k k') eqn:E.
  - intros [= ->]. reflexivity.
  - intros H. rewrite IH; auto.
Qed.

Lemma dict_set_set k v w d : dict_set k w (dict_set k v d) = dict_set k w d.
Proof.
  induction d as [|[k' v'] d IH]; simpl.
  - rewrite String.eqb_refl. reflexivity.
  - destruct (String.eqb k k') eqn:E; simpl; rewrite E; [reflexivity|].
    rewrite IH. reflexivity.
Qed.

Lemma py_index_lt len i n : py_index len i = Some n -> (n < len)%nat.
Proof.
  unfold py_index.
  destruct ((0 <=? i)%Z && (i <? Z.of_nat len)%Z) eqn:E1.
  - intros [= <-]. apply andb_true_iff in E1 as [H1 H2]. lia.
  - destruct ((- Z.of_nat len <=? i)%Z && (i <? 0)%Z) eqn:E2; [|discriminate].
    intros [= <-]. apply andb_true_iff in E2 as [H1 H2]. lia.
Qed.

Lemma py_index_nonneg len i :
  (0 <= i < Z.of_nat len)%Z -> py_index len i = Some (Z.to_nat i).
Proof.
  intros H. unfold py_index.
  replace ((0 <=? i)%Z && (i <? Z.of_nat len)%Z) with true; [reflexivity|].
  symmetry. apply andb_true_iff. lia.
Qed.

(** ** Traversal and assignment *)

Lemma traverse_app root pre rest :
  traverse root (pre ++ rest) = (v ← traverse root pre; traverse v rest).
Proof.
  revert root. induction pre as [|p pre IH]; intros root; simpl; [reflexivity|].
  destruct (getitem root p); simpl; auto.
Qed.

Lemma getitem_leaf v p : is_container v = false -> getitem v p = Returns v.
Proof. unfold is_container; destruct v; simpl; intros; congruence. Qed.

Lemma traverse_leaf v path : is_container v = false -> traverse v path = Returns v.
Proof.
  intros H. induction path as [|p path IH]; simpl; [reflexivity|].
  rewrite getitem_leaf by assumption. exact IH.
Qed.

Lemma assign_leaf v path val : is_container v = false -> assign v path val = Returns v.
Proof.
  unfold is_container. intros H. induction path as [|p path IH]; simpl.
  - destruct v; simpl in *; congruence.
  - destruct path as [|q path].
    + destruct v; simpl in *; congruence.
    + destruct v; simpl in *; try congruence; apply IH.
Qed.

(** One step of [assign] on a path that has more than one segment. *)
Lemma assign_cons obj p rest val :
  rest <> [] ->
  assign obj (p :: rest) val =
    match getitem obj p with
    | Raises e => Raises e
    | Returns child =>
        child' ← assign child rest val;
        Returns (match obj with
                 | PyDict d => PyDict (dict_set p child' d)
                 | PyList l =>
                     match py_int p with
                     | Some i =>
                         match py_index (length l) i with
                         | Some n => PyList (<[n := child']> l)
                         | None => obj
                         end
                     | None => obj
                     end
                 | _ => child'
                 end)
    end.
Proof.
  intros Hne. destruct rest as [|q rest]; [congruence|].
  destruct obj as [|z|s|b|d|l|r].
  1-4,7: match goal with
         | |- assign ?o _ _ = _ =>
             transitivity (assign o (q :: rest) val);
             [reflexivity | cbn [getitem]; destruct (assign o (q :: rest) val); reflexivity]
         end.
  - transitivity
      (match dict_get p d with
       | None => Raises KeyError
       | Some child =>
           child' ← assign child (q :: rest) val; Returns (PyDict (dict_set p child' d))
       end); [reflexivity|].
    cbn [getitem]. destruct (dict_get p d); reflexivity.
  - transitivity
      (match py_int p with
       | None => Raises ValueError
       | Some i =>
           match py_index (length l) i with
           | None => Raises IndexError
           | Some n =>
               match l !! n with
               | None => Raises IndexError
               | Some child =>
                   child' ← assign child (q :: rest) val; Returns (PyList (<[n := child']> l))
               end
           end
       end); [reflexivity|].
    cbn [getitem]. destruct (py_int p) as [i|]; [|reflexivity].
    destruct (py_index (length l) i) as [n|]; [|reflexivity].
    destruct (l !! n); reflexivity.
Qed.

Lemma assign_prefix_raises root pre q val v e :
  traverse root pre = Returns v -> q <> [] ->
  assign v q val = Raises e ->
  assign root (pre ++ q) val = Raises e.
Proof.
  revert root. induction pre as [|p pre IH]; intros root Ht Hq Ha.
  - simpl in *. congruence.
  - change ((p :: pre) ++ q) with (p :: (pre ++ q)).
    rewrite assign_cons by (destruct pre; simpl; [assumption | discriminate]).
    simpl in Ht.
    destruct (getitem root p) as [child|]; [|discriminate].
    simpl in Ht. rewrite (IH child Ht Hq Ha). reflexivity.
Qed.

Lemma getitem_unchanged root p child :
  getitem root p = Returns child ->
  match root with
  | PyDict d => PyDict (dict_set p child d)
  | PyList l =>
      match py_int p with
      | Some i =>
          match py_index (length l) i with
          | Some n => PyList (<[n := child]> l)
          | None => root
          end
      | None => root
      end
  | _ => child
  end = root.
Proof.
  destruct root as [|z|s|b|d|l|r]; simpl; try congruence.
  - destruct (dict_get p d) eqn:E; [|discriminate].
    intros [= <-]. rewrite dict_set_same; auto.
  - destruct (py_int p) as [i|]; [|reflexivity].
    destruct (py_index (length l) i) as [n|]; [|reflexivity].
    destruct (l !! n) eqn:E; [|discriminate].
    intros [= <-]. rewrite list_insert_id; auto.
Qed.

Lemma assign_prefix_unchanged root pre q val v :
  traverse root pre = Returns v -> q <> [] ->
  assign v q val = Returns v ->
  assign root (pre ++ q) val = Returns root.
Proof.
  revert root. induction pre as [|p pre IH]; intros root Ht Hq Ha.
  - simpl in *. congruence.
  - change ((p :: pre) ++ q) with (p :: (pre ++ q)).
    rewrite assign_cons by (destruct pre; simpl; [assumption | discriminate]).
    simpl in Ht.
    destruct (getitem root p) as [child|] eqn:Hg; [|discriminate].
    simpl in Ht. rewrite (IH child Ht Hq Ha). simpl.
    rewrite (getitem_unchanged _ _ _ Hg). reflexivity.
Qed.

Lemma resolves_cons root p rest :
  resolves root (p :: rest) = true ->
  is_container root = true /\ exists v, getitem root p = Returns v /\ resolves v rest = true.
Proof.
  simpl. intros H. apply andb_true_iff in H as [Hc H].
  destruct (getitem root p) as [v|]; [|discriminate]. eauto.
Qed.

(** Arriving at a container, the traversal has passed over no segment. *)
Lemma traverse_container_resolves pre :
  forall root v,
    traverse root pre = Returns v -> is_container v = true -> resolves root pre = true.
Proof.
  induction pre as [|p pre IH]; intros root v Ht Hv; [reflexivity|].
  simpl in Ht. destruct (getitem root p) as [c|] eqn:Hg; [|discriminate].
  cbn [mbind outcome_bind] in Ht. simpl. rewrite Hg.
  destruct (is_container root) eqn:Hc.
  - simpl. apply (IH c v Ht Hv).
  - rewrite (getitem_leaf _ _ Hc) in Hg. injection Hg as <-.
    rewrite (traverse_leaf _ _ Hc) in Ht. injection Ht as <-. congruence.
Qed.

(** An assignment below a prefix that resolves replaces the value that the
    prefix arrives at. *)
Lemma assign_prefix_resolved pre :
  forall root q val v v',
    resolves root pre = true -> traverse root pre = Returns v -> q <> [] ->
    assign v q val = Returns v' ->
    exists root', assign root (pre ++ q) val = Returns root' /\
                  traverse root' pre = Returns v'.
Proof.
  induction pre as [|p pre IH]; intros root q val v v' Hr Ht Hq Ha.
  - simpl in *. injection Ht as ->. eauto.
  - apply resolves_cons in Hr as (Hc & c & Hg & Hr).
    simpl in Ht. rewrite Hg in Ht. cbn [mbind outcome_bind] in Ht.
    destruct (IH c q val v v' Hr Ht Hq Ha) as (c' & Hac & Htc).
    change ((p :: pre) ++ q) with (p :: (pre ++ q)).
    rewrite assign_cons by (destruct pre; simpl; [assumption | discriminate]).
    rewrite Hg, Hac. cbn [mbind outcome_bind].
    destruct root as [|z|s|b|d|l|r]; try discriminate.
    + eexists. split; [reflexivity|].
      cbn [traverse getitem]. rewrite dict_get_set_eq. exact Htc.
    + simpl in Hg. destruct (py_int p) as [i|] eqn:Ei; [|discriminate].
      destruct (py_index (length l) i) as [n|] eqn:En; [|discriminate].
      destruct (l !! n) as [c0|] eqn:El; [|discriminate].
      eexists. split; [reflexivity|].
      cbn [traverse getitem]. rewrite Ei, length_insert, En.
      rewrite list_lookup_insert_eq by (eapply py_index_lt; eauto). exact Htc.
Qed.

(** *** C1 *)

(** C1, as stated, fails: before an object is loaded [root_obj] is [None],
    and the getter of the entry of field ["a"] passes over the segment ["a"]
    and returns [None]; the setter passes over it too and assigns nothing.
    Neither raises. *)
Lemma obj_passes_over_non_container :
  path sample_a_leaf = ["a"] /\
  is_container PyNone = false /\
  obj sample_a_leaf PyNone = Returns PyNone /\
  obj_set sample_a_leaf (PyInt 7) PyNone = Returns PyNone /\
  ~ raises (obj sample_a_leaf PyNone) /\
  ~ raises (obj_set sample_a_leaf (PyInt 7) PyNone).
Proof.
  repeat split; try reflexivity; apply Returns_not_raises.
Qed.

(** C1, amended: let the traversal of the segments before [p] arrive at [v].
    On a dict without the key [p] the getter raises [KeyError]; so does the
    setter when [p] is not the last segment, and when it is the last the
    setter adds the key.  On a list the getter and the setter raise
    [ValueError] when [p] is no integer and [IndexError] when the integer is
    out of range ([p] being short enough for [int] to take it under the
    interpreter's bound on digits).  The error is the result of [obj] and
    [obj_set], nothing recovers it.  When [v] is no container, the remaining segments are passed
    over: the getter returns [v] and the setter leaves the root object as it
    is. *)
Theorem obj_addressing (e : entry) (root : pyobj) pre p rest v :
  path e = pre ++ p :: rest ->
  traverse root pre = Returns v ->
  (forall d, v = PyDict d -> dict_get p d = None ->
     obj e root = Raises KeyError /\
     (rest <> [] -> forall val, obj_set e val root = Raises KeyError) /\
     (rest = [] -> forall val, exists root',
        obj_set e val root = Returns root' /\ obj e root' = Returns val)) /\
  (forall l, v = PyList l -> py_int p = None ->
     obj e root = Raises ValueError /\
     forall val, obj_set e val root = Raises ValueError) /\
  (forall l i, v = PyList l -> py_int p = Some i -> (String.length p <= 4300)%nat ->
     py_index (length l) i = None ->
     obj e root = Raises IndexError /\
     forall val, obj_set e val root = Raises IndexError) /\
  (is_container v = false ->
     obj e root = Returns v /\
     forall val, obj_set e val root = Returns root).
Proof.
  intros Hpath Hpre. unfold obj, obj_set. rewrite Hpath.
  rewrite traverse_app, Hpre. simpl.
  assert (Hq : p :: rest <> []) by discriminate.
  split; [|split; [|split]].
  - intros d -> Hd. split; [|split].
    + simpl. rewrite Hd. reflexivity.
    + intros Hrest val. apply (assign_prefix_raises _ _ _ _ _ _ Hpre Hq).
      rewrite assign_cons by assumption. simpl. rewrite Hd. reflexivity.
    + intros -> val.
      destruct (assign_prefix_resolved pre root [p] val (PyDict d)
                  (PyDict (dict_set p val d))
                  (traverse_container_resolves _ _ _ Hpre eq_refl) Hpre Hq eq_refl)
        as (root' & Ha & Ht).
      exists root'. split; [exact Ha|].
      rewrite traverse_app, Ht. simpl. rewrite dict_get_set_eq. reflexivity.
  - intros l -> Hi. split.
    + simpl. rewrite Hi. reflexivity.
    + intros val. apply (assign_prefix_raises _ _ _ _ _ _ Hpre Hq).
      destruct rest as [|q rest]; simpl; rewrite Hi; reflexivity.
  - intros l i -> Hi _ Hn. split.
    + simpl. rewrite Hi, Hn. reflexivity.
    + intros val. apply (assign_prefix_raises _ _ _ _ _ _ Hpre Hq).
      destruct rest as [|q rest]; simpl; rewrite Hi, Hn; reflexivity.
  - intros Hv. split.
    + rewrite getitem_leaf by assumption. apply traverse_leaf; assumption.
    + intros val. apply (assign_prefix_unchanged _ _ _ _ _ Hpre Hq).
      apply assign_leaf; assumption.
Qed.

Lemma obj_addressing_witness :
  obj sample_a_leaf (PyList [PyInt 1]) = Raises ValueError /\
  obj sample_a_leaf (PyDict []) = Raises KeyError /\
  obj sample_a_leaf (PyInt 3) = Returns (PyInt 3) /\
  obj_set sample_a_leaf (PyInt 7) (PyInt 3) = Returns (PyInt 3).
Proof.
  destruct (obj_addressing sample_a_leaf (PyList [PyInt 1]) [] "a" [] (PyList [PyInt 1])
              eq_refl eq_refl) as (_ & Hl & _ & _).
  destruct (obj_addressing sample_a_leaf (PyDict []) [] "a" [] (PyDict [])
              eq_refl eq_refl) as (Hd & _ & _ & _).
  destruct (obj_addressing sample_a_leaf (PyInt 3) [] "a" [] (PyInt 3)
              eq_refl eq_refl) as (_ & _ & _ & Hv).
  split; [exact (proj1 (Hl _ eq_refl eq_refl))|].
  split; [exact (proj1 (Hd _ eq_refl eq_refl))|].
  split; [exact (proj1 (Hv eq_refl)) | exact (proj2 (Hv eq_refl) _)].
Defined.

(** ** Paths *)

Lemma path_unfold e :
  path e =
    match entry_cls e with
    | EntryRenamed => EntryRenamed_path (exclude_from_path e) (path <$> parent e) (name e)
    | _ => EntryConstruct_path (path <$> parent e) (name e)
    end.
Proof. destruct e as [c k x [p|]]; reflexivity. Qed.

Lemma path_excluded e : excluded e = true -> path e = parent_path e.
Proof.
  unfold excluded, parent_path. intros H. apply andb_true_iff in H as [Hc Hx].
  apply bool_decide_eq_true in Hc. rewrite path_unfold, Hc, Hx.
  destruct (parent e); reflexivity.
Qed.

Lemma path_not_excluded e :
  excluded e = false ->
  path e = match parent e with
           | Some p => if String.eqb (name e) "" then path p else path p ++ [name e]
           | None => []
           end.
Proof.
  unfold excluded. intros H. rewrite path_unfold.
  destruct (entry_cls e) eqn:Hc; simpl in H; try (destruct (parent e); reflexivity).
  rewrite H. destruct (parent e); reflexivity.
Qed.

(** *** C3 *)

(** C3, as stated, fails on its last clause: the root entry of the grammar
    ["packet" / Struct(...)] is named ["packet"], has no parent and is not
    excluded, and its path is [[]], not [["packet"]]. *)
Lemma root_path_is_empty :
  let root := Entry EntryRenamed (cs_Renamed sample_struct "packet") false None in
  create_entry_from_construct None (cs_Renamed sample_struct "packet") = Returns (Some root) /\
  parent root = None /\ excluded root = false /\ name root = "packet" /\
  path root = [] /\ path root <> [name root].
Proof. repeat split; try reflexivity. discriminate. Qed.

(** C3, amended: for an entry with a parent, the path is the parent's path
    followed by the entry's name when the name is not empty and the entry is
    not marked exclude-from-path, and the parent's path otherwise; for an
    entry without parent the path is [[]], whatever its name. *)
Theorem path_spec (e : entry) :
  path e =
    match parent e with
    | Some p =>
        if negb (String.eqb (name e) "") && negb (excluded e)
        then path p ++ [name e]
        else path p
    | None => []
    end.
Proof.
  destruct (excluded e) eqn:Hx.
  - rewrite (path_excluded e Hx). unfold parent_path.
    rewrite andb_false_r. reflexivity.
  - rewrite (path_not_excluded e Hx).
    destruct (parent e); [|reflexivity].
    destruct (String.eqb (name e) ""); reflexivity.
Qed.

(** *** C8 *)

Lemma EntryRenamed_init_cs_Renamed par sc label x :
  EntryRenamed_init par (cs_Renamed sc label) x =
    Returns (Entry EntryRenamed (cs_Renamed sc label)
               (x || bool_decide (con_name (cs_Renamed sc label) = con_name sc)) par).
Proof. reflexivity. Qed.

Lemma branch_entry_init self sc label :
  EntryRenamed_init (Some self) (cs_Renamed sc label) true = Returns (branch_entry self sc label).
Proof. reflexivity. Qed.

Lemma create_entry_cs_Renamed par sc label :
  create_entry_from_construct par (cs_Renamed sc label) =
    e ← EntryRenamed_init par (cs_Renamed sc label) false; Returns (Some e).
Proof. reflexivity. Qed.

(** C8: an [EntryRenamed] built with [exclude_from_path=True] has the path of
    its parent ([[]] without parent).  An [EntryRenamed] whose construct has
    the name of its [subcon] is excluded whatever flag it was built with, and
    has the path of its parent; the entry below it then carries the name: if
    that entry is named and not itself excluded, its path is the parent's path
    followed by the name, once.  So for [Renamed(Renamed(base, newname=n))]
    with [base] not named [n], the outer entry adds no segment and the inner
    entry adds the one segment [n]. *)
Theorem renamed_exclusion (par : option entry) (con sc : construct) :
  con_subcon con = Returns sc ->
  (exists e, EntryRenamed_init par con true = Returns e /\
             excluded e = true /\ path e = parent_path e /\ parent e = par) /\
  (con_name con = con_name sc ->
   forall flag, exists outer,
     EntryRenamed_init par con flag = Returns outer /\
     excluded outer = true /\ path outer = parent_path outer /\ parent outer = par /\
     forall inner,
       subentry outer = Returns (Some inner) ->
       name inner <> "" -> excluded inner = false ->
       path inner = parent_path outer ++ [name inner]) /\
  (forall base n,
     sc = cs_Renamed base n -> con = cs_Renamed sc "" ->
     n <> "" -> con_name base <> Some n ->
     exists outer inner,
       create_entry_from_construct par con = Returns (Some outer) /\
       subentry outer = Returns (Some inner) /\
       name outer = n /\ name inner = n /\
       path outer = parent_path outer /\
       path inner = parent_path outer ++ [n]).
Proof.
  intros Hsc. split; [|split].
  - unfold EntryRenamed_init. rewrite Hsc. simpl.
    eexists. split; [reflexivity|]. split; [reflexivity|].
    split; [|reflexivity]. apply path_excluded. reflexivity.
  - intros Hname flag. unfold EntryRenamed_init. rewrite Hsc. simpl.
    rewrite (bool_decide_eq_true_2 _ Hname), orb_true_r.
    eexists. split; [reflexivity|].
    assert (Hx : excluded (Entry EntryRenamed con true par) = true) by reflexivity.
    split; [exact Hx|]. split; [apply path_excluded; exact Hx|]. split; [reflexivity|].
    intros inner Hsub Hn Hxi.
    assert (Hp : parent inner = Some (Entry EntryRenamed con true par)).
    { unfold subentry in Hsub. simpl in Hsub. rewrite Hsc in Hsub. simpl in Hsub.
      unfold create_entry_from_construct, create_entry_with in Hsub.
      destruct (entry_class_for entry_mapping_construct (con_type sc)) as [cls|];
        [|discriminate].
      unfold new_entry in Hsub.
      destruct cls; simpl in Hsub;
        try (injection Hsub as <-; reflexivity).
      unfold EntryRenamed_init in Hsub.
      destruct (con_subcon sc); simpl in Hsub; [|discriminate].
      injection Hsub as <-. reflexivity. }
    rewrite (path_not_excluded inner Hxi), Hp.
    apply String.eqb_neq in Hn. rewrite Hn.
    rewrite (path_excluded _ Hx). reflexivity.
  - intros base n -> -> Hn Hbase.
    assert (Hne : String.eqb n "" = false) by (apply String.eqb_neq; exact Hn).
    assert (Hnm : con_name (cs_Renamed base n) = Some n).
    { unfold cs_Renamed. simpl. rewrite Hne. reflexivity. }
    assert (Hin : bool_decide (con_name (cs_Renamed base n) = con_name base) = false).
    { apply bool_decide_eq_false. rewrite Hnm. congruence. }
    exists (Entry EntryRenamed (cs_Renamed (cs_Renamed base n) "") true par),
           (Entry EntryRenamed (cs_Renamed base n) false
              (Some (Entry EntryRenamed (cs_Renamed (cs_Renamed base n) "") true par))).
    split.
    { rewrite create_entry_cs_Renamed, EntryRenamed_init_cs_Renamed.
      rewrite (bool_decide_eq_true_2 _ (eq_refl : con_name (cs_Renamed (cs_Renamed base n) "")
                                                  = con_name (cs_Renamed base n))).
      reflexivity. }
    split.
    { unfold subentry. simpl. rewrite create_entry_cs_Renamed.
      rewrite EntryRenamed_init_cs_Renamed, Hin. reflexivity. }
    split; [unfold name; simpl; rewrite Hne; reflexivity|].
    split; [unfold name; simpl; rewrite Hne; reflexivity|].
    split; [apply path_excluded; reflexivity|].
    rewrite path_not_excluded by reflexivity.
    unfold name. simpl. rewrite Hne. simpl. rewrite Hne.
    unfold parent_path. simpl. destruct par; reflexivity.
Qed.

Lemma renamed_exclusion_witness :
  exists outer inner,
    create_entry_from_construct (Some sample_root) (cs_Renamed (cs_Renamed Int8ub "x") "")
      = Returns (Some outer) /\
    subentry outer = Returns (Some inner) /\
    name outer = "x" /\ name inner = "x" /\
    path outer = parent_path outer /\
    path inner = parent_path outer ++ ["x"].
Proof.
  destruct (renamed_exclusion (Some sample_root) (cs_Renamed (cs_Renamed Int8ub "x") "")
              (cs_Renamed Int8ub "x") eq_refl) as (_ & _ & H).
  apply (H Int8ub "x" eq_refl eq_refl); discriminate.
Defined.

(** ** The factory *)

Lemma mapping_get_elem ty cls (mapping : list (pytype * entry_class)) :
  NoDup mapping.*1 -> (ty, cls) ∈ mapping -> mapping_get ty mapping = Some cls.
Proof.
  induction mapping as [|[k v] m IH]; intros Hnd Hin.
  - inversion Hin.
  - simpl in *. apply NoDup_cons in Hnd as [Hk Hnd].
    apply elem_of_cons in Hin as [Heq|Hin].
    + injection Heq as <- <-. rewrite bool_decide_eq_true_2; reflexivity.
    + destruct (bool_decide (ty = k)) eqn:E.
      * apply bool_decide_eq_true in E. subst k. exfalso. apply Hk.
        apply list_elem_of_fmap. exists (ty, cls). split; [reflexivity | assumption].
      * apply IH; assumption.
Qed.

Lemma mapping_get_None ty (mapping : list (pytype * entry_class)) :
  ty ∉ mapping.*1 -> mapping_get ty mapping = None.
Proof.
  induction mapping as [|[k v] m IH]; intros Hnin; simpl in *; [reflexivity|].
  apply not_elem_of_cons in Hnin as [Hne Hnin].
  rewrite bool_decide_eq_false_2 by assumption. apply IH; assumption.
Qed.

Lemma mapping_first_instance_app ty pre key cls post :
  Forall (fun kv : pytype * entry_class => issubclass ty kv.1 = false) pre ->
  issubclass ty key = true ->
  mapping_first_instance ty (pre ++ (key, cls) :: post) = Some cls.
Proof.
  intros Hpre Hkey. induction Hpre as [|[k v] pre Hk _ IH]; simpl in *.
  - rewrite Hkey. reflexivity.
  - rewrite Hk. exact IH.
Qed.

Lemma mapping_first_instance_None ty mapping :
  Forall (fun kv : pytype * entry_class => issubclass ty kv.1 = false) mapping ->
  mapping_first_instance ty mapping = None.
Proof.
  intros H. induction H as [|[k v] m Hk _ IH]; simpl in *; [reflexivity|].
  rewrite Hk. exact IH.
Qed.

Lemma entry_mapping_construct_NoDup : NoDup entry_mapping_construct.*1.
Proof. refine (bool_decide_unpack _ _). vm_compute. exact I. Qed.

(** *** C5 *)

(** C5: with a mapping of distinct keys, for a node of runtime type [ty]:
    (1) if [ty] is registered for [cls], the constructor of [cls] is used;
    (2) otherwise the constructor registered for the first key, in insertion
    order, that [ty] is a subclass of; (3) otherwise [EntryConstruct], if the
    node is a [construct.Construct]; (4) otherwise no entry is built and the
    factory raises [ValueError]. *)
Theorem factory_dispatch (mapping : list (pytype * entry_class)) (par : option entry)
    (subcon : construct) :
  NoDup mapping.*1 ->
  (forall cls, (con_type subcon, cls) ∈ mapping ->
     create_entry_with mapping par subcon =
       (e ← new_entry cls par subcon; Returns (Some e))) /\
  (con_type subcon ∉ mapping.*1 ->
   forall pre key cls post,
     mapping = pre ++ (key, cls) :: post ->
     Forall (fun kv : pytype * entry_class => issubclass (con_type subcon) kv.1 = false) pre ->
     issubclass (con_type subcon) key = true ->
     create_entry_with mapping par subcon =
       (e ← new_entry cls par subcon; Returns (Some e))) /\
  (Forall (fun kv : pytype * entry_class => issubclass (con_type subcon) kv.1 = false) mapping ->
   (issubclass (con_type subcon) cs_Construct = true ->
      create_entry_with mapping par subcon =
        Returns (Some (Entry EntryConstruct subcon false par))) /\
   (issubclass (con_type subcon) cs_Construct = false ->
      create_entry_with mapping par subcon = Raises ValueError)).
Proof.
  intros Hnd. unfold create_entry_with, entry_class_for. split; [|split].
  - intros cls Hin. rewrite (mapping_get_elem _ _ _ Hnd Hin). reflexivity.
  - intros Hnin pre key cls post -> Hpre Hkey.
    rewrite (mapping_get_None _ _ Hnin).
    rewrite (mapping_first_instance_app _ _ _ _ _ Hpre Hkey). reflexivity.
  - intros Hall.
    assert (Hnin : con_type subcon ∉ mapping.*1).
    { intros Hin. apply list_elem_of_fmap in Hin as ([k v] & Hk & Hin). simpl in Hk. subst k.
      rewrite Forall_forall in Hall. specialize (Hall _ Hin). simpl in Hall.
      destruct (con_type subcon) as [n bs]. simpl in Hall.
      rewrite bool_decide_eq_true_2 in Hall by reflexivity. discriminate. }
    rewrite (mapping_get_None _ _ Hnin), (mapping_first_instance_None _ _ Hall).
    split; intros ->; reflexivity.
Qed.

Lemma factory_dispatch_witness :
  create_entry_from_construct None sample_struct = Returns (Some sample_root).
Proof.
  destruct (factory_dispatch entry_mapping_construct None sample_struct
              entry_mapping_construct_NoDup) as (H & _).
  apply (H EntryStruct). unfold entry_mapping_construct. simpl.
  do 6 apply list_elem_of_further. apply list_elem_of_here.
Defined.

(** An object of class [int] is no construct: the factory refuses it. *)
Example factory_refuses_int :
  create_entry_from_construct None (CLeaf (PyClass "int" [py_object]) None)
    = Raises ValueError.
Proof. reflexivity. Qed.

(** ** Arrays *)

Lemma pretty_N_go_nonempty (x : N) (s : string) : s <> "" -> pretty_N_go x s <> "".
Proof.
  revert s. induction (N.lt_wf_0 x) as [x _ IH]; intros s Hs.
  destruct (decide (x = 0%N)) as [->|Hx].
  - rewrite pretty_N_go_0. exact Hs.
  - rewrite pretty_N_go_step by lia. apply IH.
    + apply N.div_lt; lia.
    + discriminate.
Qed.

Lemma pretty_nat_nonempty (n : nat) : pretty n <> "".
Proof.
  unfold pretty, pretty_nat, pretty, pretty_N.
  destruct (decide (N.of_nat n = 0%N)) as [_|Hn]; [discriminate|].
  rewrite pretty_N_go_step by lia. apply pretty_N_go_nonempty. discriminate.
Qed.

Lemma cs_Renamed_name sc label : label <> "" -> con_name (cs_Renamed sc label) = Some label.
Proof.
  intros H. unfold cs_Renamed. simpl.
  apply String.eqb_neq in H. rewrite H. reflexivity.
Qed.

Lemma array_child_name self sc index : name (array_child self sc index) = pretty index.
Proof.
  unfold name, array_child. simpl construct_of.
  rewrite cs_Renamed_name by apply pretty_nat_nonempty. reflexivity.
Qed.

Lemma insert_entry_spec self sc index cache :
  con_subcon (construct_of self) = Returns sc ->
  insert_entry self index cache = Returns (cache ++ [Some (array_child self sc index)]).
Proof.
  intros Hsc. unfold insert_entry. rewrite Hsc.
  cbn -[create_entry_from_construct cs_Renamed].
  rewrite create_entry_cs_Renamed, EntryRenamed_init_cs_Renamed. reflexivity.
Qed.

Lemma insert_entries_spec self sc indices cache :
  con_subcon (construct_of self) = Returns sc ->
  insert_entries self indices cache =
    Returns (cache ++ map (fun index => Some (array_child self sc index)) indices).
Proof.
  intros Hsc. revert cache. induction indices as [|i l IH]; intros cache; simpl.
  - rewrite app_nil_r. reflexivity.
  - rewrite (insert_entry_spec _ _ _ _ Hsc). simpl. rewrite IH.
    rewrite <- app_assoc. reflexivity.
Qed.

Lemma length_array_children self sc n : length (array_children self sc n) = n.
Proof. unfold array_children. rewrite length_map, length_seq. reflexivity. Qed.

Lemma array_children_lookup self sc n i :
  (i < n)%nat -> array_children self sc n !! i = Some (Some (array_child self sc i)).
Proof.
  intros H. unfold array_children. rewrite list_lookup_fmap.
  rewrite lookup_seq_lt by assumption. reflexivity.
Qed.

Lemma sync_subentries_spec self sc array_len cache :
  con_subcon (construct_of self) = Returns sc ->
  sync_subentries self array_len cache =
    Returns (if bool_decide (Z.of_nat (length cache) <> array_len)
             then array_children self sc (Z.to_nat array_len)
             else cache).
Proof.
  intros Hsc. unfold sync_subentries.
  destruct (bool_decide (Z.of_nat (length cache) <> array_len)); [|reflexivity].
  rewrite (insert_entries_spec _ _ _ _ Hsc). reflexivity.
Qed.

(** The list an access leaves in [_subentries] is again a list of children
    as [insert_entry] builds them; the list of [__init__], [[]], is one. *)
Lemma sync_subentries_coherent self sc array_len cache :
  con_subcon (construct_of self) = Returns sc ->
  cache = array_children self sc (length cache) ->
  sync_subentries self array_len cache =
    Returns (array_children self sc (Z.to_nat array_len)).
Proof.
  intros Hsc Hc. rewrite (sync_subentries_spec _ _ _ _ Hsc).
  destruct (bool_decide (Z.of_nat (length cache) <> array_len)) eqn:E; [reflexivity|].
  apply bool_decide_eq_false in E. apply dec_stable in E.
  rewrite <- E, Nat2Z.id. rewrite <- Hc. reflexivity.
Qed.

Lemma EntryArray_array_len_returns self ty nm count sc root :
  construct_of self = CArray ty nm count sc ->
  EntryArray_array_len self root =
    Returns (match (o ← obj self root; py_len o) with
             | Returns n => n
             | Raises _ => match count with PConst (PyInt c) => c | _ => 1%Z end
             end).
Proof.
  intros Hc. unfold EntryArray_array_len. rewrite Hc. simpl.
  destruct (obj self root ≫= _); reflexivity.
Qed.

Lemma py_len_nonneg o n : py_len o = Returns n -> (0 <= n)%Z.
Proof. destruct o; simpl; intros [= <-]; lia. Qed.

Lemma EntryArray_subentries_spec self ty nm count sc root cache :
  construct_of self = CArray ty nm count sc ->
  exists array_len,
    EntryArray_array_len self root = Returns array_len /\
    EntryArray_subentries self root cache =
      Returns (if bool_decide (Z.of_nat (length cache) <> array_len)
               then array_children self sc (Z.to_nat array_len)
               else cache).
Proof.
  intros Hc. eexists. split; [apply (EntryArray_array_len_returns _ _ _ _ _ _ Hc)|].
  unfold EntryArray_subentries.
  rewrite (EntryArray_array_len_returns _ _ _ _ _ _ Hc).
  apply sync_subentries_spec. rewrite Hc. reflexivity.
Qed.

(** The list that [__init__] or an earlier access left in [_subentries] makes
    no difference to what an access returns. *)
Lemma EntryArray_subentries_cached self ty nm count sc root cache :
  construct_of self = CArray ty nm count sc ->
  cache = array_children self sc (length cache) ->
  EntryArray_subentries self root cache = EntryArray_subentries self root [].
Proof.
  intros Hc Hcache.
  assert (Hsc : con_subcon (construct_of self) = Returns sc) by (rewrite Hc; reflexivity).
  unfold EntryArray_subentries.
  destruct (EntryArray_array_len self root) as [n|]; [|reflexivity]. simpl.
  rewrite (sync_subentries_coherent _ _ _ _ Hsc Hcache).
  rewrite (sync_subentries_coherent _ _ _ [] Hsc eq_refl). reflexivity.
Qed.

(** *** C4 *)

(** C4: for an array entry, an access to [subentries] with [cache] in
    [_subentries] returns a list [l] such that
    - the number of children is the length of the live value when [len] of it
      can be taken, else the declared count when that is an integer (a count
      is not negative), else 1;
    - when the length found equals the number of cached children the cached
      list is returned, and when it differs the list is rebuilt with one
      child per index;
    - starting from a list that the entry built itself, child [i] is the
      [EntryRenamed] named [str(i)] below the array;
    - when the live value is then a list of [m] items, the next access
      returns [m] children. *)
Theorem array_subentries_spec (self : entry) ty nm count sc (root : pyobj)
    (cache : list (option entry)) :
  construct_of self = CArray ty nm count sc ->
  exists array_len l,
    EntryArray_array_len self root = Returns array_len /\
    EntryArray_subentries self root cache = Returns l /\
    (forall o n, obj self root = Returns o -> py_len o = Returns n ->
       array_len = n /\ Z.of_nat (length l) = n) /\
    (raises (o ← obj self root; py_len o) ->
       (forall c, count = PConst (PyInt c) ->
          array_len = c /\ ((0 <= c)%Z -> Z.of_nat (length l) = c)) /\
       ((forall c, count <> PConst (PyInt c)) -> array_len = 1%Z /\ length l = 1%nat)) /\
    (Z.of_nat (length cache) = array_len -> l = cache) /\
    (Z.of_nat (length cache) <> array_len ->
       l = array_children self sc (Z.to_nat array_len)) /\
    (cache = array_children self sc (length cache) ->
       l = array_children self sc (Z.to_nat array_len) /\
       forall i, (i < length l)%nat ->
         exists child, l !! i = Some (Some child) /\ name child = pretty i /\
                       parent child = Some self /\ entry_cls child = EntryRenamed) /\
    (forall root' items', obj self root' = Returns (PyList items') ->
       exists l', EntryArray_subentries self root' l = Returns l' /\
                  length l' = length items').
Proof.
  intros Hc.
  assert (Hsc : con_subcon (construct_of self) = Returns sc) by (rewrite Hc; reflexivity).
  destruct (EntryArray_subentries_spec self ty nm count sc root cache Hc)
    as (array_len & Hlen & Hsub).
  pose proof (EntryArray_array_len_returns _ _ _ _ _ root Hc) as Hlen'.
  rewrite Hlen in Hlen'. injection Hlen' as Hal.
  assert (Hlength :
    length (if bool_decide (Z.of_nat (length cache) <> array_len)
            then array_children self sc (Z.to_nat array_len) else cache)
    = Z.to_nat array_len).
  { destruct (bool_decide (Z.of_nat (length cache) <> array_len)) eqn:E.
    - apply length_array_children.
    - apply bool_decide_eq_false in E. apply dec_stable in E. lia. }
  exists array_len. eexists. split; [exact Hlen|]. split; [exact Hsub|].
  rewrite Hlength.
  split; [|split; [|split; [|split; [|split]]]].
  - intros o n Ho Hn. rewrite Ho in Hal. simpl in Hal. rewrite Hn in Hal.
    subst array_len. split; [reflexivity|].
    apply py_len_nonneg in Hn. lia.
  - intros [e He]. rewrite He in Hal. split.
    + intros c ->. subst array_len. split; [reflexivity | lia].
    + intros Hnot. destruct count as [[| c | | | | |]|]; subst array_len;
        try (split; reflexivity).
      exfalso. apply (Hnot c). reflexivity.
  - intros E. rewrite bool_decide_eq_false_2; [reflexivity|]. intros H; apply H, E.
  - intros E. rewrite bool_decide_eq_true_2 by assumption. reflexivity.
  - intros Hcache.
    assert (Hl : (if bool_decide (Z.of_nat (length cache) <> array_len)
                  then array_children self sc (Z.to_nat array_len) else cache)
                 = array_children self sc (Z.to_nat array_len)).
    { destruct (bool_decide (Z.of_nat (length cache) <> array_len)) eqn:E; [reflexivity|].
      apply bool_decide_eq_false in E. apply dec_stable in E.
      rewrite <- E, Nat2Z.id. exact Hcache. }
    split; [exact Hl|]. rewrite Hl.
    intros i Hi. exists (array_child self sc i).
    split; [apply array_children_lookup; exact Hi|].
    split; [apply array_child_name|]. split; reflexivity.
  - intros root' items' Ho'.
    destruct (EntryArray_subentries_spec self ty nm count sc root'
                (if bool_decide (Z.of_nat (length cache) <> array_len)
                 then array_children self sc (Z.to_nat array_len) else cache) Hc)
      as (len' & Hlen2 & Hsub2).
    pose proof (EntryArray_array_len_returns _ _ _ _ _ root' Hc) as Hlen2'.
    rewrite Hlen2 in Hlen2'. injection Hlen2' as Hal2.
    rewrite Ho' in Hal2. simpl in Hal2.
    eexists. split; [exact Hsub2|].
    rewrite Hlength.
    destruct (bool_decide (Z.of_nat (Z.to_nat array_len) <> len')) eqn:E.
    + rewrite length_array_children. lia.
    + apply bool_decide_eq_false in E. apply dec_stable in E.
      rewrite Hlength. lia.
Qed.

Lemma array_subentries_spec_witness :
  exists array_len l,
    EntryArray_array_len sample_b_array sample_obj = Returns array_len /\
    EntryArray_subentries sample_b_array sample_obj [] = Returns l /\
    array_len = 2%Z /\ length l = 2%nat /\
    l = array_children sample_b_array Int8ub 2.
Proof.
  destruct (array_subentries_spec sample_b_array cs_Array None (PConst (PyInt 2)) Int8ub
              sample_obj [] eq_refl)
    as (array_len & l & Hlen & Hsub & Hlive & _ & _ & _ & Hnames & _).
  exists array_len, l. split; [exact Hlen|]. split; [exact Hsub|].
  destruct (Hlive (PyList [PyInt 1; PyInt 2]) 2%Z eq_refl eq_refl) as [Ha Hl].
  split; [exact Ha|]. split; [lia|].
  destruct (Hnames eq_refl) as [Hall _]. rewrite Hall, Ha. reflexivity.
Defined.

(** ** Conditional entries *)

Lemma create_entry_fields par sc child :
  create_entry_from_construct par sc = Returns (Some child) ->
  construct_of child = sc /\ parent child = par.
Proof.
  unfold create_entry_from_construct, create_entry_with.
  destruct (entry_class_for entry_mapping_construct (con_type sc)) as [cls|];
    [|discriminate].
  unfold new_entry, EntryRenamed_init.
  destruct cls; simpl; try (intros [= <-]; split; reflexivity).
  destruct (con_subcon sc); simpl; [|discriminate].
  intros [= <-]. split; reflexivity.
Qed.

Lemma with_subentry_subentries rt holder sc dflt root :
  with_subentry holder sc dflt (fun c x p => subentries_of rt sc c x p root) =
    (oe ← create_entry_from_construct (Some holder) sc;
     match oe with
     | None => dflt
     | Some child => subentries rt child root
     end).
Proof.
  unfold with_subentry.
  destruct (create_entry_from_construct (Some holder) sc) as [[child|]|] eqn:E;
    try reflexivity.
  simpl. unfold subentries.
  destruct (create_entry_fields _ _ _ E) as [-> _]. reflexivity.
Qed.

Lemma subentry_branch_entry self sc label :
  subentry (branch_entry self sc label) =
    create_entry_from_construct (Some (branch_entry self sc label)) sc.
Proof. reflexivity. Qed.

(** [subentries] of a branch entry are those of the entry below it. *)
Lemma subentries_branch_entry rt self sc label root :
  subentries rt (branch_entry self sc label) root =
    (oe ← subentry (branch_entry self sc label);
     s ← deref oe;
     subentries rt s root).
Proof.
  rewrite subentry_branch_entry.
  transitivity
    (with_subentry (branch_entry self sc label) sc (Raises AttributeError)
       (fun c x p => subentries_of rt sc c x p root)); [reflexivity|].
  rewrite with_subentry_subentries.
  destruct (create_entry_from_construct _ sc) as [[child|]|]; reflexivity.
Qed.

(** The dispatched [subentries] of an [EntryIfThenElse] is the property as
    the class writes it, through [_get_subentry]. *)
Lemma subentries_EntryIfThenElse rt self root :
  entry_cls self = EntryIfThenElse ->
  subentries rt self root = EntryIfThenElse_subentries rt self root.
Proof.
  destruct self as [cls con x par]. simpl. intros ->.
  unfold subentries, EntryIfThenElse_subentries, EntryIfThenElse_get_subentry,
    EntryIfThenElse_static.
  cbn [construct_of entry_cls exclude_from_path parent].
  destruct con as [t n|t n s|t n c s|t n ss|t n r s|t n c a b|t n k cs d]; try reflexivity.
  cbn [subentries_of].
  destruct (evaluate_on_obj rt _ root c) as [[cond|]|]; try reflexivity.
  cbn [mbind outcome_bind].
  destruct (py_truthy (opaque_bool rt) cond) as [[|]|]; cbn [mbind outcome_bind];
    [| |reflexivity].
  - rewrite with_subentry_subentries. unfold then_entry.
    rewrite subentry_branch_entry.
    destruct (create_entry_from_construct _ a) as [[child|]|]; reflexivity.
  - rewrite with_subentry_subentries. unfold else_entry.
    rewrite subentry_branch_entry.
    destruct (create_entry_from_construct _ b) as [[child|]|]; reflexivity.
Qed.

Lemma subentries_EntrySwitch rt self root :
  entry_cls self = EntrySwitch ->
  subentries rt self root = EntrySwitch_subentries rt self root.
Proof.
  destruct self as [cls con x par]. simpl. intros ->.
  unfold subentries, EntrySwitch_subentries, EntrySwitch_get_subentry.
  cbn [construct_of entry_cls exclude_from_path parent].
  destruct con as [t n|t n s|t n c s|t n ss|t n r s|t n c a b|t n k cs d]; try reflexivity.
  cbn [subentries_of].
  destruct (evaluate_on_obj rt _ root k) as [[key|]|]; try reflexivity.
  cbn [mbind outcome_bind].
  destruct (negb (py_hashable rt key)); [reflexivity|].
  set (self := Entry EntrySwitch (CSwitch t n k cs d) x par).
  generalize (EntrySwitch_static rt self). intros static.
  clearbody self.
  induction cs as [|[k' v] cs IH].
  - cbn [find_case]. destruct d as [dc|]; [|reflexivity].
    cbn [fmap option_fmap option_map mbind outcome_bind].
    rewrite with_subentry_subentries.
    unfold default_entry. rewrite subentries_branch_entry, subentry_branch_entry.
    destruct (create_entry_from_construct _ dc) as [[child|]|]; reflexivity.
  - cbn [find_case]. destruct (py_key_eq rt key k').
    + cbn [mbind outcome_bind].
      rewrite with_subentry_subentries.
      unfold case_entry. rewrite subentries_branch_entry, subentry_branch_entry.
      destruct (create_entry_from_construct _ v) as [[child|]|]; reflexivity.
    + exact IH.
Qed.

(** *** C2 *)

(** C2, as stated, fails: neither [_get_subentry] has an exception handler.
    With the object [{"flag": 1, "v": 5, "w": 6}], (1) when the values carry
    no metadata, [metadata.context] raises [AttributeError], and (2) when the
    context lacks the key that the predicate reads, the predicate raises
    [KeyError]; [typ_str], [obj_str] and [subentries] of the [IfThenElse] and
    of the [Switch] entry raise the same. *)
Lemma conditional_entries_raise :
  obj sample_ite sample_cond_obj = Returns (PyInt 5) /\
  obj sample_switch sample_cond_obj = Returns (PyInt 6) /\
  (EntryIfThenElse_typ_str bare_runtime plain_str sample_ite sample_cond_obj
     = Raises AttributeError /\
   EntryIfThenElse_obj_str bare_runtime plain_str sample_ite sample_cond_obj
     = Raises AttributeError /\
   EntryIfThenElse_subentries bare_runtime sample_ite sample_cond_obj
     = Raises AttributeError /\
   EntrySwitch_typ_str bare_runtime plain_str sample_switch sample_cond_obj
     = Raises AttributeError /\
   EntrySwitch_obj_str bare_runtime plain_str sample_switch sample_cond_obj
     = Raises AttributeError /\
   EntrySwitch_subentries bare_runtime sample_switch sample_cond_obj
     = Raises AttributeError) /\
  (EntryIfThenElse_typ_str (ctx_runtime (PyDict [])) plain_str sample_ite sample_cond_obj
     = Raises KeyError /\
   EntryIfThenElse_obj_str (ctx_runtime (PyDict [])) plain_str sample_ite sample_cond_obj
     = Raises KeyError /\
   EntryIfThenElse_subentries (ctx_runtime (PyDict [])) sample_ite sample_cond_obj
     = Raises KeyError /\
   EntrySwitch_typ_str (ctx_runtime (PyDict [])) plain_str sample_switch sample_cond_obj
     = Raises KeyError /\
   EntrySwitch_obj_str (ctx_runtime (PyDict [])) plain_str sample_switch sample_cond_obj
     = Raises KeyError /\
   EntrySwitch_subentries (ctx_runtime (PyDict [])) sample_switch sample_cond_obj
     = Raises KeyError).
Proof. repeat split; reflexivity. Qed.

Example conditional_entries_select :
  let rt := ctx_runtime (PyDict [("flag", PyInt 1)]) in
  EntryIfThenElse_get_subentry rt sample_ite sample_cond_obj
    = Returns (Some (Entry EntryFormatField Int8ub false
                       (Some (then_entry rt sample_ite (PCallable "flag") Int8ub)))) /\
  EntryIfThenElse_typ_str rt plain_str sample_ite sample_cond_obj = Returns "?" /\
  EntryIfThenElse_subentries rt sample_ite sample_cond_obj = Returns None /\
  EntrySwitch_get_subentry rt sample_switch sample_cond_obj
    = Returns (Some (case_entry rt sample_switch (PCallable "flag") (PyInt 1) Int8ub)) /\
  EntrySwitch_subentries rt sample_switch sample_cond_obj = Returns None /\
  EntryIfThenElse_typ_str rt plain_str sample_ite PyNone = Returns "IfThenElse" /\
  EntrySwitch_typ_str rt plain_str sample_switch PyNone = Returns "Switch".
Proof. repeat split; reflexivity. Qed.

Lemma evaluate_on_obj_None rt self root func :
  obj self root = Returns PyNone -> evaluate_on_obj rt self root func = Returns None.
Proof. intros H. unfold evaluate_on_obj. rewrite H. reflexivity. Qed.

Lemma evaluate_on_obj_value rt self root func o md :
  obj self root = Returns o -> o <> PyNone -> get_gui_metadata rt o = Some md ->
  evaluate_on_obj rt self root func =
    (v ← evaluate rt func (md_context rt md); Returns (Some v)).
Proof.
  intros Ho Hne Hmd. unfold evaluate_on_obj. rewrite Ho. simpl.
  rewrite bool_decide_eq_false_2 by assumption. rewrite Hmd. reflexivity.
Qed.

Lemma evaluate_on_obj_raises rt self root func x :
  obj self root = Raises x \/
  (exists o md, obj self root = Returns o /\ o <> PyNone /\
                get_gui_metadata rt o = Some md /\
                evaluate rt func (md_context rt md) = Raises x) ->
  evaluate_on_obj rt self root func = Raises x.
Proof.
  intros [H|(o & md & Ho & Hne & Hmd & He)].
  - unfold evaluate_on_obj. rewrite H. reflexivity.
  - rewrite (evaluate_on_obj_value _ _ _ _ _ _ Ho Hne Hmd), He. reflexivity.
Qed.

(** C2, amended.  For an [EntryIfThenElse] and an [EntrySwitch]:
    - when the live value is [None], [_get_subentry] returns [None];
    - when the live value is present with metadata and the predicate or key
      function returns, [_get_subentry] is the entry of the selected branch:
      the then or the else branch by the truth value of the result; the case
      of the key, else the default entry, else [None];
    - an exception raised by the lookup of the live value, by the predicate
      or key function, by taking the truth value of the predicate's result or
      by hashing the key is not absorbed: [_get_subentry] raises it;
    - whenever [_get_subentry] returns [None] (an absent value, or a key
      with no case and no default), [typ_str], [obj_str] and [subentries]
      are the static ones (["IfThenElse"] or ["Switch"], [""], the list of
      branch entries), without raising; whenever it returns an entry, they
      are those of that entry; whenever it raises, they raise the same. *)
Theorem conditional_entries (rt : runtime)
    (typ_str obj_str : entry -> pyobj -> outcome string) (self : entry) (root : pyobj) :
  (forall ty nm condfunc t e,
     construct_of self = CIfThenElse ty nm condfunc t e ->
     (obj self root = Returns PyNone ->
        EntryIfThenElse_get_subentry rt self root = Returns None) /\
     (forall o md c b,
        obj self root = Returns o -> o <> PyNone -> get_gui_metadata rt o = Some md ->
        evaluate rt condfunc (md_context rt md) = Returns c ->
        py_truthy (opaque_bool rt) c = Returns b ->
        EntryIfThenElse_get_subentry rt self root =
          subentry (if b then then_entry rt self condfunc t else else_entry self e)) /\
     (forall x,
        obj self root = Raises x \/
        (exists o md, obj self root = Returns o /\ o <> PyNone /\
                      get_gui_metadata rt o = Some md /\
                      (evaluate rt condfunc (md_context rt md) = Raises x \/
                       exists c, evaluate rt condfunc (md_context rt md) = Returns c /\
                                 py_truthy (opaque_bool rt) c = Raises x)) ->
        EntryIfThenElse_get_subentry rt self root = Raises x) /\
     (EntryIfThenElse_get_subentry rt self root = Returns None ->
        EntryIfThenElse_typ_str rt typ_str self root = Returns "IfThenElse" /\
        EntryIfThenElse_obj_str rt obj_str self root = Returns "" /\
        EntryIfThenElse_subentries rt self root =
          Returns (Some [Some (then_entry rt self condfunc t); Some (else_entry self e)])) /\
     (forall s, EntryIfThenElse_get_subentry rt self root = Returns (Some s) ->
        EntryIfThenElse_typ_str rt typ_str self root = typ_str s root /\
        EntryIfThenElse_obj_str rt obj_str self root = obj_str s root /\
        EntryIfThenElse_subentries rt self root = subentries rt s root) /\
     (forall x, EntryIfThenElse_get_subentry rt self root = Raises x ->
        EntryIfThenElse_typ_str rt typ_str self root = Raises x /\
        EntryIfThenElse_obj_str rt obj_str self root = Raises x /\
        EntryIfThenElse_subentries rt self root = Raises x)) /\
  (forall ty nm keyfunc cases default,
     construct_of self = CSwitch ty nm keyfunc cases default ->
     (obj self root = Returns PyNone ->
        EntrySwitch_get_subentry rt self root = Returns None) /\
     (forall o md key,
        obj self root = Returns o -> o <> PyNone -> get_gui_metadata rt o = Some md ->
        evaluate rt keyfunc (md_context rt md) = Returns key ->
        py_hashable rt key = true ->
        EntrySwitch_get_subentry rt self root =
          Returns (match find_case rt key cases with
                   | Some (k, value) => Some (case_entry rt self keyfunc k value)
                   | None => default_entry self <$> default
                   end)) /\
     (forall x,
        obj self root = Raises x \/
        (exists o md, obj self root = Returns o /\ o <> PyNone /\
                      get_gui_metadata rt o = Some md /\
                      (evaluate rt keyfunc (md_context rt md) = Raises x \/
                       exists key, evaluate rt keyfunc (md_context rt md) = Returns key /\
                                   py_hashable rt key = false /\ x = TypeError)) ->
        EntrySwitch_get_subentry rt self root = Raises x) /\
     (EntrySwitch_get_subentry rt self root = Returns None ->
        EntrySwitch_typ_str rt typ_str self root = Returns "Switch" /\
        EntrySwitch_obj_str rt obj_str self root = Returns "" /\
        EntrySwitch_subentries rt self root =
          Returns (Some (map (fun kv => Some (case_entry rt self keyfunc kv.1 kv.2)) cases
                         ++ match default with
                            | Some d => [Some (default_entry self d)]
                            | None => []
                            end))) /\
     (forall s, EntrySwitch_get_subentry rt self root = Returns (Some s) ->
        EntrySwitch_typ_str rt typ_str self root = typ_str s root /\
        EntrySwitch_obj_str rt obj_str self root = obj_str s root /\
        EntrySwitch_subentries rt self root = subentries rt s root) /\
     (forall x, EntrySwitch_get_subentry rt self root = Raises x ->
        EntrySwitch_typ_str rt typ_str self root = Raises x /\
        EntrySwitch_obj_str rt obj_str self root = Raises x /\
        EntrySwitch_subentries rt self root = Raises x)).
Proof.
  split.
  - intros ty nm condfunc t e Hc.
    unfold EntryIfThenElse_typ_str, EntryIfThenElse_obj_str, EntryIfThenElse_subentries,
      EntryIfThenElse_static.
    split; [|split; [|split; [|split; [|split]]]].
    + intros Ho. unfold EntryIfThenElse_get_subentry.
      rewrite Hc, (evaluate_on_obj_None _ _ _ _ Ho). reflexivity.
    + intros o md c b Ho Hne Hmd Hev Hb. unfold EntryIfThenElse_get_subentry.
      rewrite Hc, (evaluate_on_obj_value _ _ _ _ _ _ Ho Hne Hmd), Hev.
      cbn [mbind outcome_bind]. rewrite Hb. cbn [mbind outcome_bind].
      destruct b; reflexivity.
    + intros x Hx. unfold EntryIfThenElse_get_subentry. rewrite Hc.
      destruct Hx as [Ho | (o & md & Ho & Hne & Hmd & [Hev | (c & Hev & Hb)])].
      * rewrite (evaluate_on_obj_raises _ _ _ _ _ (or_introl Ho)). reflexivity.
      * rewrite (evaluate_on_obj_value _ _ _ _ _ _ Ho Hne Hmd), Hev. reflexivity.
      * rewrite (evaluate_on_obj_value _ _ _ _ _ _ Ho Hne Hmd), Hev.
        cbn [mbind outcome_bind]. rewrite Hb. reflexivity.
    + intros ->. rewrite Hc. repeat split; reflexivity.
    + intros s ->. repeat split; reflexivity.
    + intros x ->. repeat split; reflexivity.
  - intros ty nm keyfunc cases default Hc.
    unfold EntrySwitch_typ_str, EntrySwitch_obj_str, EntrySwitch_subentries,
      EntrySwitch_static.
    split; [|split; [|split; [|split; [|split]]]].
    + intros Ho. unfold EntrySwitch_get_subentry.
      rewrite Hc, (evaluate_on_obj_None _ _ _ _ Ho). reflexivity.
    + intros o md key Ho Hne Hmd Hev Hh. unfold EntrySwitch_get_subentry.
      rewrite Hc, (evaluate_on_obj_value _ _ _ _ _ _ Ho Hne Hmd), Hev.
      cbn [mbind outcome_bind]. rewrite Hh. cbn [negb].
      destruct (find_case rt key cases) as [[k v]|]; reflexivity.
    + intros x Hx. unfold EntrySwitch_get_subentry. rewrite Hc.
      destruct Hx as [Ho | (o & md & Ho & Hne & Hmd & [Hev | (key & Hev & Hh & ->)])].
      * rewrite (evaluate_on_obj_raises _ _ _ _ _ (or_introl Ho)). reflexivity.
      * rewrite (evaluate_on_obj_value _ _ _ _ _ _ Ho Hne Hmd), Hev. reflexivity.
      * rewrite (evaluate_on_obj_value _ _ _ _ _ _ Ho Hne Hmd), Hev.
        cbn [mbind outcome_bind]. rewrite Hh. reflexivity.
    + intros ->. rewrite Hc. repeat split; reflexivity.
    + intros s ->. repeat split; reflexivity.
    + intros x ->. repeat split; reflexivity.
Qed.

(** ** The entry tree is finite *)

Lemma csize_pos c : (1 <= csize c)%nat.
Proof. destruct c; simpl; lia. Qed.

Lemma mapM_Returns {A B} (f : A -> outcome B) l k :
  mapM f l = Returns k -> Forall2 (fun x y => f x = Returns y) l k.
Proof.
  revert k. induction l as [|a l IH]; intros k; simpl.
  - intros [= <-]. constructor.
  - destruct (f a) as [b|] eqn:Ea; simpl; [|discriminate].
    destruct (mapM f l) as [k'|]; simpl; [|discriminate].
    intros [= <-]. constructor; auto.
Qed.

Lemma children_below_mono b b' l : (b <= b')%nat -> children_below b l -> children_below b' l.
Proof.
  intros Hb H. eapply Forall_impl; [exact H|].
  intros oc Hoc c Hc. specialize (Hoc c Hc). lia.
Qed.

Lemma entry_measure_le e : (entry_measure e <= 2 * csize (construct_of e) + 1)%nat.
Proof. unfold entry_measure. destruct (is_array_class _); lia. Qed.

Lemma branch_entry_measure self sc label :
  entry_measure (branch_entry self sc label) = (2 * (1 + csize sc))%nat.
Proof. unfold entry_measure. simpl. lia. Qed.

Lemma list_sum_elem_le (x : nat) l : x ∈ l -> (x <= list_sum l)%nat.
Proof.
  induction l as [|y l IH]; intros H.
  - inversion H.
  - apply elem_of_cons in H as [->|H]; simpl; [lia|]. specialize (IH H). lia.
Qed.

Lemma array_children_below self sc n b :
  (2 * (1 + csize sc) < b)%nat -> children_below b (array_children self sc n).
Proof.
  intros Hb. unfold children_below, array_children.
  apply Forall_forall. intros oc Hin c ->.
  apply list_elem_of_fmap in Hin as (i & Heq & _). injection Heq as ->.
  unfold entry_measure. simpl. lia.
Qed.

Lemma delegate_below rt root holder sc dflt l b :
  (forall cls x par l',
     subentries_of rt sc cls x par root = Returns (Some l') ->
     children_below (2 * csize sc + (if is_array_class cls then 1 else 0)) l') ->
  (2 * csize sc + 1 <= b)%nat ->
  (dflt = Returns (Some l) -> children_below b l) ->
  with_subentry holder sc dflt (fun c x p => subentries_of rt sc c x p root)
    = Returns (Some l) ->
  children_below b l.
Proof.
  intros IH Hb Hd H. unfold with_subentry in H.
  destruct (create_entry_from_construct (Some holder) sc) as [[child|]|]; simpl in H.
  - apply IH in H. eapply children_below_mono; [|exact H].
    destruct (is_array_class _); lia.
  - auto.
  - discriminate.
Qed.

Lemma sync_subentries_below self array_len l b :
  (forall sc, con_subcon (construct_of self) = Returns sc -> (2 * (1 + csize sc) < b)%nat) ->
  sync_subentries self array_len [] = Returns l ->
  children_below b l.
Proof.
  intros Hb H.
  destruct (con_subcon (construct_of self)) as [sc|] eqn:Hsc.
  - rewrite (sync_subentries_spec _ _ _ _ Hsc) in H. injection H as <-.
    destruct (bool_decide _).
    + apply array_children_below. apply Hb. reflexivity.
    + constructor.
  - unfold sync_subentries in H.
    destruct (bool_decide _) eqn:E; [|injection H as <-; constructor].
    destruct (Z.to_nat array_len) as [|n] eqn:En.
    + simpl in H. injection H as <-. constructor.
    + simpl in H. unfold insert_entry in H. rewrite Hsc in H. discriminate.
Qed.

Lemma struct_children_below par ss l b :
  Forall2 (fun sc oc => create_entry_from_construct par sc = Returns oc) ss l ->
  (forall sc, sc ∈ ss -> (2 * csize sc + 1 < b)%nat) ->
  children_below b l.
Proof.
  intros H. induction H as [|sc oc ss l Hc _ IH]; intros Hb; constructor.
  - intros c ->. destruct (create_entry_fields _ _ _ Hc) as [Hcon _].
    pose proof (entry_measure_le c) as Hm. rewrite Hcon in Hm.
    specialize (Hb sc (list_elem_of_here _ _)). lia.
  - apply IH. intros sc' Hin. apply Hb. apply list_elem_of_further. exact Hin.
Qed.

Lemma branch_entries_below (b : nat) (l : list (option entry)) :
  Forall (fun oc : option entry =>
            exists self sc label, oc = Some (branch_entry self sc label) /\
                                  (2 * (1 + csize sc) < b)%nat) l ->
  children_below b l.
Proof.
  intros H. eapply Forall_impl; [exact H|].
  intros oc (self & sc & label & -> & Hb) c [= <-].
  rewrite branch_entry_measure. exact Hb.
Qed.

Lemma subentries_of_below rt root n :
  forall con cls x par l,
    (csize con <= n)%nat ->
    subentries_of rt con cls x par root = Returns (Some l) ->
    children_below (2 * csize con + (if is_array_class cls then 1 else 0)) l.
Proof.
  induction n as [|n IH]; intros con cls x par l Hn H.
  { pose proof (csize_pos con). lia. }
  assert (IHsc : forall sc, (csize sc < csize con)%nat ->
            forall cls x par l',
              subentries_of rt sc cls x par root = Returns (Some l') ->
              children_below (2 * csize sc + (if is_array_class cls then 1 else 0)) l').
  { intros sc Hsc cls' x' par' l'. apply IH. lia. }
  clear IH.
  destruct con as [t nm|t nm s|t nm c s|t nm ss|t nm r s|t nm c a b|t nm k cs d];
    destruct cls; cbn [subentries_of] in H; try discriminate.
  all: try (refine (delegate_below rt root _ s _ _ _ _ _ _ H);
            [apply IHsc; simpl; lia | simpl; lia | discriminate]).
  all: unfold EntryArray_subentries, EntryGreedyRange_subentries in H.
  all: try (destruct (EntryArray_array_len _ root) as [len|]; [|discriminate]).
  all: try (destruct (EntryGreedyRange_array_len _ root) as [len|]; [|discriminate]).
  all: cbn [mbind outcome_bind] in H.
  all: try (destruct (sync_subentries _ len []) as [l'|] eqn:E; [|discriminate];
            cbn [mbind outcome_bind] in H; injection H as <-;
            refine (sync_subentries_below _ _ _ _ _ E);
            intros sc Hsc; simpl in Hsc; try discriminate;
            injection Hsc as <-; simpl; lia).
  1-4: (destruct (with_subentry _ s _ _) as [[l'|]|] eqn:E;
            cbn [mbind outcome_bind] in H; discriminate).
  2-3: (destruct (with_subentry _ s _ _) as [[l'|]|] eqn:E;
            cbn [mbind outcome_bind] in H; try discriminate;
            assert (Hl' : children_below (2 * csize s + 1) l')
              by (refine (delegate_below rt root _ s _ _ _ _ _ _ E);
                  [apply IHsc; simpl; lia | lia | discriminate]);
            destruct r; injection H as <-;
            [apply List.Forall_rev|];
            (eapply children_below_mono; [|exact Hl']); simpl; lia).
  - (* EntryStruct *)
    destruct (mapM _ ss) as [l'|] eqn:E; [|discriminate].
    cbn [mbind outcome_bind] in H. injection H as <-.
    apply mapM_Returns in E. refine (struct_children_below _ _ _ _ E _).
    intros sc Hin. simpl.
    assert (csize sc <= list_sum (map csize ss))%nat
      by (apply list_sum_elem_le, list_elem_of_fmap; eauto).
    lia.
  - (* EntryIfThenElse *)
    assert (Hstatic :
      children_below (2 * csize (CIfThenElse t nm c a b) + 0)
        [Some (then_entry rt (Entry EntryIfThenElse (CIfThenElse t nm c a b) x par) c a);
         Some (else_entry (Entry EntryIfThenElse (CIfThenElse t nm c a b) x par) b)]).
    { apply branch_entries_below. repeat constructor.
      - eexists _, _, _. split; [reflexivity|]. simpl. lia.
      - eexists _, _, _. split; [reflexivity|]. simpl. lia. }
    destruct (evaluate_on_obj rt _ root c) as [[cond|]|];
      cbn [mbind outcome_bind] in H; [|injection H as <-; exact Hstatic|discriminate].
    destruct (py_truthy (opaque_bool rt) cond) as [[|]|];
      cbn [mbind outcome_bind] in H; [| |discriminate].
    + refine (delegate_below rt root _ a _ _ _ _ _ _ H);
        [apply IHsc; simpl; lia | simpl; lia | intros [= <-]; exact Hstatic].
    + refine (delegate_below rt root _ b _ _ _ _ _ _ H);
        [apply IHsc; simpl; lia | simpl; lia | intros [= <-]; exact Hstatic].
  - (* EntrySwitch *)
    set (con := CSwitch t nm k cs d) in *.
    set (self := Entry EntrySwitch con x par) in *.
    assert (Hcs : forall k' v, (k', v) ∈ cs -> (csize v + 2 <= csize con)%nat).
    { intros k' v Hin. subst con. simpl.
      assert (csize v <= list_sum (map (fun kc : pyobj * construct => csize kc.2) cs))%nat.
      { apply list_sum_elem_le, list_elem_of_fmap. exists (k', v). split; [reflexivity|exact Hin]. }
      lia. }
    assert (Hd : forall dc, d = Some dc -> (csize dc + 2 <= csize con)%nat).
    { intros dc ->. subst con. simpl. lia. }
    assert (Hstatic : forall l0, EntrySwitch_static rt self = Returns l0 ->
                                 children_below (2 * csize con + 0) l0).
    { intros l0 [= <-]. apply branch_entries_below, Forall_app. split.
      - apply Forall_forall. intros oc Hin.
        apply list_elem_of_fmap in Hin as ([k' v] & -> & Hin).
        eexists _, _, _. split; [reflexivity|]. specialize (Hcs _ _ Hin). cbn [snd]. lia.
      - destruct d as [dc|]; [|constructor].
        repeat constructor. eexists _, _, _. split; [reflexivity|].
        specialize (Hd _ eq_refl). lia. }
    simpl is_array_class.
    destruct (evaluate_on_obj rt self root k) as [[key|]|];
      cbn [mbind outcome_bind] in H; [| |discriminate].
    2: { destruct (EntrySwitch_static rt self) as [l0|]; [|discriminate].
         cbn [mbind outcome_bind] in H. injection H as <-. apply Hstatic. reflexivity. }
    destruct (negb (py_hashable rt key)); [discriminate|].
    revert Hstatic H. generalize (EntrySwitch_static rt self). intros static Hstatic H.
    clearbody con self.
    induction cs as [|[k' v] cs IHcs].
    + destruct d as [dc|].
      * refine (delegate_below rt root _ dc _ _ _ _ _ _ H);
          [apply IHsc; specialize (Hd _ eq_refl); lia
          | specialize (Hd _ eq_refl); lia | discriminate].
      * destruct static as [l0|]; [|discriminate].
        cbn [mbind outcome_bind] in H. injection H as <-. apply Hstatic. reflexivity.
    + destruct (py_key_eq rt key k').
      * refine (delegate_below rt root _ v _ _ _ _ _ _ H);
          [apply IHsc; specialize (Hcs k' v (list_elem_of_here _ _)); lia
          | specialize (Hcs k' v (list_elem_of_here _ _)); lia | discriminate].
      * apply IHcs; [|exact H].
        intros k'' v' Hin. apply (Hcs k''). apply list_elem_of_further. exact Hin.
Qed.


Lemma subentries_below rt e root l :
  subentries rt e root = Returns (Some l) -> children_below (entry_measure e) l.
Proof.
  unfold subentries, entry_measure. intros H.
  exact (subentries_of_below rt root _ _ _ _ _ _ (Nat.le_refl _) H).
Qed.

Lemma entry_measure_pos e : (2 <= entry_measure e)%nat.
Proof. unfold entry_measure. pose proof (csize_pos (construct_of e)). lia. Qed.

Lemma for_each_subentry_ext f g l acc :
  (forall s a, Some s ∈ l -> f s a = g s a) ->
  for_each_subentry f l acc = for_each_subentry g l acc.
Proof.
  revert acc. induction l as [|oc l IH]; intros acc H; simpl; [reflexivity|].
  destruct oc as [s|]; simpl; [|reflexivity].
  rewrite (H s acc) by apply list_elem_of_here.
  destruct (g s acc) as [acc'|]; simpl; [|reflexivity].
  apply IH. intros s' a Hin. apply H. apply list_elem_of_further. exact Hin.
Qed.

(** More fuel than the measure of the entry makes no difference. *)
Lemma create_flat_subentry_list_fuel_enough rt root f1 :
  forall f2 e acc,
    (entry_measure e <= f1)%nat -> (entry_measure e <= f2)%nat ->
    create_flat_subentry_list_fuel rt f1 e root acc =
    create_flat_subentry_list_fuel rt f2 e root acc.
Proof.
  induction f1 as [|f1 IH]; intros f2 e acc H1 H2.
  { pose proof (entry_measure_pos e). lia. }
  destruct f2 as [|f2]; [pose proof (entry_measure_pos e); lia|].
  simpl. destruct (subentries rt e root) as [[l|]|] eqn:E; try reflexivity.
  simpl. apply for_each_subentry_ext. intros s a Hin.
  pose proof (subentries_below _ _ _ _ E) as Hb.
  unfold children_below in Hb. rewrite Forall_forall in Hb.
  specialize (Hb _ Hin s eq_refl).
  apply IH; lia.
Qed.

(** The recursion of [create_flat_subentry_list], without the bound. *)
Lemma create_flat_subentry_list_unfold rt e root acc :
  create_flat_subentry_list rt e root acc =
    (subs ← subentries rt e root;
     match subs with
     | Some l =>
         for_each_subentry (fun s a => create_flat_subentry_list rt s root a) l acc
     | None => Returns (acc ++ [e])
     end).
Proof.
  unfold create_flat_subentry_list at 1.
  replace (depth_bound e) with (S (2 * csize (construct_of e)))
    by (unfold depth_bound; lia).
  cbn [create_flat_subentry_list_fuel].
  destruct (subentries rt e root) as [[l|]|] eqn:E; try reflexivity.
  cbn [mbind outcome_bind]. apply for_each_subentry_ext. intros s a Hin.
  pose proof (subentries_below _ _ _ _ E) as Hb.
  unfold children_below in Hb. rewrite Forall_forall in Hb.
  specialize (Hb _ Hin s eq_refl).
  pose proof (entry_measure_le e). pose proof (entry_measure_le s).
  unfold create_flat_subentry_list.
  apply create_flat_subentry_list_fuel_enough; unfold depth_bound; lia.
Qed.

(** The recursion always has fuel left: it never raises [RecursionError] of
    its own. *)
Lemma create_flat_subentry_list_leaf rt e root acc :
  subentries rt e root = Returns None ->
  create_flat_subentry_list rt e root acc = Returns (acc ++ [e]).
Proof. intros H. rewrite create_flat_subentry_list_unfold, H. reflexivity. Qed.

Lemma create_flat_subentry_list_container rt e root acc l :
  subentries rt e root = Returns (Some l) ->
  create_flat_subentry_list rt e root acc =
    for_each_subentry (fun s a => create_flat_subentry_list rt s root a) l acc.
Proof. intros H. rewrite create_flat_subentry_list_unfold, H. reflexivity. Qed.

Lemma for_each_subentry_acc f l :
  (forall s a, Some s ∈ l -> f s a = (r ← f s []; Returns (a ++ r))) ->
  forall acc,
    for_each_subentry f l acc = (r ← for_each_subentry f l []; Returns (acc ++ r)).
Proof.
  induction l as [|oc l IH]; intros Hf acc; simpl.
  - rewrite app_nil_r. reflexivity.
  - destruct oc as [s|]; simpl; [|reflexivity].
    rewrite (Hf s acc) by apply list_elem_of_here.
    destruct (f s []) as [r1|]; simpl; [|reflexivity].
    assert (Hf' : forall s a, Some s ∈ l -> f s a = (r ← f s []; Returns (a ++ r))).
    { intros s' a Hin. apply Hf. apply list_elem_of_further. exact Hin. }
    rewrite (IH Hf' (acc ++ r1)), (IH Hf' r1).
    destruct (for_each_subentry f l []) as [r2|]; simpl; [|reflexivity].
    rewrite app_assoc. reflexivity.
Qed.

(** [create_flat_subentry_list] only appends to the list it is given. *)
Lemma create_flat_subentry_list_acc rt root n :
  forall e acc,
    (entry_measure e <= n)%nat ->
    create_flat_subentry_list rt e root acc =
      (r ← create_flat_subentry_list rt e root []; Returns (acc ++ r)).
Proof.
  induction n as [|n IH]; intros e acc Hn.
  { pose proof (entry_measure_pos e). lia. }
  rewrite !(create_flat_subentry_list_unfold rt e root).
  destruct (subentries rt e root) as [[l|]|] eqn:E; try reflexivity.
  cbn [mbind outcome_bind].
  apply for_each_subentry_acc. intros s a Hin.
  pose proof (subentries_below _ _ _ _ E) as Hb.
  unfold children_below in Hb. rewrite Forall_forall in Hb.
  specialize (Hb _ Hin s eq_refl). apply IH. lia.
Qed.

(** The flat list of a container is the flat lists of its children, one
    after the other. *)
Lemma create_flat_subentry_list_concat rt e root l rs :
  subentries rt e root = Returns (Some l) ->
  Forall2 (fun oc r => exists c, oc = Some c /\
                                 create_flat_subentry_list rt c root [] = Returns r) l rs ->
  create_flat_subentry_list rt e root [] = Returns (concat rs).
Proof.
  intros Hs H. rewrite (create_flat_subentry_list_container _ _ _ _ _ Hs).
  clear Hs. induction H as [|oc r l rs (c & -> & Hc) _ IH]; simpl; [reflexivity|].
  rewrite Hc. simpl.
  rewrite for_each_subentry_acc.
  - rewrite IH. reflexivity.
  - intros s a _. apply (create_flat_subentry_list_acc rt root (entry_measure s)). lia.
Qed.

Lemma for_each_subentry_mapM f l :
  (forall s a, f s a = (r ← f s []; Returns (a ++ r))) ->
  for_each_subentry f l [] =
    (rs ← mapM (fun oc => s ← deref oc; f s []) l; Returns (concat rs)).
Proof.
  intros Hf. induction l as [|oc l IH]; [reflexivity|].
  cbn [for_each_subentry mapM]. change (mapM ?g l) with (mapM g l).
  destruct oc as [s|]; cbn [deref mbind outcome_bind mret outcome_ret]; [|reflexivity].
  destruct (f s []) as [r1|] eqn:E1; cbn [mbind outcome_bind]; [|reflexivity].
  rewrite (for_each_subentry_acc f l (fun s a _ => Hf s a) r1), IH.
  destruct (mapM _ l) as [rs|]; reflexivity.
Qed.

(** The flat list of an entry: the entry itself when it is a leaf, and the
    flat lists of its children, in their order, when it is a container. *)
Lemma create_flat_subentry_list_equation rt e root :
  create_flat_subentry_list rt e root [] =
    (subs ← subentries rt e root;
     match subs with
     | None => Returns [e]
     | Some l =>
         rs ← mapM (fun oc => s ← deref oc; create_flat_subentry_list rt s root []) l;
         Returns (concat rs)
     end).
Proof.
  rewrite create_flat_subentry_list_unfold.
  destruct (subentries rt e root) as [[l|]|]; try reflexivity.
  cbn [mbind outcome_bind].
  apply (for_each_subentry_mapM (fun s a => create_flat_subentry_list rt s root a)).
  intros s a. apply (create_flat_subentry_list_acc rt root (entry_measure s)). lia.
Qed.

(** The bound on the recursion is never what makes the flattening fail: an
    exception of [create_flat_subentry_list] is the exception of a
    [subentries] access, or the [AttributeError] of a child that is [None]. *)
Lemma create_flat_subentry_list_raises rt root n :
  forall e acc x,
    (entry_measure e <= n)%nat ->
    create_flat_subentry_list rt e root acc = Raises x ->
    (exists c, subentries rt c root = Raises x) \/ x = AttributeError.
Proof.
  induction n as [|n IH]; intros e acc x Hn H.
  { pose proof (entry_measure_pos e). lia. }
  rewrite create_flat_subentry_list_unfold in H.
  destruct (subentries rt e root) as [[l|]|] eqn:E.
  - cbn [mbind outcome_bind] in H.
    pose proof (subentries_below _ _ _ _ E) as Hb.
    unfold children_below in Hb. clear E.
    revert acc H. induction Hb as [|oc l Hoc _ IHl]; intros acc H; [discriminate|].
    cbn [for_each_subentry] in H. destruct oc as [s|]; [|right; injection H as <-; reflexivity].
    cbn [deref mbind outcome_bind] in H.
    destruct (create_flat_subentry_list rt s root acc) as [acc'|] eqn:Es.
    + cbn [mbind outcome_bind] in H. apply (IHl acc' H).
    + cbn [mbind outcome_bind] in H. injection H as <-.
      apply (IH s acc _ ltac:(specialize (Hoc s eq_refl); lia) Es).
  - discriminate.
  - left. exists e. injection H as <-. exact E.
Qed.

(** ** The model *)

Lemma py_list_get_nonneg {A} (l : list A) (i : Z) :
  (0 <= i < Z.of_nat (length l))%Z ->
  exists a, l !! Z.to_nat i = Some a /\ py_list_get l i = Returns a.
Proof.
  intros H. unfold py_list_get. rewrite py_index_nonneg by assumption.
  destruct (l !! Z.to_nat i) as [a|] eqn:E.
  - exists a. split; reflexivity.
  - apply lookup_ge_None in E. lia.
Qed.

(** *** C6 *)

(** C6: [get_value] returns the name of the entry for column 0, its type
    label for column 1 and the entry itself for column 2.  For a column
    greater than 2 it returns [""] unless the parent of the entry is in
    [list_viewed_entries]; then the subtree of the entry is flattened and the
    value label of the leaf at index [column - 3] is returned, or [""] when
    there is no such leaf.  The flat list is depth-first: that of a leaf (an
    entry whose [subentries] is [None]) is the leaf itself, that of a
    container is the flat lists of its children one after the other, in
    their order, the container itself left out. *)
Theorem get_value_spec (rt : runtime) (typ_str obj_str : entry -> pyobj -> outcome string)
    (self : ConstructEditorModel) (e : entry) (column : Z) :
  (column = 0%Z -> get_value rt typ_str obj_str self e column = Returns (CellStr (name e))) /\
  (column = 1%Z ->
     get_value rt typ_str obj_str self e column =
       (s ← typ_str e (root_obj self); Returns (CellStr s))) /\
  (column = 2%Z -> get_value rt typ_str obj_str self e column = Returns (CellEntry e)) /\
  ((column > 2)%Z ->
     ((forall p, parent e = Some p -> p ∉ list_viewed_entries self) ->
        get_value rt typ_str obj_str self e column = Returns (CellStr "")) /\
     (forall p, parent e = Some p -> p ∈ list_viewed_entries self ->
        get_value rt typ_str obj_str self e column =
          (flat ← create_flat_subentry_list rt e (root_obj self) [];
           match flat !! Z.to_nat (column - 3) with
           | Some leaf => s ← obj_str leaf (root_obj self); Returns (CellStr s)
           | None => Returns (CellStr "")
           end))) /\
  (forall c root,
     create_flat_subentry_list rt c root [] =
       (subs ← subentries rt c root;
        match subs with
        | None => Returns [c]
        | Some l =>
            rs ← mapM (fun oc => s ← deref oc; create_flat_subentry_list rt s root []) l;
            Returns (concat rs)
        end)).
Proof.
  split; [|split; [|split; [|split]]].
  - intros ->. reflexivity.
  - intros ->. reflexivity.
  - intros ->. reflexivity.
  - intros Hc. unfold get_value, Column_Name, Column_Type, Column_Value,
      len_ConstructEditorColumn.
    rewrite !bool_decide_eq_false_2 by lia.
    split.
    + intros Hp. destruct (parent e) as [p|]; [|reflexivity].
      rewrite (bool_decide_eq_false_2 _ (Hp p eq_refl)). reflexivity.
    + intros p -> Hin. rewrite (bool_decide_eq_true_2 _ Hin). cbn [negb].
      destruct (create_flat_subentry_list rt e (root_obj self) []) as [flat|];
        [|reflexivity].
      cbn [mbind outcome_bind].
      destruct (bool_decide (Z.of_nat (length flat) > column - 3)%Z) eqn:E.
      * apply bool_decide_eq_true in E.
        destruct (py_list_get_nonneg flat (column - 3)%Z ltac:(lia)) as (a & Ha & Hg).
        rewrite Ha, Hg. reflexivity.
      * apply bool_decide_eq_false in E.
        rewrite (proj2 (lookup_ge_None flat (Z.to_nat (column - 3)))) by lia.
        reflexivity.
  - intros c root. apply create_flat_subentry_list_equation.
Qed.

Example get_value_list_view :
  let model := {| root_entry := Some sample_root; root_obj := sample_obj;
                  hide_protected := true; integer_format := Dec;
                  list_viewed_entries := [sample_root];
                  command_processor := {| max_commands := 20; commands := [] |};
                  value_changed := [] |} in
  let obj_str := fun e root => o ← obj e root;
                               Returns (match o with PyInt z => pretty z | _ => "?" end) in
  create_flat_subentry_list bare_runtime sample_root sample_obj [] =
    Returns [sample_a; array_child sample_b_array Int8ub 0;
             array_child sample_b_array Int8ub 1] /\
  get_value bare_runtime plain_str obj_str model sample_b 3 = Returns (CellStr "1") /\
  get_value bare_runtime plain_str obj_str model sample_b 4 = Returns (CellStr "2") /\
  get_value bare_runtime plain_str obj_str model sample_b 5 = Returns (CellStr "") /\
  get_value bare_runtime plain_str obj_str model sample_a_leaf 3 = Returns (CellStr "") /\
  get_value bare_runtime plain_str obj_str model sample_b 0 = Returns (CellStr "b").
Proof. repeat split; vm_compute; reflexivity. Qed.

(** ** Reading after writing *)


(** A path that resolves: the assignment lands, is read back, and assigning
    the old value again gives the old object. *)
Lemma assign_resolves path :
  forall root val old,
    path <> [] -> resolves root path = true -> traverse root path = Returns old ->
    exists root',
      assign root path val = Returns root' /\
      traverse root' path = Returns val /\
      assign root' path old = Returns root.
Proof.
  induction path as [|p rest IH]; intros root val old Hne Hr Ht; [congruence|].
  apply resolves_cons in Hr as (Hc & v & Hg & Hr).
  destruct rest as [|q rest].
  - (* the last segment *)
    simpl in Ht. rewrite Hg in Ht. simpl in Ht. injection Ht as ->.
    destruct root as [|z|s|b|d|l|r]; try discriminate.
    + simpl in Hg. destruct (dict_get p d) as [v|] eqn:Ed; [|discriminate].
      injection Hg as ->.
      exists (PyDict (dict_set p val d)). simpl.
      rewrite dict_get_set_eq, dict_set_set, (dict_set_same _ _ _ Ed). auto.
    + simpl in Hg. destruct (py_int p) as [i|] eqn:Ei; [|discriminate].
      destruct (py_index (length l) i) as [n|] eqn:En; [|discriminate].
      destruct (l !! n) as [v|] eqn:El; [|discriminate].
      injection Hg as ->.
      exists (PyList (<[n := val]> l)). simpl.
      rewrite Ei, En, length_insert, En.
      rewrite list_lookup_insert_eq by (eapply py_index_lt; eauto).
      rewrite list_insert_insert_eq, (list_insert_id _ _ _ El). auto.
  - (* an inner segment *)
    simpl in Ht. rewrite Hg in Ht. cbn [mbind outcome_bind] in Ht.
    destruct (IH v val old ltac:(discriminate) Hr Ht) as (v' & Ha & Ht' & Hu).
    rewrite assign_cons by discriminate. rewrite Hg, Ha. cbn [mbind outcome_bind].
    destruct root as [|z|s|b|d|l|r]; try discriminate.
    + simpl in Hg. destruct (dict_get p d) as [c|] eqn:Ed; [|discriminate].
      injection Hg as ->.
      eexists. split; [reflexivity|]. split.
      * cbn [traverse getitem]. rewrite dict_get_set_eq. exact Ht'.
      * rewrite assign_cons by discriminate. cbn [getitem].
        rewrite dict_get_set_eq, Hu. cbn [mbind outcome_bind].
        rewrite dict_set_set, (dict_set_same _ _ _ Ed). reflexivity.
    + simpl in Hg. destruct (py_int p) as [i|] eqn:Ei; [|discriminate].
      destruct (py_index (length l) i) as [n|] eqn:En; [|discriminate].
      destruct (l !! n) as [c|] eqn:El; [|discriminate].
      injection Hg as ->.
      assert (Hn : (n < length l)%nat) by (eapply py_index_lt; eauto).
      eexists. split; [reflexivity|]. split.
      * cbn [traverse getitem]. rewrite Ei, length_insert, En.
        rewrite list_lookup_insert_eq by assumption. exact Ht'.
      * rewrite assign_cons by discriminate. cbn [getitem].
        rewrite Ei, length_insert, En.
        rewrite list_lookup_insert_eq by assumption.
        rewrite Hu. cbn [mbind outcome_bind].
        rewrite list_insert_insert_eq, (list_insert_id _ _ _ El). reflexivity.
Qed.

(** A path that can be read but does not resolve reaches a value that is no
    container before its last segment: the setter assigns nothing. *)
Lemma assign_unresolved path :
  forall root val old,
    traverse root path = Returns old -> resolves root path = false ->
    assign root path val = Returns root.
Proof.
  induction path as [|p rest IH]; intros root val old Ht Hr; [discriminate|].
  destruct (is_container root) eqn:Hc; [|apply assign_leaf; assumption].
  simpl in Hr. rewrite Hc in Hr. simpl in Hr, Ht.
  destruct (getitem root p) as [v|] eqn:Hg; [|discriminate].
  cbn [mbind outcome_bind] in Ht.
  destruct rest as [|q rest]; [discriminate|].
  rewrite assign_cons by discriminate. rewrite Hg.
  rewrite (IH v val old Ht Hr). cbn [mbind outcome_bind].
  rewrite (getitem_unchanged _ _ _ Hg). reflexivity.
Qed.

(** Whenever the getter returns, the setter returns, and assigning the old
    value afterwards gives back the object as it was. *)
Lemma assign_then_restore root path val old :
  path <> [] -> traverse root path = Returns old ->
  exists root',
    assign root path val = Returns root' /\
    assign root' path old = Returns root /\
    (resolves root path = true -> traverse root' path = Returns val).
Proof.
  intros Hne Ht. destruct (resolves root path) eqn:Hr.
  - destruct (assign_resolves path root val old Hne Hr Ht) as (root' & Ha & Ht' & Hu).
    exists root'. auto.
  - exists root. split; [|split].
    + apply (assign_unresolved _ _ _ _ Ht Hr).
    + apply (assign_unresolved _ _ _ _ Ht Hr).
    + discriminate.
Qed.

(** ** Editing *)

Lemma assign_obj_returns e val self root' :
  obj_set e val (root_obj self) = Returns root' ->
  assign_obj e val self = (Returns tt, with_root_obj self root').
Proof.
  intros H. unfold assign_obj, mbind, method_bind, mbind_method, mget, mlift.
  rewrite H. reflexivity.
Qed.

Lemma method_bind_returns {A B} (m : method A) (k : A -> method B) self a self' :
  m self = (Returns a, self') -> (m ≫= k) self = k a self'.
Proof. intros H. unfold mbind, method_bind, mbind_method. rewrite H. reflexivity. Qed.

Lemma method_bind_raises {A B} (m : method A) (k : A -> method B) self x self' :
  m self = (Raises x, self') -> (m ≫= k) self = (Raises x, self').
Proof. intros H. unfold mbind, method_bind, mbind_method. rewrite H. reflexivity. Qed.

Lemma Cmd_do_returns c self root' :
  obj_set (cmd_entry c) (cmd_new_value c) (root_obj self) = Returns root' ->
  Cmd_do c self =
    (Returns {| cmd_entry := cmd_entry c; cmd_new_value := cmd_new_value c;
                cmd_current_value := cmd_current_value c; cmd_name := cmd_name c;
                _obj_backup := Some (cmd_current_value c) |},
     with_value_changed (with_root_obj self root') (value_changed self ++ [cmd_entry c])).
Proof.
  intros H. unfold Cmd_do.
  rewrite (method_bind_returns _ _ _ _ _ (assign_obj_returns _ _ _ _ H)).
  erewrite method_bind_returns by reflexivity. reflexivity.
Qed.

Lemma Cmd_undo_returns c self backup root' :
  _obj_backup c = Some backup ->
  obj_set (cmd_entry c) backup (root_obj self) = Returns root' ->
  Cmd_undo c self =
    (Returns tt,
     with_value_changed (with_root_obj self root') (value_changed self ++ [cmd_entry c])).
Proof.
  intros Hb H. unfold Cmd_undo. rewrite Hb.
  erewrite method_bind_returns by reflexivity.
  rewrite (method_bind_returns _ _ _ _ _ (assign_obj_returns _ _ _ _ H)).
  reflexivity.
Qed.

(** *** C9 *)

(** C9: for a column other than the value column, [set_value] raises
    [ValueError] and the model is as before: the root object, the history of
    the command processor and the calls of [on_value_changed] are unchanged. *)
Theorem set_value_invalid_column (rt : runtime) (new_value : pyobj) (e : entry)
    (column : Z) (self : ConstructEditorModel) :
  column <> Column_Value ->
  set_value rt new_value e column self = (Raises ValueError, self).
Proof.
  intros H. unfold set_value. rewrite bool_decide_eq_true_2 by assumption. reflexivity.
Qed.

Lemma set_value_invalid_column_witness :
  set_value bare_runtime (PyInt 7) sample_a_leaf 1 (sample_model sample_obj)
    = (Raises ValueError, sample_model sample_obj).
Proof.
  apply (set_value_invalid_column bare_runtime (PyInt 7) sample_a_leaf 1
           (sample_model sample_obj)).
  unfold Column_Value. lia.
Defined.

(** *** C10 *)

(** C10: for an entry whose path is empty, [set_value] on the value column
    raises [IndexError] (from [entry.path[-1]] in [Cmd.__init__]) before
    anything is submitted: the model is as before, so the root object is
    unchanged, no command is stored and [on_value_changed] is not called. *)
Theorem set_value_empty_path (rt : runtime) (new_value : pyobj) (e : entry)
    (self : ConstructEditorModel) :
  path e = [] ->
  set_value rt new_value e Column_Value self = (Raises IndexError, self).
Proof.
  intros H. unfold set_value. rewrite bool_decide_eq_false_2 by (intros Hc; apply Hc; reflexivity).
  unfold mbind, method_bind, mbind_method, mget, mlift, obj, Cmd_init.
  rewrite H. reflexivity.
Qed.

Lemma set_value_empty_path_witness :
  set_value bare_runtime (PyInt 7) sample_root Column_Value (sample_model sample_obj)
    = (Raises IndexError, sample_model sample_obj).
Proof.
  apply (set_value_empty_path bare_runtime (PyInt 7) sample_root (sample_model sample_obj)).
  reflexivity.
Defined.

(** *** C7 *)

(** C7, as stated, fails: a model starts with [root_obj = None].  The entry
    of field ["a"] is a leaf; [set_value] of 7 on it returns, stores a
    command and calls [on_value_changed], but the setter has passed over the
    segment and assigned nothing: a read of the same path still gives [None],
    not 7. *)
Lemma set_value_without_object :
  let self := sample_model PyNone in
  subentries bare_runtime sample_a_leaf PyNone = Returns None /\
  exists self1 cmd,
    set_value bare_runtime (PyInt 7) sample_a_leaf Column_Value self = (Returns tt, self1) /\
    commands (command_processor self1) = [cmd] /\
    value_changed self1 = [sample_a_leaf] /\
    obj sample_a_leaf (root_obj self1) = Returns PyNone /\
    obj sample_a_leaf (root_obj self1) <> Returns (PyInt 7).
Proof.
  split; [reflexivity|]. eexists _, _.
  split; [vm_compute; reflexivity|].
  split; [reflexivity|]. split; [reflexivity|].
  split; [reflexivity|]. intros H. vm_compute in H. discriminate H.
Qed.

Lemma py_last_nonempty (l : list string) : l <> [] -> exists p, py_last l = Returns p.
Proof.
  intros H. unfold py_last. destruct (last l) as [p|] eqn:E; [eauto|].
  apply last_None in E. congruence.
Qed.

(** C7, amended: for an entry whose path is not empty and whose live value
    can be read, [set_value] on the value column returns; it stores one
    command, whose [do] has run once and called [on_value_changed] once; the
    [undo] of that command returns, gives back the root object as it was
    before the edit (so a read gives the old value) and calls
    [on_value_changed] once more, twice in total.  When the path resolves in
    the root object, a read after [set_value] gives the new value (with the
    metadata of the old value attached). *)
Theorem set_value_undo (rt : runtime) (new_value : pyobj) (e : entry)
    (self : ConstructEditorModel) (old : pyobj) :
  path e <> [] ->
  obj e (root_obj self) = Returns old ->
  exists cmd self1 self2,
    set_value rt new_value e Column_Value self = (Returns tt, self1) /\
    commands (command_processor self1) =
      take (max_commands (command_processor self))
        (cmd :: commands (command_processor self)) /\
    cmd_entry cmd = e /\ _obj_backup cmd = Some old /\
    value_changed self1 = value_changed self ++ [e] /\
    (resolves (root_obj self) (path e) = true ->
       obj e (root_obj self1) =
         Returns (match get_gui_metadata rt old with
                  | Some md => add_gui_metadata rt new_value md
                  | None => new_value
                  end)) /\
    Cmd_undo cmd self1 = (Returns tt, self2) /\
    root_obj self2 = root_obj self /\
    obj e (root_obj self2) = Returns old /\
    value_changed self2 = value_changed self ++ [e; e] /\
    commands (command_processor self2) = commands (command_processor self1).
Proof.
  intros Hne Hobj.
  set (new' := match get_gui_metadata rt old with
               | Some md => add_gui_metadata rt new_value md
               | None => new_value
               end).
  destruct (assign_then_restore (root_obj self) (path e) new' old Hne Hobj)
    as (root1 & Hset & Hback & Hread).
  destruct (py_last_nonempty (path e) Hne) as [p Hp].
  set (cmd := {| cmd_entry := e; cmd_new_value := new'; cmd_current_value := old;
                 cmd_name := "Value '" +:+ p +:+ "' changed";
                 _obj_backup := Some old |}).
  exists cmd. eexists. eexists.
  split.
  { unfold set_value.
    rewrite bool_decide_eq_false_2 by (intros Hc; apply Hc; reflexivity).
    erewrite method_bind_returns by reflexivity.
    erewrite method_bind_returns by (unfold mlift; rewrite Hobj; reflexivity).
    cbv zeta. fold new'.
    erewrite method_bind_returns
      by (unfold mlift, Cmd_init; rewrite Hp; reflexivity).
    unfold submit.
    erewrite method_bind_returns by (apply Cmd_do_returns; exact Hset).
    reflexivity. }
  split; [reflexivity|]. split; [reflexivity|]. split; [reflexivity|].
  split; [reflexivity|].
  split; [intros Hr; apply Hread; exact Hr|].
  split.
  { apply (Cmd_undo_returns cmd _ old (root_obj self)); [reflexivity | exact Hback]. }
  split; [reflexivity|]. split; [exact Hobj|].
  split; [|reflexivity].
  cbn [value_changed with_value_changed with_root_obj with_commands cmd_entry cmd].
  rewrite <- app_assoc. reflexivity.
Qed.

Lemma set_value_undo_witness :
  exists cmd self1 self2,
    set_value bare_runtime (PyInt 7) sample_a_leaf Column_Value (sample_model sample_obj)
      = (Returns tt, self1) /\
    commands (command_processor self1) = [cmd] /\
    obj sample_a_leaf (root_obj self1) = Returns (PyInt 7) /\
    Cmd_undo cmd self1 = (Returns tt, self2) /\
    root_obj self2 = sample_obj /\
    value_changed self2 = [sample_a_leaf; sample_a_leaf].
Proof.
  destruct (set_value_undo bare_runtime (PyInt 7) sample_a_leaf (sample_model sample_obj)
              (PyInt 5) ltac:(discriminate) eq_refl)
    as (cmd & self1 & self2 & H1 & H2 & _ & _ & _ & H3 & H4 & H5 & _ & H6 & _).
  exists cmd, self1, self2.
  split; [exact H1|]. split; [exact H2|]. split; [exact (H3 eq_refl)|].
  split; [exact H4|]. split; [exact H5 | exact H6].
Defined.

(** * Further properties *)

(** ** Laws of the [obj] getter and setter *)

Lemma assign_assign path :
  forall root v1 v2 r1,
    assign root path v1 = Returns r1 -> assign r1 path v2 = assign root path v2.
Proof.
  induction path as [|p rest IH]; intros root v1 v2 r1 H.
  - destruct root; simpl in H; try discriminate; injection H as <-; reflexivity.
  - destruct (is_container root) eqn:Hc;
      [|rewrite (assign_leaf _ _ _ Hc) in H; injection H as <-; reflexivity].
    destruct rest as [|q rest].
    + destruct root as [|z|s|b|d|l|r]; try discriminate; simpl in H.
      * injection H as <-. simpl. rewrite dict_set_set. reflexivity.
      * destruct (py_int p) as [i|] eqn:Ei; [|discriminate].
        destruct (py_index (length l) i) as [n|] eqn:En; [|discriminate].
        injection H as <-. simpl. rewrite Ei, length_insert, En.
        rewrite list_insert_insert_eq. reflexivity.
    + rewrite assign_cons in H by discriminate.
      destruct (getitem root p) as [child|] eqn:Hg; [|discriminate].
      destruct (assign child (q :: rest) v1) as [c1|] eqn:Ha; [|discriminate].
      cbn [mbind outcome_bind] in H. injection H as <-.
      rewrite (assign_cons root) by discriminate. rewrite Hg.
      rewrite assign_cons by discriminate.
      destruct root as [|z|s|b|d|l|r]; try discriminate.
      * cbn [getitem]. rewrite dict_get_set_eq, (IH _ _ v2 _ Ha).
        destruct (assign child (q :: rest) v2); [|reflexivity].
        cbn [mbind outcome_bind]. rewrite dict_set_set. reflexivity.
      * simpl in Hg. destruct (py_int p) as [i|] eqn:Ei; [|discriminate].
        destruct (py_index (length l) i) as [n|] eqn:En; [|discriminate].
        destruct (l !! n) as [c0|] eqn:El; [|discriminate].
        cbn [getitem]. rewrite Ei, length_insert, En.
        rewrite list_lookup_insert_eq by (eapply py_index_lt; eauto).
        rewrite (IH _ _ v2 _ Ha).
        destruct (assign child (q :: rest) v2); [|reflexivity].
        cbn [mbind outcome_bind]. rewrite list_insert_insert_eq. reflexivity.
Qed.

(** X1: of two assignments through the same entry the last one wins: after
    [entry.obj = v1] has returned, [entry.obj = v2] gives the root object,
    or raises the exception, that it gives without the first assignment. *)
Theorem obj_set_last_wins (e : entry) (root r1 v1 v2 : pyobj) :
  obj_set e v1 root = Returns r1 ->
  obj_set e v2 r1 = obj_set e v2 root.
Proof. unfold obj_set. apply assign_assign. Qed.

Lemma obj_set_last_wins_witness :
  obj_set sample_a (PyInt 7) sample_obj =
    Returns (PyDict [("a", PyInt 7); ("b", PyList [PyInt 1; PyInt 2])]) /\
  obj_set sample_a (PyInt 9)
    (PyDict [("a", PyInt 7); ("b", PyList [PyInt 1; PyInt 2])]) =
  obj_set sample_a (PyInt 9) sample_obj.
Proof.
  split; [reflexivity|].
  apply (obj_set_last_wins sample_a sample_obj _ (PyInt 7) (PyInt 9)). reflexivity.
Defined.

Lemma assign_read_value path :
  forall root old,
    path <> [] -> traverse root path = Returns old -> assign root path old = Returns root.
Proof.
  induction path as [|p rest IH]; intros root old Hne Ht; [congruence|].
  simpl in Ht. destruct (getitem root p) as [child|] eqn:Hg; [|discriminate].
  cbn [mbind outcome_bind] in Ht.
  destruct rest as [|q rest].
  - simpl in Ht. injection Ht as <-.
    destruct root as [|z|s|b|d|l|r]; try reflexivity; simpl in *.
    + destruct (dict_get p d) eqn:E; [|discriminate]. injection Hg as ->.
      rewrite (dict_set_same _ _ _ E). reflexivity.
    + destruct (py_int p) as [i|]; [|discriminate].
      destruct (py_index (length l) i) as [n|]; [|discriminate].
      destruct (l !! n) eqn:E; [|discriminate]. injection Hg as ->.
      rewrite (list_insert_id _ _ _ E). reflexivity.
  - rewrite assign_cons by discriminate. rewrite Hg.
    rewrite (IH child old ltac:(discriminate) Ht). cbn [mbind outcome_bind].
    rewrite (getitem_unchanged _ _ _ Hg). reflexivity.
Qed.

(** X2: assigning to an entry the value that its getter returns changes
    nothing: for an entry with a path, [entry.obj = entry.obj] returns and
    leaves the root object as it is. *)
Theorem obj_set_read_value (e : entry) (root old : pyobj) :
  path e <> [] ->
  obj e root = Returns old ->
  obj_set e old root = Returns root.
Proof. unfold obj, obj_set. apply assign_read_value. Qed.

Lemma obj_set_read_value_witness :
  obj_set (array_child sample_b_array Int8ub 1) (PyInt 2) sample_obj = Returns sample_obj.
Proof.
  apply (obj_set_read_value (array_child sample_b_array Int8ub 1) sample_obj (PyInt 2)).
  - vm_compute. discriminate.
  - vm_compute. reflexivity.
Defined.

(** ** An assignment and the readings of other entries *)

Lemma hdict_get_set_ne k k' v d :
  k <> k' -> hdict_get k' (hdict_set k v d) = hdict_get k' d.
Proof.
  intros Hne. induction d as [|[k0 v0] d IH]; simpl.
  - destruct (String.eqb k' k) eqn:E; [|reflexivity].
    apply String.eqb_eq in E. congruence.
  - destruct (String.eqb k k0) eqn:E; simpl.
    + destruct (String.eqb k' k0) eqn:E'; [|reflexivity].
      apply String.eqb_eq in E, E'. congruence.
    + destruct (String.eqb k' k0); [reflexivity | exact IH].
Qed.

(** An assignment to one item of a container leaves its other items. *)
Lemma hcontainer_other_item c k1 val c' k2 :
  hcontainer_setitem c k1 val = Returns c' ->
  same_item c k1 k2 = false ->
  hcontainer_getitem c' k2 = hcontainer_getitem c k2.
Proof.
  destruct c as [d|l]; simpl; intros Hset Hs.
  - injection Hset as <-. apply String.eqb_neq in Hs. simpl.
    rewrite (hdict_get_set_ne _ _ _ _ Hs). reflexivity.
  - destruct (py_int k1) as [i1|]; [|discriminate].
    destruct (py_index (length l) i1) as [n1|] eqn:E1; [|discriminate].
    injection Hset as <-. simpl.
    destruct (py_int k2) as [i2|]; [|reflexivity].
    rewrite length_insert.
    destruct (py_index (length l) i2) as [n2|] eqn:E2; [|reflexivity].
    apply bool_decide_eq_false in Hs.
    rewrite list_lookup_insert_ne by congruence. reflexivity.
Qed.

Lemma htraverse_frame h a c' k1 val path :
  hcontainer_setitem (h a) k1 val = Returns c' ->
  forall obj,
    Forall (fun r : nat * string => r.1 = a -> same_item (h a) k1 r.2 = false)
      (hreads h obj path) ->
    htraverse (heap_set h a c') obj path = htraverse h obj path.
Proof.
  intros Hset. induction path as [|p rest IH]; intros obj Hreads; [reflexivity|].
  cbn [htraverse].
  assert (Hg : hgetitem (heap_set h a c') obj p = hgetitem h obj p).
  { destruct obj as [| | | | |b]; try reflexivity.
    cbn [hreads] in Hreads. apply Forall_cons in Hreads as [Hhead _].
    cbn [hgetitem]. unfold heap_set. destruct (Nat.eqb b a) eqn:E; [|reflexivity].
    apply Nat.eqb_eq in E. subst b.
    apply (hcontainer_other_item _ _ _ _ _ Hset). apply Hhead. reflexivity. }
  rewrite Hg. destruct (hgetitem h obj p) as [v|x] eqn:Hv; [|reflexivity].
  cbn [mbind outcome_bind]. apply IH.
  destruct obj as [| | | | |b];
    try (cbn [hgetitem] in Hv; injection Hv as <-;
         destruct rest; constructor).
  cbn [hreads] in Hreads. apply Forall_cons in Hreads as [_ Htail].
  rewrite Hv in Htail. exact Htail.
Qed.

(** X3: an assignment through one entry leaves the reading of another entry
    as it is, unless that reading subscripts the assigned item.  The setter
    changes one item of one container, the container that the traversal of
    [path[:-1]] arrives at; when the getter of [e2], on its way along its
    path, never subscripts that container at that item (the same key of the
    dict, the same position of the list), then after [e1.obj = val] has
    returned [e2.obj] gives what it gave before, value or exception.  This
    holds also where containers are shared; and when the traversal of
    [path[:-1]] arrives at no container the setter changes nothing. *)
Theorem obj_set_heap_frame (e1 e2 : entry) (val : hval) (h h' : heap) (root : hval) :
  obj_set_heap e1 val h root = Returns h' ->
  (forall a k1,
     htraverse h root (removelast (path e1)) = Returns (HRef a) ->
     py_last (path e1) = Returns k1 ->
     Forall (fun r : nat * string => r.1 = a -> same_item (h a) k1 r.2 = false)
       (hreads h root (path e2)) ->
     obj_heap e2 h' root = obj_heap e2 h root) /\
  (forall v,
     htraverse h root (removelast (path e1)) = Returns v ->
     (forall a, v <> HRef a) ->
     h' = h).
Proof.
  unfold obj_set_heap, obj_heap. intros Hset. split.
  - intros a k1 Ht Hk Hreads. rewrite Ht, Hk in Hset. cbn [mbind outcome_bind] in Hset.
    destruct (hcontainer_setitem (h a) k1 val) as [c'|] eqn:Hc; [|discriminate].
    cbn [mbind outcome_bind] in Hset. injection Hset as <-.
    apply (htraverse_frame h a c' k1 val (path e2) Hc root Hreads).
  - intros v Ht Hv. rewrite Ht in Hset. cbn [mbind outcome_bind] in Hset.
    destruct v as [| | | | |a]; try (injection Hset as <-; reflexivity).
    exfalso. apply (Hv a). reflexivity.
Qed.

(** On [{"x": l, "y": l}] with the one list [l = [1, 2]]: after
    [x[0] = 7] the entry of [y[1]] reads what it read before, and the entry
    of [y[0]], which subscripts the assigned item of the shared list, reads
    the new value. *)
Lemma obj_set_heap_frame_witness :
  exists h',
    obj_set_heap (shared_item "x" 0) (HInt 7) shared_heap (HRef 0) = Returns h' /\
    obj_heap (shared_item "y" 1) h' (HRef 0) = obj_heap (shared_item "y" 1) shared_heap (HRef 0) /\
    obj_heap (shared_item "y" 0) shared_heap (HRef 0) = Returns (HInt 1) /\
    obj_heap (shared_item "y" 0) h' (HRef 0) = Returns (HInt 7).
Proof.
  eexists. split; [reflexivity|]. split; [|split; reflexivity].
  refine (proj1 (obj_set_heap_frame (shared_item "x" 0) (shared_item "y" 1) (HInt 7)
                   shared_heap _ (HRef 0) eq_refl) 1%nat "0" eq_refl eq_refl _).
  vm_compute. repeat constructor; intros; try discriminate; reflexivity.
Defined.

(** ** The path along the chain of parents *)

Lemma entry_chain_ind (P : entry -> Prop) :
  (forall e, parent e = None -> P e) ->
  (forall e p, parent e = Some p -> P p -> P e) ->
  forall e, P e.
Proof.
  intros H0 H1. fix IH 1. intros [cls con excl [p|]].
  - apply (H1 (Entry cls con excl (Some p)) p eq_refl (IH p)).
  - apply H0. reflexivity.
Qed.

Lemma outcome_bind_ret {A} (m : outcome A) : (a ← m; Returns a) = m.
Proof. destruct m; reflexivity. Qed.

Lemma obj_of_child (e p : entry) (root : pyobj) :
  parent e = Some p ->
  obj e root =
    (o ← obj p root;
     if String.eqb (name e) "" || excluded e then Returns o else getitem o (name e)).
Proof.
  intros Hp. unfold obj. destruct (excluded e) eqn:Hx.
  - rewrite (path_excluded e Hx). unfold parent_path. rewrite Hp, orb_true_r.
    symmetry. apply outcome_bind_ret.
  - rewrite (path_not_excluded e Hx), Hp, orb_false_r.
    destruct (String.eqb (name e) ""); [symmetry; apply outcome_bind_ret|].
    rewrite traverse_app.
    destruct (traverse root (path p)) as [o|]; [|reflexivity].
    cbn [mbind outcome_bind traverse]. apply outcome_bind_ret.
Qed.

(** X4: the live value of an entry is read in the live value of its parent:
    [entry.obj] is what [parent.obj] gives when the entry has no name or is
    marked exclude-from-path, and the item named by the entry in it
    otherwise; an exception of [parent.obj] is the result of [entry.obj]. *)
Theorem obj_below_parent (e p : entry) (root : pyobj) :
  parent e = Some p ->
  obj e root =
    (o ← obj p root;
     if String.eqb (name e) "" || excluded e then Returns o else getitem o (name e)).
Proof. apply obj_of_child. Qed.

Lemma obj_below_parent_witness :
  obj sample_b_array sample_obj =
    (o ← obj sample_b sample_obj;
     if String.eqb (name sample_b_array) "" || excluded sample_b_array
     then Returns o else getitem o (name sample_b_array)).
Proof. apply (obj_below_parent sample_b_array sample_b sample_obj). reflexivity. Defined.

Lemma chain_unfold e :
  chain e = match parent e with Some p => chain p | None => [] end ++ [e].
Proof. destruct e; reflexivity. Qed.

Lemma path_chain_eq (e : entry) :
  path e = map name (List.filter adds_segment (chain e)).
Proof.
  induction e as [e He | e p He IH] using entry_chain_ind.
  - assert (Hpath : path e = []).
    { destruct (excluded e) eqn:Hx.
      - rewrite (path_excluded e Hx). unfold parent_path. rewrite He. reflexivity.
      - rewrite (path_not_excluded e Hx), He. reflexivity. }
    rewrite Hpath, chain_unfold, He. unfold adds_segment. simpl. rewrite He.
    reflexivity.
  - rewrite chain_unfold, He, List.filter_app, map_app.
    unfold adds_segment at 2. simpl. rewrite He.
    destruct (excluded e) eqn:Hx.
    + rewrite (path_excluded e Hx). unfold parent_path. rewrite He.
      rewrite andb_false_r. simpl. rewrite app_nil_r. exact IH.
    + rewrite (path_not_excluded e Hx), He.
      destruct (String.eqb (name e) "") eqn:Hn; simpl.
      * rewrite app_nil_r. exact IH.
      * rewrite <- IH. reflexivity.
Qed.

(** X5: the path of an entry lists, from the root down, the names of the
    entries on its chain of parents that have a parent, a name and no
    exclude-from-path mark.  So no segment of a path is empty, and a path
    has fewer segments than the chain has entries. *)
Theorem path_along_chain (e : entry) :
  path e = map name (List.filter adds_segment (chain e)) /\
  Forall (fun segment => segment <> "") (path e) /\
  (length (path e) < length (chain e))%nat.
Proof.
  split; [apply path_chain_eq|].
  rewrite path_chain_eq. clear.
  induction e as [e He | e p He [IH1 IH2]] using entry_chain_ind.
  - rewrite chain_unfold, He. unfold adds_segment. simpl. rewrite He.
    split; [constructor | simpl; lia].
  - rewrite chain_unfold, He, List.filter_app, map_app, !length_app.
    split.
    + apply Forall_app. split; [exact IH1|].
      unfold adds_segment. simpl. rewrite He.
      destruct (negb (String.eqb (name e) "")) eqn:Hn; simpl; [|constructor].
      destruct (negb (excluded e)); simpl; constructor; [|constructor].
      apply negb_true_iff, String.eqb_neq in Hn. exact Hn.
    + pose proof (List.filter_length_le adds_segment [e]) as Hle.
      rewrite !length_map in *. change (length [e]) with 1%nat in *. lia.
Qed.

(** ** [int(str(index))]: the children of an array and the items of the list *)

Lemma digit_of_pretty_N_char (d : N) :
  (d < 10)%N -> digit_of (pretty_N_char d) = Some (Z.of_N d).
Proof.
  intros Hd.
  assert (d = 0 \/ d = 1 \/ d = 2 \/ d = 3 \/ d = 4 \/ d = 5 \/ d = 6 \/ d = 7 \/
          d = 8 \/ d = 9)%N as H by lia.
  repeat (destruct H as [-> | H]; [reflexivity|]). subst. reflexivity.
Qed.

Lemma digit_bounds c d :
  digit_of c = Some d -> (48 <= nat_of_ascii c <= 57)%nat.
Proof.
  unfold digit_of.
  destruct (48 <=? nat_of_ascii c)%nat eqn:E1; [|discriminate].
  destruct (nat_of_ascii c <=? 57)%nat eqn:E2; [|discriminate].
  intros _. apply Nat.leb_le in E1, E2. lia.
Qed.

Lemma digit_not_space c d : digit_of c = Some d -> is_space c = false.
Proof.
  intros H. apply digit_bounds in H. unfold is_space.
  assert ((nat_of_ascii c <=? 13)%nat = false) as -> by (apply Nat.leb_gt; lia).
  assert ((nat_of_ascii c =? 32)%nat = false) as -> by (apply Nat.eqb_neq; lia).
  assert ((nat_of_ascii c =? 133)%nat = false) as -> by (apply Nat.eqb_neq; lia).
  assert ((nat_of_ascii c =? 160)%nat = false) as -> by (apply Nat.eqb_neq; lia).
  rewrite !andb_false_r. reflexivity.
Qed.

Lemma digit_not_sign c d :
  digit_of c = Some d -> Ascii.eqb c "-" = false /\ Ascii.eqb c "+" = false.
Proof.
  intros H. apply digit_bounds in H.
  split; apply Ascii.eqb_neq; intros ->; vm_compute in H; lia.
Qed.

Lemma lstrip_digits l :
  Forall (fun c => is_Some (digit_of c)) l -> lstrip l = l.
Proof.
  destruct 1 as [|c l [d Hd] _]; [reflexivity|].
  simpl. rewrite (digit_not_space _ _ Hd). reflexivity.
Qed.

Lemma strip_digits l :
  Forall (fun c => is_Some (digit_of c)) l -> strip l = l.
Proof.
  intros H. unfold strip. rewrite (lstrip_digits l H).
  rewrite lstrip_digits by (apply Forall_rev; exact H).
  apply rev_involutive.
Qed.

Lemma pretty_N_go_digits (x : N) :
  forall s,
    Forall (fun c => is_Some (digit_of c)) (list_ascii_of_string s) ->
    Forall (fun c => is_Some (digit_of c)) (list_ascii_of_string (pretty_N_go x s)).
Proof.
  induction (N.lt_wf_0 x) as [x _ IH]; intros s Hs.
  destruct (decide (x = 0%N)) as [->|Hx].
  - rewrite pretty_N_go_0. exact Hs.
  - rewrite pretty_N_go_step by lia. apply IH.
    + apply N.div_lt; lia.
    + simpl. constructor; [|exact Hs].
      rewrite digit_of_pretty_N_char by (apply N.mod_lt; lia). eauto.
Qed.

Lemma parse_pretty_N_go (x : N) :
  (0 < x)%N ->
  forall s b,
    parse_digits 0 b (list_ascii_of_string (pretty_N_go x s)) =
    parse_digits (Z.of_N x) true (list_ascii_of_string s).
Proof.
  induction (N.lt_wf_0 x) as [x _ IH]; intros Hx s b.
  rewrite pretty_N_go_step by exact Hx.
  assert (Hd : digit_of (pretty_N_char (x `mod` 10)) = Some (Z.of_N (x `mod` 10)))
    by (apply digit_of_pretty_N_char, N.mod_lt; lia).
  assert (Hx10 : Z.of_N x = (10 * Z.of_N (x `div` 10) + Z.of_N (x `mod` 10))%Z).
  { assert (H10 : (10 <> 0)%N) by discriminate.
    rewrite (N.div_mod x 10 H10) at 1.
    rewrite N2Z.inj_add, N2Z.inj_mul. reflexivity. }
  destruct (decide (x `div` 10 = 0)%N) as [H0|H0].
  - rewrite H0 in *. rewrite pretty_N_go_0. simpl. rewrite Hd.
    f_equal. lia.
  - rewrite IH; [|apply N.div_lt; lia|apply N.neq_0_lt_0; exact H0].
    simpl. rewrite Hd. f_equal. lia.
Qed.

(** [int(str(n)) == n] for an index [n]. *)
Lemma py_int_pretty (n : nat) : py_int (pretty n) = Some (Z.of_nat n).
Proof.
  unfold pretty, pretty_nat, pretty, pretty_N.
  destruct (decide (N.of_nat n = 0%N)) as [H0|Hn].
  - replace n with 0%nat by lia. reflexivity.
  - pose proof (pretty_N_go_digits (N.of_nat n) "" ltac:(constructor)) as Hdig.
    pose proof (parse_pretty_N_go (N.of_nat n) ltac:(lia) "" false) as Hparse.
    unfold py_int. rewrite (strip_digits _ Hdig).
    destruct (list_ascii_of_string (pretty_N_go (N.of_nat n) "")) as [|c s'] eqn:E.
    + simpl in Hparse. discriminate.
    + apply Forall_cons in Hdig as [[d Hd] _].
      destruct (digit_not_sign _ _ Hd) as [-> ->].
      rewrite Hparse. simpl. f_equal. lia.
Qed.

Lemma array_child_excluded self sc i :
  excluded (array_child self sc i) = bool_decide (con_name sc = Some (pretty i)).
Proof.
  unfold excluded, array_child. cbn [entry_cls exclude_from_path].
  rewrite (cs_Renamed_name sc _ (pretty_nat_nonempty i)).
  rewrite (bool_decide_eq_true_2 _ eq_refl). cbn [andb].
  apply bool_decide_ext. split; congruence.
Qed.

Lemma array_child_path self sc i :
  path (array_child self sc i) =
    if bool_decide (con_name sc = Some (pretty i)) then path self
    else path self ++ [pretty i].
Proof.
  pose proof (array_child_excluded self sc i) as Hx.
  destruct (bool_decide (con_name sc = Some (pretty i))).
  - rewrite (path_excluded _ Hx). reflexivity.
  - rewrite (path_not_excluded _ Hx). cbn [parent array_child].
    rewrite array_child_name.
    pose proof (pretty_nat_nonempty i) as Hn. apply String.eqb_neq in Hn.
    rewrite Hn. reflexivity.
Qed.

Lemma getitem_list_pretty (l : list pyobj) (i : nat) x :
  l !! i = Some x -> getitem (PyList l) (pretty i) = Returns x.
Proof.
  intros Hl. pose proof (lookup_lt_Some _ _ _ Hl) as Hi.
  cbn [getitem]. rewrite py_int_pretty.
  rewrite py_index_nonneg by lia. rewrite Nat2Z.id, Hl. reflexivity.
Qed.

(** X6: the children of an array entry read the items of the list.  When
    the live value of an [EntryArray] is a list, [subentries] gives one child
    per item, and the live value of child [i] is item [i] of the list: the
    name [str(i)] that [insert_entry] gives the child is the segment that the
    getter turns back into the index [i].  The one exception is an element
    grammar that is itself named [str(i)]: that child is marked
    exclude-from-path and reads the whole list. *)
Theorem array_children_read_items (self : entry) ty nm count sc (root : pyobj)
    (l : list pyobj) :
  construct_of self = CArray ty nm count sc ->
  obj self root = Returns (PyList l) ->
  exists cs,
    EntryArray_subentries self root [] = Returns cs /\
    length cs = length l /\
    forall i x, l !! i = Some x ->
      exists c, cs !! i = Some (Some c) /\
        obj c root = Returns (if bool_decide (con_name sc = Some (pretty i))
                              then PyList l else x).
Proof.
  intros Hc Hobj.
  destruct (EntryArray_subentries_spec self ty nm count sc root [] Hc)
    as (array_len & Hlen & Hsub).
  rewrite (EntryArray_array_len_returns self ty nm count sc root Hc) in Hlen.
  rewrite Hobj in Hlen. cbn in Hlen. injection Hlen as <-.
  eexists. split; [exact Hsub|].
  rewrite Nat2Z.id.
  assert (Hcs : (if bool_decide (Z.of_nat (length (@nil (option entry))) <>
                                  Z.of_nat (length l))
                 then array_children self sc (length l) else []) =
                array_children self sc (length l)).
  { case_bool_decide as Hd; [reflexivity|].
    simpl in Hd. destruct l; [reflexivity | simpl in Hd; lia]. }
  rewrite Hcs. split; [apply length_array_children|].
  intros i x Hl. pose proof (lookup_lt_Some _ _ _ Hl) as Hi.
  exists (array_child self sc i). split; [apply array_children_lookup; exact Hi|].
  unfold obj in *. rewrite array_child_path.
  destruct (bool_decide (con_name sc = Some (pretty i))); [exact Hobj|].
  rewrite traverse_app, Hobj. cbn [mbind outcome_bind traverse].
  rewrite (getitem_list_pretty _ _ _ Hl). reflexivity.
Qed.

Lemma array_children_read_items_witness :
  exists cs,
    EntryArray_subentries sample_b_array sample_obj [] = Returns cs /\
    length cs = 2%nat /\
    forall i x, [PyInt 1; PyInt 2] !! i = Some x ->
      exists c, cs !! i = Some (Some c) /\
        obj c sample_obj = Returns (if bool_decide (con_name Int8ub = Some (pretty i))
                                    then PyList [PyInt 1; PyInt 2] else x).
Proof.
  apply (array_children_read_items sample_b_array cs_Array None (PConst (PyInt 2))
           Int8ub sample_obj [PyInt 1; PyInt 2]); reflexivity.
Defined.

(** X7: an [EntryGreedyRange] has as many children as its live value has
    items, and one child when the length of the live value cannot be taken;
    the access never raises.  Its label shows the same number,
    ["GreedyRange[n]"], and is ["GreedyRange"] when the length cannot be
    taken. *)
Theorem greedy_range_children (self : entry) (sc : construct) (root : pyobj)
    (cache : list (option entry)) :
  con_subcon (construct_of self) = Returns sc ->
  exists cs label,
    EntryGreedyRange_subentries self root cache = Returns cs /\
    EntryGreedyRange_typ_str self root = Returns label /\
    (forall o n, obj self root = Returns o -> py_len o = Returns n ->
       Z.of_nat (length cs) = n /\ label = "GreedyRange[" +:+ pretty n +:+ "]") /\
    (raises (o ← obj self root; py_len o) ->
       length cs = 1%nat /\ label = "GreedyRange") /\
    (Z.of_nat (length cache) <> Z.of_nat (length cs) ->
       cs = array_children self sc (length cs)).
Proof.
  intros Hsc. unfold EntryGreedyRange_subentries, EntryGreedyRange_typ_str,
    EntryGreedyRange_array_len.
  assert (Hlen : forall array_len, (0 <= array_len)%Z ->
            exists cs, sync_subentries self array_len cache = Returns cs /\
                       Z.of_nat (length cs) = array_len /\
                       (Z.of_nat (length cache) <> array_len ->
                        cs = array_children self sc (length cs))).
  { intros array_len Hpos. rewrite (sync_subentries_spec self sc array_len cache Hsc).
    eexists. split; [reflexivity|].
    case_bool_decide as Hd.
    - rewrite length_array_children. split; [lia|]. intros _. reflexivity.
    - split; [lia|]. intros Hne. contradiction. }
  destruct (o ← obj self root; py_len o) as [n|x] eqn:Ho.
  - assert (Hn : (0 <= n)%Z).
    { destruct (obj self root) as [o|]; [|discriminate].
      cbn in Ho. apply (py_len_nonneg _ _ Ho). }
    destruct (Hlen n Hn) as (cs & Hcs & Hl & Hre).
    exists cs, ("GreedyRange[" +:+ pretty n +:+ "]").
    cbn [mbind outcome_bind]. split; [exact Hcs|]. split; [reflexivity|].
    split; [|split].
    + intros o m Hobj Hm. rewrite Hobj in Ho. cbn in Ho.
      assert (m = n) as -> by congruence. auto.
    + intros Hr. exfalso. apply (Returns_not_raises _ Hr).
    + rewrite Hl. exact Hre.
  - destruct (Hlen 1%Z ltac:(lia)) as (cs & Hcs & Hl & Hre).
    exists cs, "GreedyRange".
    cbn [mbind outcome_bind]. split; [exact Hcs|]. split; [reflexivity|].
    split; [|split].
    + intros o m Hobj Hm. rewrite Hobj in Ho. cbn in Ho. congruence.
    + intros _. split; [lia | reflexivity].
    + rewrite Hl. exact Hre.
Qed.

Lemma greedy_range_children_witness :
  exists cs label,
    EntryGreedyRange_subentries
      (Entry EntryGreedyRange (CSubcon cs_GreedyRange None Int8ub) false None)
      (PyList [PyInt 1; PyInt 2; PyInt 3]) [] = Returns cs /\
    EntryGreedyRange_typ_str
      (Entry EntryGreedyRange (CSubcon cs_GreedyRange None Int8ub) false None)
      (PyList [PyInt 1; PyInt 2; PyInt 3]) = Returns label /\
    length cs = 3%nat /\ label = "GreedyRange[3]".
Proof.
  destruct (greedy_range_children
              (Entry EntryGreedyRange (CSubcon cs_GreedyRange None Int8ub) false None)
              Int8ub (PyList [PyInt 1; PyInt 2; PyInt 3]) [] eq_refl)
    as (cs & label & Hcs & Hlabel & Hlen & _).
  exists cs, label. split; [exact Hcs|]. split; [exact Hlabel|].
  destruct (Hlen (PyList [PyInt 1; PyInt 2; PyInt 3]) 3%Z eq_refl eq_refl) as [H1 H2].
  split; [lia | exact H2].
Defined.

(** X8: the label of an [EntryArray] never raises.  When the length of the
    live value can be taken the label is ["Array[n]"] with [n] that length,
    which is also the number of children that [subentries] returns;
    otherwise the label shows the declared count as [str] prints it. *)
Theorem array_label_counts_children (rt : runtime) (self : entry) ty nm count sc
    (root : pyobj) (cache : list (option entry)) :
  construct_of self = CArray ty nm count sc ->
  exists label cs,
    EntryArray_typ_str rt self root = Returns label /\
    EntryArray_subentries self root cache = Returns cs /\
    (forall o n, obj self root = Returns o -> py_len o = Returns n ->
       label = "Array[" +:+ pretty n +:+ "]" /\ Z.of_nat (length cs) = n) /\
    (raises (o ← obj self root; py_len o) ->
       label = "Array[" +:+ py_str_param rt count +:+ "]").
Proof.
  intros Hc.
  destruct (EntryArray_subentries_spec self ty nm count sc root cache Hc)
    as (array_len & Hlen & Hsub).
  rewrite (EntryArray_array_len_returns self ty nm count sc root Hc) in Hlen.
  unfold EntryArray_typ_str. rewrite Hc. cbn [con_count mbind outcome_bind].
  destruct (o ← obj self root; py_len o) as [n|x] eqn:Ho.
  - injection Hlen as <-.
    eexists _, _. split; [reflexivity|]. split; [exact Hsub|]. split.
    + intros o m Hobj Hm. rewrite Hobj in Ho. cbn in Ho.
      assert (m = n) as -> by congruence. split; [reflexivity|].
      pose proof (py_len_nonneg _ _ Hm).
      case_bool_decide as Hd; [rewrite length_array_children; lia | lia].
    + intros Hr. exfalso. apply (Returns_not_raises _ Hr).
  - eexists _, _. split; [reflexivity|]. split; [exact Hsub|]. split.
    + intros o m Hobj Hm. rewrite Hobj in Ho. cbn in Ho. congruence.
    + intros _. reflexivity.
Qed.

Lemma array_label_counts_children_witness :
  exists label cs,
    EntryArray_typ_str bare_runtime sample_b_array sample_obj = Returns label /\
    EntryArray_subentries sample_b_array sample_obj [] = Returns cs /\
    label = "Array[2]" /\ length cs = 2%nat.
Proof.
  destruct (array_label_counts_children bare_runtime sample_b_array cs_Array None
              (PConst (PyInt 2)) Int8ub sample_obj [] eq_refl)
    as (label & cs & Hlabel & Hcs & Hlen & _).
  exists label, cs. split; [exact Hlabel|]. split; [exact Hcs|].
  destruct (Hlen (PyList [PyInt 1; PyInt 2]) 2%Z eq_refl eq_refl) as [H1 H2].
  split; [exact H1 | lia].
Defined.

(** ** The flat list of an entry *)

Lemma flat_list_leaves rt root n :
  forall e r,
    (entry_measure e <= n)%nat ->
    create_flat_subentry_list rt e root [] = Returns r ->
    Forall (fun c => subentries rt c root = Returns None) r.
Proof.
  induction n as [|n IH]; intros e r Hn H.
  { pose proof (entry_measure_pos e). lia. }
  rewrite create_flat_subentry_list_equation in H.
  destruct (subentries rt e root) as [[l|]|] eqn:Hsub; [| |discriminate].
  - cbn [mbind outcome_bind] in H.
    destruct (mapM _ l) as [rs|] eqn:Hm; [|discriminate].
    cbn [mbind outcome_bind] in H. injection H as <-.
    apply mapM_Returns in Hm.
    pose proof (subentries_below rt e root l Hsub) as Hbelow.
    unfold children_below in Hbelow. clear Hsub.
    induction Hm as [|oc y l rs Hy _ IHm]; [constructor|].
    apply Forall_cons in Hbelow as [Hc Hbelow].
    simpl. apply Forall_app. split; [|apply IHm; exact Hbelow].
    destruct oc as [c|]; [|discriminate].
    cbn [deref mbind outcome_bind] in Hy.
    apply (IH c y); [|exact Hy]. specialize (Hc c eq_refl). lia.
  - cbn [mbind outcome_bind] in H. injection H as <-.
    constructor; [exact Hsub | constructor].
Qed.

(** X9: [create_flat_subentry_list] only appends to the list it is given,
    and what it appends are leaves: the result is the given list followed by
    the flat list of the entry, every element of which is an entry whose
    [subentries] is [None].  So an entry that has a list of children is not
    in its own flat list, and the flat list of a leaf is the leaf alone. *)
Theorem flat_list_appends_leaves (rt : runtime) (e : entry) (root : pyobj)
    (acc l : list entry) :
  create_flat_subentry_list rt e root acc = Returns l ->
  exists r,
    l = acc ++ r /\
    create_flat_subentry_list rt e root [] = Returns r /\
    Forall (fun c => subentries rt c root = Returns None) r /\
    (forall cs, subentries rt e root = Returns (Some cs) -> e ∉ r) /\
    (subentries rt e root = Returns None -> r = [e]).
Proof.
  intros H.
  rewrite (create_flat_subentry_list_acc rt root _ e acc (Nat.le_refl _)) in H.
  destruct (create_flat_subentry_list rt e root []) as [r|] eqn:Hr; [|discriminate].
  cbn [mbind outcome_bind] in H. injection H as <-.
  pose proof (flat_list_leaves rt root _ e r (Nat.le_refl _) Hr) as Hleaves.
  exists r. split; [reflexivity|]. split; [reflexivity|]. split; [exact Hleaves|].
  split.
  - intros cs Hcs Hin.
    rewrite Forall_forall in Hleaves. specialize (Hleaves e Hin). congruence.
  - intros Hleaf. rewrite (create_flat_subentry_list_leaf rt e root [] Hleaf) in Hr.
    injection Hr as <-. reflexivity.
Qed.

Lemma flat_list_appends_leaves_witness :
  exists r,
    [sample_a] ++ [array_child sample_b_array Int8ub 0; array_child sample_b_array Int8ub 1]
      = [sample_a] ++ r /\
    create_flat_subentry_list bare_runtime sample_b sample_obj [] = Returns r /\
    Forall (fun c => subentries bare_runtime c sample_obj = Returns None) r.
Proof.
  destruct (flat_list_appends_leaves bare_runtime sample_b sample_obj [sample_a]
              ([sample_a] ++ [array_child sample_b_array Int8ub 0;
                              array_child sample_b_array Int8ub 1]))
    as (r & H1 & H2 & H3 & _).
  - vm_compute. reflexivity.
  - exists r. split; [exact H1|]. split; [exact H2 | exact H3].
Defined.

(** ** The rows of the view *)

Lemma get_children_loop_spec self l :
  forall children marks,
    get_children_loop self (map Some l) children marks =
      (Returns (children ++ List.filter (fun c => negb (hidden self c)) l),
       marks ++ map (visible_mark self) l).
Proof.
  induction l as [|c l IH]; intros children marks.
  - simpl. rewrite !app_nil_r. reflexivity.
  - simpl. unfold visible_mark at 1. destruct (hidden self c); simpl.
    + rewrite IH, <- app_assoc. reflexivity.
    + rewrite IH, <- !app_assoc. reflexivity.
Qed.

(** X10: the rows below an entry.  With a root entry set, [get_children] of
    an entry
    - whose [subentries] is a list of entries, returns those that are not
      hidden, in their order, and marks every one of them, [visible_row]
      true for the returned ones and false for the others; nothing is hidden
      when [hide_protected] is off, and otherwise exactly the entries whose
      name is empty or starts with an underscore; [is_container] is true;
    - whose [subentries] is [None], returns no row and marks nothing, and
      [is_container] is false;
    - whose [subentries] raises, raises the same. *)
Theorem get_children_rows (rt : runtime) (self : ConstructEditorModel) (r e : entry) :
  root_entry self = Some r ->
  (forall l, subentries rt e (root_obj self) = Returns (Some (map Some l)) ->
     get_children rt self (Some e) =
       (Returns (List.filter (fun c => negb (hidden self c)) l),
        map (visible_mark self) l) /\
     is_container_entry rt self e = Returns true /\
     (hide_protected self = false ->
        List.filter (fun c => negb (hidden self c)) l = l) /\
     (hide_protected self = true ->
        forall c, hidden self c = true <->
                  name c = "" \/ exists s, name c = String "_" s)) /\
  (subentries rt e (root_obj self) = Returns None ->
     get_children rt self (Some e) = (Returns [], []) /\
     is_container_entry rt self e = Returns false) /\
  (forall x, subentries rt e (root_obj self) = Raises x ->
     get_children rt self (Some e) = (Raises x, []) /\
     is_container_entry rt self e = Raises x).
Proof.
  intros Hr. unfold get_children, is_container_entry. rewrite Hr.
  split; [|split].
  - intros l Hl. rewrite Hl. rewrite get_children_loop_spec.
    split; [reflexivity|]. split; [reflexivity|]. split.
    + intros Hh. apply forallb_filter_id, forallb_forall.
      intros c _. unfold hidden. rewrite Hh. reflexivity.
    + intros Hh c. unfold hidden. rewrite Hh. cbn [andb].
      rewrite orb_true_iff, String.eqb_eq. split.
      * intros [Hu | He]; [|left; exact He].
        right. unfold startswith_underscore in Hu.
        destruct (name c) as [|a s]; [discriminate|].
        apply Ascii.eqb_eq in Hu. subst a. eauto.
      * intros [He | [s Hs]]; [right; exact He|].
        left. rewrite Hs. reflexivity.
  - intros Hl. rewrite Hl. split; reflexivity.
  - intros x Hl. rewrite Hl. split; reflexivity.
Qed.

Lemma get_children_rows_witness :
  get_children bare_runtime (sample_model sample_obj) (Some sample_root) =
    (Returns [sample_a; sample_b], [(sample_a, true); (sample_b, true)]).
Proof.
  destruct (get_children_rows bare_runtime (sample_model sample_obj) sample_root
              sample_root eq_refl) as [H _].
  destruct (H [sample_a; sample_b] eq_refl) as [H1 _].
  exact H1.
Defined.

(** ** Edits and the model *)

Lemma set_value_run rt new_value e self old p root1 :
  obj e (root_obj self) = Returns old ->
  py_last (path e) = Returns p ->
  obj_set e (match get_gui_metadata rt old with
             | Some md => add_gui_metadata rt new_value md
             | None => new_value
             end) (root_obj self) = Returns root1 ->
  set_value rt new_value e Column_Value self =
    (Returns tt,
     with_commands
       (with_value_changed (with_root_obj self root1) (value_changed self ++ [e]))
       (take (max_commands (command_processor self))
          ({| cmd_entry := e;
              cmd_new_value := match get_gui_metadata rt old with
                               | Some md => add_gui_metadata rt new_value md
                               | None => new_value
                               end;
              cmd_current_value := old;
              cmd_name := "Value '" +:+ p +:+ "' changed";
              _obj_backup := Some old |} :: commands (command_processor self)))).
Proof.
  intros Hobj Hp Hset. unfold set_value.
  rewrite bool_decide_eq_false_2 by (intros Hc; apply Hc; reflexivity).
  erewrite method_bind_returns by reflexivity.
  erewrite method_bind_returns by (unfold mlift; rewrite Hobj; reflexivity).
  cbv zeta.
  erewrite method_bind_returns
    by (unfold mlift, Cmd_init; rewrite Hp; reflexivity).
  unfold submit.
  erewrite method_bind_returns by (apply Cmd_do_returns; exact Hset).
  reflexivity.
Qed.

(** X12: [set_value] changes the model or raises, never both.  It returns
    exactly when the column is the value column, the live value of the entry
    can be read and the path of the entry is not empty; in every other case
    it raises and the model is as before: the root object, the history of
    commands and the calls of [on_value_changed] are unchanged.  When it
    returns, one call of [on_value_changed] has been added. *)
Theorem set_value_all_or_nothing (rt : runtime) (new_value : pyobj) (e : entry)
    (column : Z) (self : ConstructEditorModel) :
  exists r self',
    set_value rt new_value e column self = (r, self') /\
    (raises r -> self' = self) /\
    (r = Returns tt <->
       column = Column_Value /\ path e <> [] /\
       exists old, obj e (root_obj self) = Returns old) /\
    (r = Returns tt -> value_changed self' = value_changed self ++ [e]).
Proof.
  destruct (decide (column = Column_Value)) as [->|Hcol].
  2: { exists (Raises ValueError), self. split.
       - unfold set_value. rewrite bool_decide_eq_true_2 by assumption. reflexivity.
       - split; [reflexivity|]. split; [|discriminate].
         split; [discriminate | intros [? _]; contradiction]. }
  destruct (obj e (root_obj self)) as [old|x] eqn:Hobj.
  2: { exists (Raises x), self. split.
       - unfold set_value.
         rewrite bool_decide_eq_false_2 by (intros Hc; apply Hc; reflexivity).
         erewrite method_bind_returns by reflexivity.
         erewrite method_bind_raises by (unfold mlift; rewrite Hobj; reflexivity).
         reflexivity.
       - split; [reflexivity|]. split; [|discriminate].
         split; [discriminate | intros (_ & _ & old & ?); discriminate]. }
  destruct (decide (path e = [])) as [Hp|Hp].
  { exists (Raises IndexError), self. split.
    - unfold set_value.
      rewrite bool_decide_eq_false_2 by (intros Hc; apply Hc; reflexivity).
      erewrite method_bind_returns by reflexivity.
      erewrite method_bind_returns by (unfold mlift; rewrite Hobj; reflexivity).
      cbv zeta.
      erewrite method_bind_raises
        by (unfold mlift, Cmd_init; rewrite Hp; reflexivity).
      reflexivity.
    - split; [reflexivity|]. split; [|discriminate].
      split; [discriminate | intros (_ & ? & _); contradiction]. }
  destruct (py_last_nonempty (path e) Hp) as [p Hlast].
  destruct (assign_then_restore (root_obj self) (path e)
              (match get_gui_metadata rt old with
               | Some md => add_gui_metadata rt new_value md
               | None => new_value
               end) old Hp Hobj) as (root1 & Hset & _ & _).
  eexists _, _. split; [apply (set_value_run rt new_value e self old p root1); assumption|].
  split; [intros Hr; exfalso; apply (Returns_not_raises _ Hr)|].
  split; [|reflexivity].
  split; [|reflexivity]. intros _. split; [reflexivity|]. split; [exact Hp|]. eauto.
Qed.

Lemma set_value_returns_inv rt v e s s' :
  set_value rt v e Column_Value s = (Returns tt, s') ->
  exists old p root1,
    obj e (root_obj s) = Returns old /\
    py_last (path e) = Returns p /\
    obj_set e (match get_gui_metadata rt old with
               | Some md => add_gui_metadata rt v md
               | None => v
               end) (root_obj s) = Returns root1 /\
    obj_set e old root1 = Returns (root_obj s).
Proof.
  intros H.
  destruct (obj e (root_obj s)) as [old|x] eqn:Hobj.
  2: { unfold set_value in H.
       rewrite bool_decide_eq_false_2 in H by (intros Hc; apply Hc; reflexivity).
       erewrite method_bind_returns in H by reflexivity.
       erewrite method_bind_raises in H by (unfold mlift; rewrite Hobj; reflexivity).
       discriminate. }
  destruct (decide (path e = [])) as [Hp|Hp].
  { unfold set_value in H.
    rewrite bool_decide_eq_false_2 in H by (intros Hc; apply Hc; reflexivity).
    erewrite method_bind_returns in H by reflexivity.
    erewrite method_bind_returns in H by (unfold mlift; rewrite Hobj; reflexivity).
    cbv zeta in H.
    erewrite method_bind_raises in H
      by (unfold mlift, Cmd_init; rewrite Hp; reflexivity).
    discriminate. }
  destruct (py_last_nonempty (path e) Hp) as [p Hlast].
  destruct (assign_then_restore (root_obj s) (path e)
              (match get_gui_metadata rt old with
               | Some md => add_gui_metadata rt v md
               | None => v
               end) old Hp Hobj) as (root1 & Hset & Hback & _).
  exists old, p, root1. auto.
Qed.

(** X13: two edits are undone in reverse order.  After [set_value] on [e1]
    and then on [e2] have both returned, the [undo] of the second command
    followed by the [undo] of the first gives back the root object as it was
    before the two edits, whatever the two entries are; each [undo] returns
    and calls [on_value_changed] for its entry. *)
Theorem undo_in_reverse_order (rt : runtime) (v1 v2 : pyobj) (e1 e2 : entry)
    (self self1 self2 : ConstructEditorModel) :
  set_value rt v1 e1 Column_Value self = (Returns tt, self1) ->
  set_value rt v2 e2 Column_Value self1 = (Returns tt, self2) ->
  exists c1 c2 self3 self4,
    commands (command_processor self2) =
      take (max_commands (command_processor self))
        (c2 :: take (max_commands (command_processor self))
                 (c1 :: commands (command_processor self))) /\
    cmd_entry c1 = e1 /\ cmd_entry c2 = e2 /\
    Cmd_undo c2 self2 = (Returns tt, self3) /\
    root_obj self3 = root_obj self1 /\
    Cmd_undo c1 self3 = (Returns tt, self4) /\
    root_obj self4 = root_obj self /\
    value_changed self4 = value_changed self ++ [e1; e2; e2; e1].
Proof.
  intros H1 H2.
  pose proof (set_value_returns_inv rt) as Hinv.
  destruct (Hinv _ _ _ _ H1) as (old1 & p1 & root1 & Hobj1 & Hp1 & Hset1 & Hback1).
  rewrite (set_value_run rt v1 e1 self old1 p1 root1 Hobj1 Hp1 Hset1) in H1.
  injection H1 as <-.
  destruct (Hinv _ _ _ _ H2) as (old2 & p2 & root2 & Hobj2 & Hp2 & Hset2 & Hback2).
  rewrite (set_value_run rt v2 e2 _ old2 p2 root2 Hobj2 Hp2 Hset2) in H2.
  injection H2 as <-.
  cbn [root_obj with_commands with_value_changed with_root_obj] in Hback2.
  eexists _, _, _, _.
  split; [reflexivity|]. split; [reflexivity|]. split; [reflexivity|].
  split; [eapply Cmd_undo_returns; [reflexivity | exact Hback2]|].
  split; [reflexivity|].
  split; [eapply Cmd_undo_returns; [reflexivity | exact Hback1]|].
  split; [reflexivity|].
  cbn. rewrite <- !app_assoc. reflexivity.
Qed.

Lemma undo_in_reverse_order_witness :
  exists c1 c2 self3 self4,
    cmd_entry c1 = sample_b /\ cmd_entry c2 = array_child sample_b_array Int8ub 0 /\
    Cmd_undo c2
      (set_value bare_runtime (PyInt 9) (array_child sample_b_array Int8ub 0) Column_Value
         (set_value bare_runtime (PyList [PyInt 7; PyInt 8]) sample_b Column_Value
            (sample_model sample_obj)).2).2 = (Returns tt, self3) /\
    Cmd_undo c1 self3 = (Returns tt, self4) /\
    root_obj self4 = sample_obj.
Proof.
  destruct (undo_in_reverse_order bare_runtime (PyList [PyInt 7; PyInt 8]) (PyInt 9)
              sample_b (array_child sample_b_array Int8ub 0)
              (sample_model sample_obj)
              (set_value bare_runtime (PyList [PyInt 7; PyInt 8]) sample_b Column_Value
                 (sample_model sample_obj)).2
              (set_value bare_runtime (PyInt 9) (array_child sample_b_array Int8ub 0)
                 Column_Value
                 (set_value bare_runtime (PyList [PyInt 7; PyInt 8]) sample_b Column_Value
                    (sample_model sample_obj)).2).2)
    as (c1 & c2 & self3 & self4 & _ & Hc1 & Hc2 & Hu2 & _ & Hu1 & Hroot & _).
  - vm_compute. reflexivity.
  - vm_compute. reflexivity.
  - exists c1, c2, self3, self4. auto.
Defined.

(** ** The fields of a struct *)

Lemma mapM_fields self (fields : list (string * construct)) :
  mapM (create_entry_from_construct (Some self))
    (map (fun f : string * construct => cs_Renamed f.2 f.1) fields) =
  Returns (map (fun f : string * construct => Some (field_entry self f.1 f.2)) fields).
Proof.
  induction fields as [|[n sc] fields IH]; [reflexivity|].
  cbn [map mapM fst snd]. rewrite create_entry_cs_Renamed, EntryRenamed_init_cs_Renamed.
  cbn [mbind outcome_bind orb]. rewrite IH. reflexivity.
Qed.

Lemma field_entry_path self n sc :
  n <> "" -> con_name sc <> Some n ->
  path (field_entry self n sc) = path self ++ [n].
Proof.
  intros Hn Hsc.
  assert (Hname : name (field_entry self n sc) = n).
  { unfold name, field_entry. cbn [construct_of].
    rewrite (cs_Renamed_name sc n Hn). reflexivity. }
  assert (Hx : excluded (field_entry self n sc) = false).
  { unfold excluded, field_entry. cbn [entry_cls exclude_from_path].
    rewrite (cs_Renamed_name sc n Hn).
    rewrite (bool_decide_eq_false_2 (Some n = con_name sc)) by congruence.
    apply andb_false_r. }
  rewrite (path_not_excluded _ Hx). cbn [parent field_entry]. fold (field_entry self n sc).
  rewrite Hname. apply String.eqb_neq in Hn. rewrite Hn. reflexivity.
Qed.

(** X14: the children of a struct entry read the keys of the dict.  For an
    [EntryStruct] over [Struct(n1 / sc1, ..., nk / sck)], [subentries] gives
    one [EntryRenamed] per field, in the order of the fields, each below the
    struct entry, and it does not depend on the live value.  When the live
    value of the struct entry is a dict, the live value of the child for
    [n / sc] is the value of key [n], and reading it raises [KeyError] when
    the dict has no such key ([sc] itself not being named [n]). *)
Theorem struct_children_read_keys (rt : runtime) (self : entry) ty nm
    (fields : list (string * construct)) (root : pyobj) :
  entry_cls self = EntryStruct ->
  construct_of self =
    CStruct ty nm (map (fun f : string * construct => cs_Renamed f.2 f.1) fields) ->
  subentries rt self root =
    Returns (Some (map (fun f : string * construct => Some (field_entry self f.1 f.2))
                     fields)) /\
  (forall n sc, (n, sc) ∈ fields -> n <> "" ->
     name (field_entry self n sc) = n /\ parent (field_entry self n sc) = Some self) /\
  (forall n sc d, (n, sc) ∈ fields -> n <> "" -> con_name sc <> Some n ->
     obj self root = Returns (PyDict d) ->
     obj (field_entry self n sc) root =
       match dict_get n d with
       | Some v => Returns v
       | None => Raises KeyError
       end).
Proof.
  intros Hcls Hcon. split; [|split].
  - destruct self as [cls con x par]. simpl in Hcls, Hcon. subst cls con.
    unfold subentries. cbn [construct_of entry_cls exclude_from_path parent subentries_of].
    rewrite mapM_fields. reflexivity.
  - intros n sc _ Hn. split; [|reflexivity].
    unfold name, field_entry. cbn [construct_of].
    rewrite (cs_Renamed_name sc n Hn). reflexivity.
  - intros n sc d _ Hn Hsc Hobj. unfold obj in *.
    rewrite (field_entry_path self n sc Hn Hsc), traverse_app, Hobj.
    cbn [mbind outcome_bind traverse getitem].
    destruct (dict_get n d); reflexivity.
Qed.

Lemma struct_children_read_keys_witness :
  subentries bare_runtime sample_root sample_obj =
    Returns (Some [Some (field_entry sample_root "a" Int8ub);
                   Some (field_entry sample_root "b"
                           (CArray cs_Array None (PConst (PyInt 2)) Int8ub))]) /\
  obj (field_entry sample_root "a" Int8ub) sample_obj = Returns (PyInt 5).
Proof.
  destruct (struct_children_read_keys bare_runtime sample_root cs_Struct None
              [("a", Int8ub); ("b", CArray cs_Array None (PConst (PyInt 2)) Int8ub)]
              sample_obj eq_refl eq_refl) as (H1 & _ & H3).
  split; [exact H1|].
  apply (H3 "a" Int8ub [("a", PyInt 5); ("b", PyList [PyInt 1; PyInt 2])]).
  - apply list_elem_of_here.
  - discriminate.
  - discriminate.
  - reflexivity.
Defined.

(** ** The active branch of a conditional entry *)

Lemma branch_entry_excluded self sc label : excluded (branch_entry self sc label) = true.
Proof.
  unfold excluded, branch_entry. cbn [entry_cls exclude_from_path].
  rewrite (bool_decide_eq_true_2 _ eq_refl). reflexivity.
Qed.

Lemma branch_entry_obj self sc label root :
  obj (branch_entry self sc label) root = obj self root.
Proof.
  unfold obj. rewrite (path_excluded _ (branch_entry_excluded self sc label)).
  reflexivity.
Qed.

(** X15: the entry that a conditional entry passes its properties to reads
    in the live value of the conditional entry.  The entry that
    [EntryIfThenElse._get_subentry] returns is the entry of the branch
    grammar, below a branch wrapper that is marked exclude-from-path: its
    live value is the live value of the conditional entry, or the item of
    its own name in it when the branch grammar is named.  The entry that
    [EntrySwitch._get_subentry] returns is the wrapper of the case itself,
    marked exclude-from-path: its live value is the live value of the
    switch entry. *)
Theorem active_branch_value (rt : runtime) (self s : entry) (root : pyobj) :
  (EntryIfThenElse_get_subentry rt self root = Returns (Some s) ->
     (exists b, parent s = Some b /\ parent b = Some self /\ excluded b = true) /\
     obj s root =
       (o ← obj self root;
        if String.eqb (name s) "" || excluded s then Returns o else getitem o (name s))) /\
  (EntrySwitch_get_subentry rt self root = Returns (Some s) ->
     parent s = Some self /\ excluded s = true /\ obj s root = obj self root).
Proof.
  split.
  - unfold EntryIfThenElse_get_subentry. intros H.
    destruct (construct_of self) as [| | | | |ty nm c t e|]; try discriminate.
    destruct (evaluate_on_obj rt self root c) as [[cond|]|];
      cbn [mbind outcome_bind] in H; try discriminate.
    assert (Hb : exists sc label,
              create_entry_from_construct (Some (branch_entry self sc label)) sc
                = Returns (Some s)).
    { destruct (py_truthy (opaque_bool rt) cond) as [[|]|];
        cbn [mbind outcome_bind] in H; try discriminate;
        unfold then_entry, else_entry in H;
        rewrite subentry_branch_entry in H; eauto. }
    destruct Hb as (sc & label & Hs).
    destruct (create_entry_fields _ _ _ Hs) as [_ Hp].
    split.
    + exists (branch_entry self sc label).
      split; [exact Hp|]. split; [reflexivity | apply branch_entry_excluded].
    + rewrite (obj_of_child s _ root Hp), branch_entry_obj. reflexivity.
  - unfold EntrySwitch_get_subentry. intros H.
    destruct (construct_of self) as [| | | | | |ty nm k cs d]; try discriminate.
    destruct (evaluate_on_obj rt self root k) as [[key|]|];
      cbn [mbind outcome_bind] in H; try discriminate.
    destruct (negb (py_hashable rt key)); [discriminate|].
    assert (Hb : exists sc label, s = branch_entry self sc label).
    { destruct (find_case rt key cs) as [[k' v]|].
      - injection H as <-. unfold case_entry. eauto.
      - destruct d as [dc|]; [|discriminate].
        injection H as <-. unfold default_entry. eauto. }
    destruct Hb as (sc & label & ->).
    split; [reflexivity|]. split; [apply branch_entry_excluded | apply branch_entry_obj].
Qed.

(** ** The children of an entry are below it *)

Lemma chain_self e : e ∈ chain e.
Proof. rewrite chain_unfold. apply elem_of_app. right. apply list_elem_of_here. Qed.

Lemma chain_parent a c p : parent c = Some p -> a ∈ chain p -> a ∈ chain c.
Proof.
  intros Hp Ha. rewrite chain_unfold, Hp. apply elem_of_app. left. exact Ha.
Qed.

Lemma chain_prefix a c : a ∈ chain c -> exists rest, chain c = chain a ++ rest.
Proof.
  induction c as [c Hc | c p Hc IH] using entry_chain_ind; intros Ha.
  - rewrite chain_unfold, Hc in Ha. simpl in Ha.
    apply list_elem_of_singleton in Ha. subst a. exists []. rewrite app_nil_r. reflexivity.
  - rewrite chain_unfold, Hc in Ha. apply elem_of_app in Ha as [Ha | Ha].
    + destruct (IH Ha) as [rest Hrest].
      exists (rest ++ [c]). rewrite (chain_unfold c), Hc, Hrest, app_assoc. reflexivity.
    + apply list_elem_of_singleton in Ha. subst a. exists []. rewrite app_nil_r. reflexivity.
Qed.

Lemma chain_trans a b c : a ∈ chain b -> b ∈ chain c -> a ∈ chain c.
Proof.
  intros Ha Hb. destruct (chain_prefix b c Hb) as [rest ->].
  apply elem_of_app. left. exact Ha.
Qed.

Lemma children_under_trans a b l :
  a ∈ chain b -> children_under b l -> children_under a l.
Proof.
  intros Ha H. eapply Forall_impl; [exact H|].
  intros oc Hoc c Hc. eapply chain_trans; [exact Ha | apply Hoc; exact Hc].
Qed.

Lemma child_under par sc child :
  create_entry_from_construct (Some par) sc = Returns (Some child) -> par ∈ chain child.
Proof.
  intros H. destruct (create_entry_fields _ _ _ H) as [_ Hp].
  apply (chain_parent _ _ _ Hp), chain_self.
Qed.

Lemma array_children_under self sc n : children_under self (array_children self sc n).
Proof.
  unfold children_under, array_children.
  apply Forall_forall. intros oc Hin c ->.
  apply list_elem_of_fmap in Hin as (i & Heq & _). injection Heq as ->.
  apply (chain_parent _ (array_child self sc i) self eq_refl), chain_self.
Qed.

Lemma delegate_under rt root anc holder sc dflt l :
  (forall cls x par l',
     subentries_of rt sc cls x par root = Returns (Some l') ->
     children_under (Entry cls sc x par) l') ->
  anc ∈ chain holder ->
  (dflt = Returns (Some l) -> children_under anc l) ->
  with_subentry holder sc dflt (fun c x p => subentries_of rt sc c x p root)
    = Returns (Some l) ->
  children_under anc l.
Proof.
  intros IH Ha Hd H. unfold with_subentry in H.
  destruct (create_entry_from_construct (Some holder) sc) as [[child|]|] eqn:Hc;
    simpl in H.
  - pose proof (child_under _ _ _ Hc) as Hh.
    destruct (create_entry_fields _ _ _ Hc) as [Hcon _].
    apply IH in H.
    assert (Heq : Entry (entry_cls child) sc (exclude_from_path child) (parent child)
                  = child) by (destruct child; simpl in *; congruence).
    rewrite Heq in H.
    apply (children_under_trans anc child); [|exact H].
    apply (chain_trans _ holder); assumption.
  - auto.
  - discriminate.
Qed.

Lemma sync_subentries_under self array_len l :
  sync_subentries self array_len [] = Returns l -> children_under self l.
Proof.
  intros H.
  destruct (con_subcon (construct_of self)) as [sc|] eqn:Hsc.
  - rewrite (sync_subentries_spec _ _ _ _ Hsc) in H. injection H as <-.
    destruct (bool_decide _); [apply array_children_under | constructor].
  - unfold sync_subentries in H.
    destruct (bool_decide _) eqn:E; [|injection H as <-; constructor].
    destruct (Z.to_nat array_len) as [|n] eqn:En.
    + simpl in H. injection H as <-. constructor.
    + simpl in H. unfold insert_entry in H. rewrite Hsc in H. discriminate.
Qed.

Lemma struct_children_under par ss l :
  Forall2 (fun sc oc => create_entry_from_construct (Some par) sc = Returns oc) ss l ->
  children_under par l.
Proof.
  intros H. induction H as [|sc oc ss l Hc _ IH]; constructor; [|exact IH].
  intros c ->. apply (child_under _ _ _ Hc).
Qed.

Lemma branch_entries_under (self : entry) (l : list (option entry)) :
  Forall (fun oc : option entry =>
            exists sc label, oc = Some (branch_entry self sc label)) l ->
  children_under self l.
Proof.
  intros H. eapply Forall_impl; [exact H|].
  intros oc (sc & label & ->) c [= <-].
  apply (chain_parent _ (branch_entry self sc label) self eq_refl), chain_self.
Qed.

Lemma subentries_of_under rt root n :
  forall con cls x par l,
    (csize con <= n)%nat ->
    subentries_of rt con cls x par root = Returns (Some l) ->
    children_under (Entry cls con x par) l.
Proof.
  induction n as [|n IH]; intros con cls x par l Hn H.
  { pose proof (csize_pos con). lia. }
  assert (IHsc : forall sc, (csize sc < csize con)%nat ->
            forall cls x par l',
              subentries_of rt sc cls x par root = Returns (Some l') ->
              children_under (Entry cls sc x par) l').
  { intros sc Hsc cls' x' par' l'. apply IH. lia. }
  clear IH.
  destruct con as [t nm|t nm s|t nm c s|t nm ss|t nm r s|t nm c a b|t nm k cs d];
    destruct cls; cbn [subentries_of] in H; try discriminate.
  all: try (refine (delegate_under rt root _ _ s _ _ _ _ _ H);
            [apply IHsc; simpl; lia | apply chain_self | discriminate]).
  all: unfold EntryArray_subentries, EntryGreedyRange_subentries in H.
  all: try (destruct (EntryArray_array_len _ root) as [len|]; [|discriminate]).
  all: try (destruct (EntryGreedyRange_array_len _ root) as [len|]; [|discriminate]).
  all: cbn [mbind outcome_bind] in H.
  all: try (destruct (sync_subentries _ len []) as [l'|] eqn:E; [|discriminate];
            cbn [mbind outcome_bind] in H; injection H as <-;
            exact (sync_subentries_under _ _ _ E)).
  1-4: (destruct (with_subentry _ s _ _) as [[l'|]|] eqn:E;
            cbn [mbind outcome_bind] in H; discriminate).
  2-3: (destruct (with_subentry _ s _ _) as [[l'|]|] eqn:E;
            cbn [mbind outcome_bind] in H; try discriminate;
            match type of E with
            | with_subentry ?self _ _ _ = _ =>
                assert (Hl' : children_under self l')
                  by (refine (delegate_under rt root _ _ s _ _ _ _ _ E);
                      [apply IHsc; simpl; lia | apply chain_self | discriminate])
            end;
            destruct r; injection H as <-;
            [apply List.Forall_rev|]; exact Hl').
  - (* EntryStruct *)
    destruct (mapM _ ss) as [l'|] eqn:E; [|discriminate].
    cbn [mbind outcome_bind] in H. injection H as <-.
    apply mapM_Returns in E. exact (struct_children_under _ _ _ E).
  - (* EntryIfThenElse *)
    set (self := Entry EntryIfThenElse (CIfThenElse t nm c a b) x par) in *.
    assert (Hstatic :
      children_under self [Some (then_entry rt self c a); Some (else_entry self b)]).
    { apply branch_entries_under. repeat constructor; eexists _, _; reflexivity. }
    assert (Hbr : forall sc label, self ∈ chain (branch_entry self sc label)).
    { intros sc label.
      apply (chain_parent _ (branch_entry self sc label) self eq_refl), chain_self. }
    destruct (evaluate_on_obj rt _ root c) as [[cond|]|];
      cbn [mbind outcome_bind] in H; [|injection H as <-; exact Hstatic|discriminate].
    destruct (py_truthy (opaque_bool rt) cond) as [[|]|];
      cbn [mbind outcome_bind] in H; [| |discriminate].
    + refine (delegate_under rt root _ _ a _ _ _ _ _ H);
        [apply IHsc; simpl; lia | apply Hbr | intros [= <-]; exact Hstatic].
    + refine (delegate_under rt root _ _ b _ _ _ _ _ H);
        [apply IHsc; simpl; lia | apply Hbr | intros [= <-]; exact Hstatic].
  - (* EntrySwitch *)
    set (con := CSwitch t nm k cs d) in *.
    set (self := Entry EntrySwitch con x par) in *.
    assert (Hcs : forall k' v, (k', v) ∈ cs -> (csize v < csize con)%nat).
    { intros k' v Hin. subst con. simpl.
      assert (csize v <= list_sum (map (fun kc : pyobj * construct => csize kc.2) cs))%nat.
      { apply list_sum_elem_le, list_elem_of_fmap. exists (k', v). split; [reflexivity|exact Hin]. }
      lia. }
    assert (Hd : forall dc, d = Some dc -> (csize dc < csize con)%nat).
    { intros dc ->. subst con. simpl. lia. }
    assert (Hbr : forall sc label, self ∈ chain (branch_entry self sc label)).
    { intros sc label.
      apply (chain_parent _ (branch_entry self sc label) self eq_refl), chain_self. }
    assert (Hstatic : forall l0, EntrySwitch_static rt self = Returns l0 ->
                                 children_under self l0).
    { intros l0 [= <-]. apply branch_entries_under, Forall_app. split.
      - apply Forall_forall. intros oc Hin.
        apply list_elem_of_fmap in Hin as ([k' v] & -> & Hin).
        eexists _, _. reflexivity.
      - destruct d as [dc|]; [|constructor].
        repeat constructor. eexists _, _. reflexivity. }
    destruct (evaluate_on_obj rt self root k) as [[key|]|];
      cbn [mbind outcome_bind] in H; [| |discriminate].
    2: { destruct (EntrySwitch_static rt self) as [l0|]; [|discriminate].
         cbn [mbind outcome_bind] in H. injection H as <-. apply Hstatic. reflexivity. }
    destruct (negb (py_hashable rt key)); [discriminate|].
    revert Hstatic H. generalize (EntrySwitch_static rt self). intros static Hstatic H.
    clearbody con.
    induction cs as [|[k' v] cs IHcs].
    + destruct d as [dc|].
      * refine (delegate_under rt root _ _ dc _ _ _ _ _ H);
          [apply IHsc; apply Hd; reflexivity | apply Hbr | discriminate].
      * destruct static as [l0|]; [|discriminate].
        cbn [mbind outcome_bind] in H. injection H as <-. apply Hstatic. reflexivity.
    + destruct (py_key_eq rt key k').
      * refine (delegate_under rt root _ _ v _ _ _ _ _ H);
          [apply IHsc; apply (Hcs k'); apply list_elem_of_here | apply Hbr | discriminate].
      * apply IHcs; [|exact H].
        intros k'' v' Hin. apply (Hcs k''). apply list_elem_of_further. exact Hin.
Qed.

(** X16: the children of an entry are below it in the tree.  Every entry of
    the list that [subentries] returns has the entry on its chain of parents
    and is another entry, also where the list is the one of a wrapped entry
    or of the active branch.  So the path of a child starts with the path of
    the entry, and the live value of the child is read in the live value of
    the entry. *)
Theorem subentries_are_below (rt : runtime) (e c : entry) (root : pyobj)
    (l : list (option entry)) :
  subentries rt e root = Returns (Some l) ->
  Some c ∈ l ->
  e ∈ chain c /\ c <> e /\
  exists rest,
    path c = path e ++ rest /\
    obj c root = (o ← obj e root; traverse o rest).
Proof.
  intros Hsub Hin.
  assert (Hchain : e ∈ chain c).
  { unfold subentries in Hsub.
    pose proof (subentries_of_under rt root _ _ _ _ _ _ (Nat.le_refl _) Hsub) as Hu.
    unfold children_under in Hu. rewrite Forall_forall in Hu.
    specialize (Hu _ Hin c eq_refl). destruct e; exact Hu. }
  split; [exact Hchain|]. split.
  - pose proof (subentries_below rt e root l Hsub) as Hb.
    unfold children_below in Hb. rewrite Forall_forall in Hb.
    specialize (Hb _ Hin c eq_refl). intros ->. lia.
  - destruct (chain_prefix e c Hchain) as [rest Hrest].
    exists (map name (List.filter adds_segment rest)).
    assert (Hp : path c = path e ++ map name (List.filter adds_segment rest)).
    { rewrite (path_chain_eq c), (path_chain_eq e), Hrest, List.filter_app, map_app.
      reflexivity. }
    split; [exact Hp|]. unfold obj. rewrite Hp. apply traverse_app.
Qed.

Lemma subentries_are_below_witness :
  sample_b ∈ chain (array_child sample_b_array Int8ub 1) /\
  array_child sample_b_array Int8ub 1 <> sample_b /\
  exists rest,
    path (array_child sample_b_array Int8ub 1) = path sample_b ++ rest /\
    obj (array_child sample_b_array Int8ub 1) sample_obj =
      (o ← obj sample_b sample_obj; traverse o rest).
Proof.
  apply (subentries_are_below bare_runtime sample_b (array_child sample_b_array Int8ub 1)
           sample_obj (array_children sample_b_array Int8ub 2)).
  - vm_compute. reflexivity.
  - apply list_elem_of_further, list_elem_of_here.
Defined.

(** ** The labels of [EntryFormatField] *)

Lemma type_mapping_get_elem (m : list (string * type_info)) k v :
  NoDup m.*1 -> (type_mapping_get k m = Some v <-> (k, v) ∈ m).
Proof.
  induction m as [|[k0 v0] m IH]; intros Hnd; simpl.
  - split; [discriminate | intros H; inversion H].
  - apply NoDup_cons in Hnd as [Hk0 Hnd]. simpl in Hk0.
    rewrite elem_of_cons. destruct (String.eqb k k0) eqn:E.
    + apply String.eqb_eq in E. subst k0. split.
      * intros [= ->]. left. reflexivity.
      * intros [[= ->] | Hin]; [reflexivity|].
        exfalso. apply Hk0. apply list_elem_of_fmap. exists (k, v). split; [reflexivity|exact Hin].
    + apply String.eqb_neq in E. rewrite (IH Hnd). split.
      * intros Hin. right. exact Hin.
      * intros [[= -> ->] | Hin]; [congruence | exact Hin].
Qed.

Lemma type_mapping_NoDup : NoDup type_mapping.*1.
Proof. refine (bool_decide_unpack _ _). vm_compute. exact I. Qed.

Lemma type_mapping_scheme kv : kv ∈ type_mapping <-> kv ∈ scheme_table.
Proof.
  split; intros Hin.
  - assert (H : Forall (fun kv => kv ∈ scheme_table) type_mapping)
      by (refine (bool_decide_unpack _ _); vm_compute; exact I).
    rewrite Forall_forall in H. apply H. exact Hin.
  - assert (H : Forall (fun kv => kv ∈ type_mapping) scheme_table)
      by (refine (bool_decide_unpack _ _); vm_compute; exact I).
    rewrite Forall_forall in H. apply H. exact Hin.
Qed.

Lemma type_mapping_names_inj :
  Forall (fun kv : string * type_info =>
            Forall (fun kv' : string * type_info =>
                      type_info_name kv.2 = type_info_name kv'.2 -> kv.1 = kv'.1)
              type_mapping) type_mapping.
Proof. refine (bool_decide_unpack _ _). vm_compute. exact I. Qed.

(** X17: the labels of the format fields.  The keys of [type_mapping] are
    distinct, and the table is the naming scheme written out: a format
    string is in it exactly when it is a byte order ([>], [<], [=]) followed
    by one of the codes [B H L Q b h l q e f d], and the tuple stored for it
    is the name ["Int"] or ["Float"], the width in bits, [s] or [u] for an
    integer, and [b], [l] or [n] for the byte order, with the same width and
    signedness in the tuple.  Two format strings of the table never have the
    same label.  For a format string of the table [typ_str] is that name and
    [create_obj_panel] picks the integer panel exactly for the integers; for
    any other format string [typ_str] is ["FormatField[...]"] and
    [create_obj_panel] raises [TypeError], from [self.type_infos[1]] on
    [None]. *)
Theorem format_field_labels (py_repr : string -> string) (fmtstr : string) :
  NoDup type_mapping.*1 /\
  (forall ti, EntryFormatField_type_infos fmtstr = Some ti <->
              (fmtstr, ti) ∈ scheme_table) /\
  (forall fmtstr' ti ti',
     EntryFormatField_type_infos fmtstr = Some ti ->
     EntryFormatField_type_infos fmtstr' = Some ti' ->
     type_info_name ti = type_info_name ti' -> fmtstr = fmtstr') /\
  (forall ti, EntryFormatField_type_infos fmtstr = Some ti ->
     EntryFormatField_typ_str py_repr fmtstr = type_info_name ti /\
     EntryFormatField_create_obj_panel fmtstr =
       Returns (match ti with
                | TypeInt _ _ _ => ObjPanel_Integer
                | TypeFloat _ => ObjPanel_Default
                end)) /\
  (EntryFormatField_type_infos fmtstr = None ->
     EntryFormatField_typ_str py_repr fmtstr = "FormatField[" +:+ py_repr fmtstr +:+ "]" /\
     EntryFormatField_create_obj_panel fmtstr = Raises TypeError).
Proof.
  split; [exact type_mapping_NoDup|]. split; [|split; [|split]].
  - intros ti. unfold EntryFormatField_type_infos.
    rewrite (type_mapping_get_elem _ _ _ type_mapping_NoDup).
    apply type_mapping_scheme.
  - intros fmtstr' ti ti' H H' Hname. unfold EntryFormatField_type_infos in *.
    apply (type_mapping_get_elem _ _ _ type_mapping_NoDup) in H, H'.
    pose proof type_mapping_names_inj as Hinj.
    rewrite Forall_forall in Hinj. specialize (Hinj _ H).
    rewrite Forall_forall in Hinj. exact (Hinj _ H' Hname).
  - intros ti H. unfold EntryFormatField_typ_str, EntryFormatField_create_obj_panel.
    rewrite H. split; [reflexivity|]. destruct ti; reflexivity.
  - intros H. unfold EntryFormatField_typ_str, EntryFormatField_create_obj_panel.
    rewrite H. split; reflexivity.
Qed.

(** ** Edits before an object is loaded *)

(** X18: an edit on a root object that is no container is recorded but
    assigns nothing.  When the root object is neither a dict nor a list (it
    is [None] until an object is loaded), [set_value] on the value column of
    an entry with a path returns, stores a command and calls
    [on_value_changed], and the root object is as before: the getter of
    every entry still returns the root object itself. *)
Theorem set_value_on_plain_root (rt : runtime) (new_value : pyobj) (e : entry)
    (self : ConstructEditorModel) :
  is_container (root_obj self) = false ->
  path e <> [] ->
  exists cmd self',
    set_value rt new_value e Column_Value self = (Returns tt, self') /\
    root_obj self' = root_obj self /\
    commands (command_processor self') =
      take (max_commands (command_processor self))
        (cmd :: commands (command_processor self)) /\
    cmd_entry cmd = e /\
    value_changed self' = value_changed self ++ [e] /\
    forall e', obj e' (root_obj self') = Returns (root_obj self).
Proof.
  intros Hc Hp.
  assert (Hobj : obj e (root_obj self) = Returns (root_obj self))
    by (apply traverse_leaf; exact Hc).
  destruct (py_last_nonempty (path e) Hp) as [p Hlast].
  eexists _, _. split.
  - apply (set_value_run rt new_value e self (root_obj self) p (root_obj self) Hobj Hlast).
    apply assign_leaf. exact Hc.
  - split; [reflexivity|]. split; [reflexivity|]. split; [reflexivity|].
    split; [reflexivity|]. intros e'. apply traverse_leaf. exact Hc.
Qed.

Lemma set_value_on_plain_root_witness :
  exists cmd self',
    set_value bare_runtime (PyInt 7) sample_a Column_Value ConstructEditorModel_init
      = (Returns tt, self') /\
    root_obj self' = PyNone /\
    commands (command_processor self') = [cmd] /\
    value_changed self' = [sample_a].
Proof.
  destruct (set_value_on_plain_root bare_runtime (PyInt 7) sample_a
              ConstructEditorModel_init eq_refl ltac:(discriminate))
    as (cmd & self' & H1 & H2 & H3 & _ & H5 & _).
  exists cmd, self'. split; [exact H1|]. split; [exact H2|].
  split; [exact H3 | exact H5].
Defined.

(** ** Columns before the first *)

(** X19: a negative column of the list view counts from the end of the flat
    list.  For an entry whose parent has the list view enabled, [get_value]
    with a column below zero passes the test [len(flat) > column] and
    subscripts the flat list with [column - 3]: it raises [IndexError] when
    the flat list has fewer than [3 - column] leaves, and otherwise gives
    the value label of the leaf that many places before the end. *)
Theorem get_value_negative_column (rt : runtime)
    (typ_str obj_str : entry -> pyobj -> outcome string)
    (self : ConstructEditorModel) (e p : entry) (column : Z) (flat : list entry) :
  (column < 0)%Z ->
  parent e = Some p ->
  p ∈ list_viewed_entries self ->
  create_flat_subentry_list rt e (root_obj self) [] = Returns flat ->
  ((Z.of_nat (length flat) < 3 - column)%Z ->
     get_value rt typ_str obj_str self e column = Raises IndexError) /\
  (forall leaf,
     flat !! Z.to_nat (Z.of_nat (length flat) + column - 3) = Some leaf ->
     (3 - column <= Z.of_nat (length flat))%Z ->
     get_value rt typ_str obj_str self e column =
       (s ← obj_str leaf (root_obj self); Returns (CellStr s))).
Proof.
  intros Hcol Hp Hin Hflat.
  assert (Hget : get_value rt typ_str obj_str self e column =
                 (leaf ← py_list_get flat (column - len_ConstructEditorColumn);
                  s ← obj_str leaf (root_obj self); Returns (CellStr s))).
  { unfold get_value, Column_Name, Column_Type, Column_Value.
    rewrite !bool_decide_eq_false_2 by lia. rewrite Hp.
    rewrite (bool_decide_eq_true_2 _ Hin). cbn [negb].
    rewrite Hflat. cbn [mbind outcome_bind].
    rewrite bool_decide_eq_true_2 by (unfold len_ConstructEditorColumn; lia).
    reflexivity. }
  rewrite Hget. unfold py_list_get, py_index, len_ConstructEditorColumn. split.
  - intros Hshort.
    assert ((0 <=? column - 3)%Z = false) as -> by lia.
    assert ((- Z.of_nat (length flat) <=? column - 3)%Z = false) as -> by lia.
    reflexivity.
  - intros leaf Hleaf Hlong.
    assert ((0 <=? column - 3)%Z = false) as -> by lia.
    assert ((- Z.of_nat (length flat) <=? column - 3)%Z = true) as -> by lia.
    assert ((column - 3 <? 0)%Z = true) as -> by lia.
    cbn [andb]. replace (Z.of_nat (length flat) + (column - 3))%Z
      with (Z.of_nat (length flat) + column - 3)%Z by lia.
    rewrite Hleaf. reflexivity.
Qed.

Lemma get_value_negative_column_witness :
  get_value bare_runtime plain_str plain_str
    (with_list_viewed_entries (sample_model sample_obj) [sample_root]) sample_b (-1)
    = Raises IndexError.
Proof.
  destruct (get_value_negative_column bare_runtime plain_str plain_str
              (with_list_viewed_entries (sample_model sample_obj) [sample_root])
              sample_b sample_root (-1)
              [array_child sample_b_array Int8ub 0; array_child sample_b_array Int8ub 1])
    as [H _].
  - lia.
  - reflexivity.
  - apply list_elem_of_here.
  - vm_compute. reflexivity.
  - apply H. simpl. lia.
Defined.

(** ** The cells of the list view *)

Lemma flat_list_of_leaves rt e root (cs : list entry) :
  subentries rt e root = Returns (Some (map Some cs)) ->
  Forall (fun c => subentries rt c root = Returns None) cs ->
  create_flat_subentry_list rt e root [] = Returns cs.
Proof.
  intros Hsub Hleaves.
  rewrite (create_flat_subentry_list_concat rt e root (map Some cs)
             (map (fun c => [c]) cs) Hsub).
  - f_equal. clear. induction cs as [|c cs IH]; [reflexivity|]. simpl. f_equal. exact IH.
  - clear Hsub. induction Hleaves as [|c cs Hc _ IH]; simpl; constructor; [|exact IH].
    exists c. split; [reflexivity|].
    apply (create_flat_subentry_list_leaf rt c root [] Hc).
Qed.

(** X20: the list view of an array of structs shows field [j] of item [i]
    in row [i], column [3 + j].  Let an array entry have the list view
    enabled, its element grammar be an unnamed [Struct] of named fields
    whose entries are leaves, and its live value be a list whose item [i] is
    a dict.  Then for the child [i] of the array entry, [get_value] in
    column [3 + j] is the value label of the entry of field [j], and the live
    value of that entry is the value of the field's key in item [i]. *)
Theorem list_view_cell (rt : runtime) (typ_str obj_str : entry -> pyobj -> outcome string)
    (model : ConstructEditorModel) (arr : entry)
    (fields : list (string * construct)) (i j : nat) (n : string) (fsc : construct)
    (items : list pyobj) (d : list (string * pyobj)) (v : pyobj) :
  let sc := CStruct cs_Struct None
              (map (fun f : string * construct => cs_Renamed f.2 f.1) fields) in
  let row := array_child arr sc i in
  let inner := Entry EntryStruct sc false (Some row) in
  arr ∈ list_viewed_entries model ->
  Forall (fun f : string * construct =>
            subentries rt (field_entry inner f.1 f.2) (root_obj model) = Returns None)
    fields ->
  fields !! j = Some (n, fsc) ->
  n <> "" -> con_name fsc <> Some n ->
  obj arr (root_obj model) = Returns (PyList items) ->
  items !! i = Some (PyDict d) ->
  dict_get n d = Some v ->
  get_value rt typ_str obj_str model row (3 + Z.of_nat j) =
    (s ← obj_str (field_entry inner n fsc) (root_obj model); Returns (CellStr s)) /\
  obj (field_entry inner n fsc) (root_obj model) = Returns v.
Proof.
  intros sc row inner Hin Hleaves Hj Hn Hfsc Hobj Hi Hd.
  assert (Hrow : subentries rt row (root_obj model) =
                 Returns (Some (map Some (map (fun f : string * construct =>
                                                 field_entry inner f.1 f.2) fields)))).
  { transitivity (subentries rt inner (root_obj model)).
    - unfold subentries, row, array_child.
      cbn [construct_of entry_cls exclude_from_path parent].
      unfold cs_Renamed at 1. cbn [subentries_of].
      rewrite with_subentry_subentries. reflexivity.
    - unfold subentries, inner. cbn [construct_of entry_cls exclude_from_path parent].
      unfold sc at 1. cbn [subentries_of]. fold sc. fold inner.
      rewrite mapM_fields. cbn [mbind outcome_bind]. rewrite map_map. reflexivity. }
  assert (Hflat : create_flat_subentry_list rt row (root_obj model) [] =
                  Returns (map (fun f : string * construct =>
                                  field_entry inner f.1 f.2) fields)).
  { apply (flat_list_of_leaves rt row _ _ Hrow).
    apply Forall_fmap. exact Hleaves. }
  split.
  - unfold get_value, Column_Name, Column_Type, Column_Value.
    rewrite !bool_decide_eq_false_2 by lia.
    assert (Hp : parent row = Some arr) by reflexivity.
    rewrite Hp, (bool_decide_eq_true_2 _ Hin).
    cbn [negb]. rewrite Hflat. cbn [mbind outcome_bind].
    pose proof (lookup_lt_Some _ _ _ Hj) as Hlt.
    rewrite length_map.
    rewrite bool_decide_eq_true_2 by (unfold len_ConstructEditorColumn; lia).
    unfold py_list_get, len_ConstructEditorColumn.
    replace (3 + Z.of_nat j - 3)%Z with (Z.of_nat j) by lia.
    rewrite length_map, py_index_nonneg by lia. rewrite Nat2Z.id.
    rewrite list_lookup_fmap, Hj. reflexivity.
  - unfold obj in *.
    rewrite (field_entry_path inner n fsc Hn Hfsc).
    assert (Hinner : path inner = path row).
    { rewrite (path_not_excluded inner eq_refl). reflexivity. }
    assert (Hprow : path row = path arr ++ [pretty i]).
    { unfold row. rewrite array_child_path.
      rewrite bool_decide_eq_false_2 by discriminate. reflexivity. }
    rewrite Hinner, Hprow, !traverse_app, Hobj.
    cbn [mbind outcome_bind traverse].
    rewrite (getitem_list_pretty _ _ _ Hi).
    cbn [mbind outcome_bind getitem]. rewrite Hd. reflexivity.
Qed.

Lemma list_view_cell_witness :
  let sc := CStruct cs_Struct None [cs_Renamed Int8ub "x"] in
  let row := array_child sample_rows sc 0 in
  let inner := Entry EntryStruct sc false (Some row) in
  get_value bare_runtime plain_str
    (fun e root => o ← obj e root;
                   Returns (match o with PyInt z => pretty z | _ => "?" end))
    sample_rows_model row 3 = Returns (CellStr "4") /\
  obj (field_entry inner "x" Int8ub) (root_obj sample_rows_model) = Returns (PyInt 4).
Proof.
  intros sc row inner.
  destruct (list_view_cell bare_runtime plain_str
              (fun e root => o ← obj e root;
                             Returns (match o with PyInt z => pretty z | _ => "?" end))
              sample_rows_model sample_rows [("x", Int8ub)] 0 0 "x" Int8ub
              [PyDict [("x", PyInt 4)]] [("x", PyInt 4)] (PyInt 4)) as [H1 H2].
  - apply list_elem_of_here.
  - constructor; [reflexivity | constructor].
  - reflexivity.
  - discriminate.
  - discriminate.
  - reflexivity.
  - reflexivity.
  - reflexivity.
  - split; [|exact H2]. refine (eq_trans H1 _). reflexivity.
Defined.

(** ** Redoing an edit *)

(** X21: an edit that was undone can be done again.  After [set_value] has
    returned, the [undo] of its command followed by its [do] gives the root
    object that the edit gave, and leaves the command as it was; a second
    [undo] in a row changes nothing in the root object.  Every one of these
    calls returns and calls [on_value_changed] for the entry. *)
Theorem redo_after_undo (rt : runtime) (new_value : pyobj) (e : entry)
    (self self1 : ConstructEditorModel) :
  set_value rt new_value e Column_Value self = (Returns tt, self1) ->
  exists c self2 self3 self4,
    commands (command_processor self1) =
      take (max_commands (command_processor self))
        (c :: commands (command_processor self)) /\
    cmd_entry c = e /\
    Cmd_undo c self1 = (Returns tt, self2) /\
    root_obj self2 = root_obj self /\
    Cmd_do c self2 = (Returns c, self3) /\
    root_obj self3 = root_obj self1 /\
    value_changed self3 = value_changed self ++ [e; e; e] /\
    Cmd_undo c self2 = (Returns tt, self4) /\
    root_obj self4 = root_obj self.
Proof.
  intros H.
  destruct (set_value_returns_inv rt _ _ _ _ H)
    as (old & p & root1 & Hobj & Hp & Hset & Hback).
  rewrite (set_value_run rt new_value e self old p root1 Hobj Hp Hset) in H.
  injection H as <-.
  eexists _, _, _, _.
  split; [reflexivity|]. split; [reflexivity|].
  split; [eapply Cmd_undo_returns; [reflexivity | exact Hback]|].
  split; [reflexivity|].
  split; [erewrite Cmd_do_returns by exact Hset; reflexivity|].
  split; [reflexivity|].
  split; [cbn; rewrite <- !app_assoc; reflexivity|].
  assert (Hne : path e <> []) by (intros Hnil; rewrite Hnil in Hp; discriminate).
  split.
  - eapply Cmd_undo_returns; [reflexivity|].
    cbn [cmd_entry root_obj with_value_changed with_root_obj with_commands].
    apply (assign_read_value (path e) (root_obj self) old Hne Hobj).
  - reflexivity.
Qed.

Lemma redo_after_undo_witness :
  exists c self2 self3,
    Cmd_undo c
      (set_value bare_runtime (PyInt 7) sample_a Column_Value (sample_model sample_obj)).2
      = (Returns tt, self2) /\
    root_obj self2 = sample_obj /\
    Cmd_do c self2 = (Returns c, self3) /\
    root_obj self3 = PyDict [("a", PyInt 7); ("b", PyList [PyInt 1; PyInt 2])].
Proof.
  destruct (redo_after_undo bare_runtime (PyInt 7) sample_a (sample_model sample_obj)
              (set_value bare_runtime (PyInt 7) sample_a Column_Value
                 (sample_model sample_obj)).2)
    as (c & self2 & self3 & _ & _ & _ & Hu & Hr2 & Hd & Hr3 & _).
  - vm_compute. reflexivity.
  - exists c, self2, self3. split; [exact Hu|]. split; [exact Hr2|].
    split; [exact Hd | exact Hr3].
Defined.

(** ** The factory on a node that is no construct *)

Lemma pytype_bases_ind (P : pytype -> Prop) :
  (forall n bases, Forall P bases -> P (PyClass n bases)) -> forall t, P t.
Proof.
  intros H. fix IH 1. intros [n bases]. apply H.
  revert bases. fix aux 1. intros [|b bases]; constructor; [apply IH | apply aux].
Qed.

Lemma issubclass_refl t : issubclass t t = true.
Proof. destruct t. simpl. rewrite bool_decide_eq_true_2 by reflexivity. reflexivity. Qed.

Lemma issubclass_trans a b c :
  issubclass a b = true -> issubclass b c = true -> issubclass a c = true.
Proof.
  induction a as [n bases IH] using pytype_bases_ind. intros Hab Hbc.
  simpl in Hab. apply orb_true_iff in Hab as [Heq | Hex].
  - apply bool_decide_eq_true in Heq. subst b. exact Hbc.
  - simpl. apply orb_true_iff. right.
    apply existsb_exists in Hex as (x & Hin & Hx).
    apply existsb_exists. exists x. split; [exact Hin|].
    rewrite List.Forall_forall in IH. apply (IH x Hin Hx Hbc).
Qed.

Lemma entry_mapping_keys_are_constructs :
  Forall (fun kv : pytype * entry_class => issubclass kv.1 cs_Construct = true)
    entry_mapping_construct.
Proof. repeat constructor. Qed.


(** ** Nested renaming *)

Lemma rewrap_name k sc n :
  n <> "" -> con_name (rewrap k (cs_Renamed sc n)) = Some n.
Proof.
  intros Hn. induction k as [|k IH]; simpl.
  - apply cs_Renamed_name. exact Hn.
  - unfold cs_Renamed at 1. simpl. exact IH.
Qed.

(** X23: a name that is carried through nested [Renamed] nodes appears once
    in the path.  For [Renamed(... Renamed(n / sc) ...)] with [k] wrappers
    that give no new name, the factory builds an [EntryRenamed] whose
    [subentry] chain reaches, after [k] steps, the entry of [n / sc]; each
    of the [k] wrappers above it is marked exclude-from-path and has the
    path of the parent, and the entry of [n / sc] has the path of the parent
    followed by [n], once. *)
Theorem renamed_nesting_names_once (sc : construct) (n : string) (k : nat) :
  n <> "" -> con_name sc <> Some n ->
  forall par,
  exists outer inner,
    create_entry_from_construct (Some par) (rewrap k (cs_Renamed sc n))
      = Returns (Some outer) /\
    descend k outer = Returns inner /\
    construct_of inner = cs_Renamed sc n /\
    path inner = path par ++ [n] /\
    forall j, (j < k)%nat ->
      exists w, descend j outer = Returns w /\ excluded w = true /\ path w = path par.
Proof.
  intros Hn Hsc. induction k as [|k IH]; intros par.
  - exists (field_entry par n sc), (field_entry par n sc).
    split; [reflexivity|]. split; [reflexivity|]. split; [reflexivity|].
    split; [apply (field_entry_path par n sc Hn Hsc)|]. intros j Hj. lia.
  - set (inner_con := rewrap k (cs_Renamed sc n)).
    set (outer := Entry EntryRenamed (cs_Renamed inner_con "") true (Some par)).
    assert (Hcreate : create_entry_from_construct (Some par) (rewrap (S k) (cs_Renamed sc n))
                      = Returns (Some outer)).
    { cbn [rewrap]. fold inner_con.
      rewrite create_entry_cs_Renamed, EntryRenamed_init_cs_Renamed.
      cbn [mbind outcome_bind orb]. unfold outer. do 3 f_equal.
      apply bool_decide_eq_true_2. unfold cs_Renamed. reflexivity. }
    assert (Hx : excluded outer = true).
    { unfold excluded, outer. cbn [entry_cls exclude_from_path].
      rewrite (bool_decide_eq_true_2 _ eq_refl). reflexivity. }
    assert (Hpath : path outer = path par).
    { rewrite (path_excluded outer Hx). reflexivity. }
    destruct (IH outer) as (mid & inner & Hmid & Hdesc & Hcon & Hp & Hw).
    exists outer, inner. split; [exact Hcreate|].
    assert (Hsub : subentry outer = Returns (Some mid)).
    { unfold subentry, outer. cbn [construct_of]. unfold cs_Renamed at 1.
      cbn [con_subcon mbind outcome_bind]. exact Hmid. }
    split; [cbn [descend]; rewrite Hsub; exact Hdesc|].
    split; [exact Hcon|]. split; [rewrite Hp, Hpath; reflexivity|].
    intros [|j] Hj.
    + exists outer. split; [reflexivity|]. split; [exact Hx | exact Hpath].
    + destruct (Hw j ltac:(lia)) as (w & Hdw & Hxw & Hpw).
      exists w. split; [cbn [descend]; rewrite Hsub; exact Hdw|].
      split; [exact Hxw|]. rewrite Hpw. exact Hpath.
Qed.

Lemma renamed_nesting_names_once_witness :
  exists outer inner,
    create_entry_from_construct (Some sample_root) (rewrap 2 (cs_Renamed Int8ub "a"))
      = Returns (Some outer) /\
    descend 2 outer = Returns inner /\
    construct_of inner = cs_Renamed Int8ub "a" /\
    path inner = path sample_root ++ ["a"].
Proof.
  destruct (renamed_nesting_names_once Int8ub "a" 2 ltac:(discriminate)
              ltac:(discriminate) sample_root)
    as (outer & inner & H1 & H2 & H3 & H4 & _).
  exists outer, inner. auto.
Defined.
